(** * Remix-Dev-SDEF: the dispatch map, the layer loader and the incident API client

    A shallow embedding of the client-side logic of the forest-fire dispatch
    dashboard:

    - [Cone]: [createPropagationCone] and [getDegreesFromCardinal]
      (DispatchMapComponent);
    - [Dispatch]: [handleDeclareIncident] and [handleCoordinateSubmit]
      (DispatchMapComponent);
    - [MapLayers]: [loadLayerData] (MapComponent.tsx);
    - [Incendios]: the backend/frontend transforms and the CRUD calls of
      app/apis/incendios.ts;
    - [IncendiosCalls]: the statistics, search and bulk calls of that client
      and [handleIncendioError];
    - [Interaction]: the placemark handlers and [handleSearch]
      (DispatchMapComponent);
    - [LayerBuilders]: [createRoadNetworkLayers] (lib/map-layers);
    - [LayerPanel]: [handleLayerToggle] and the start-up passes
      (MapComponent.tsx);
    - [Html]: [renderHTMLContent].

    Numbers.  Where the code computes with numbers (the cone), a number is
    an IEEE 754 double: a primitive float, with the kernel's [+], [-], [*]
    and [/], so rounding, overflow, the infinities and NaN are those of the
    code; [Math.sin] and [Math.cos], whose values the language leaves to the
    implementation, are parameters.  Where the code only parses and compares
    numbers (the coordinate form, the incident records), a number is an exact
    real or the one non-finite value [NaN], which stands for +/-Infinity as
    well.

    Objects.  A response object is a record whose properties are optional
    ([None] is an absent property, read as [undefined]).  An object literal
    used as a lookup table is an association list of its own properties
    behind the properties every object inherits from [Object.prototype]. *)

From Stdlib Require Import Reals Lra Ascii String List ZArith Floats.
From stdpp Require Import gmap strings.

(** A decimal literal of a double denotes the nearest double, as it does in
    JavaScript. *)
Set Warnings "-inexact-float".

(** ** JavaScript values shared by the components *)

Module JS.

Local Open Scope R_scope.

(** *** Numbers that are parsed and compared

    A finite real or the non-finite value. *)
Inductive number : Type :=
| NaN
| Num (r : R).

(** [isNaN] of a number. *)
Definition isNaN (a : number) : bool :=
  match a with
  | NaN => true
  | Num _ => false
  end.

(** [a >= b] and [a <= b]: every comparison with NaN is false. *)
Definition ge (a b : number) : bool :=
  match a, b with
  | Num x, Num y => if Rle_dec y x then true else false
  | _, _ => false
  end.

Definition le (a b : number) : bool :=
  match a, b with
  | Num x, Num y => if Rle_dec x y then true else false
  | _, _ => false
  end.

(** Truthiness of a number: 0 and NaN are falsy. *)
Definition truthy_number (a : number) : bool :=
  match a with
  | NaN => false
  | Num x => if Req_dec_T x 0 then false else true
  end.

(** Truthiness of a string: only the empty string is falsy. *)
Definition truthy_string (s : string) : bool :=
  negb (String.eqb s "").

(** Truthiness of an optional property whose value, when present, is a
    string, a boolean or an object. *)
Definition truthy_opt_string (o : option string) : bool :=
  match o with
  | Some s => truthy_string s
  | None => false
  end.

Definition truthy_opt_bool (o : option bool) : bool :=
  match o with
  | Some b => b
  | None => false
  end.

Definition truthy_opt_object {A : Type} (o : option A) : bool :=
  match o with
  | Some _ => true
  | None => false
  end.

(** The result of a call: a returned value or a thrown exception. *)
Inductive Error : Type :=
| TypeError
| HttpError
| NetworkError
| SyntaxError.

Inductive Completion (A : Type) : Type :=
| Returns (a : A)
| Throws (e : Error).

Arguments Returns {A} a.
Arguments Throws {A} e.

(** The names of the properties every plain object inherits from
    [Object.prototype] (ECMAScript, with Annex B). *)
Definition ObjectPrototype : list string :=
  [ "constructor"; "hasOwnProperty"; "isPrototypeOf"; "propertyIsEnumerable";
    "toLocaleString"; "toString"; "valueOf"; "__proto__";
    "__defineGetter__"; "__defineSetter__";
    "__lookupGetter__"; "__lookupSetter__" ]%string.

(** What [obj[key]] evaluates to on an object literal: the value of an own
    property, or the built-in function (or object) found on the prototype. *)
Inductive Property (V : Type) : Type :=
| Own (v : V)
| Builtin (name : string).

Arguments Own {V} v.
Arguments Builtin {V} name.

Fixpoint own_property {V : Type} (obj : list (string * V)) (key : string)
  : option V :=
  match obj with
  | [] => None
  | (k, v) :: rest => if String.eqb k key then Some v else own_property rest key
  end.

Definition inherited (key : string) : bool :=
  existsb (String.eqb key) ObjectPrototype.

(** [obj[key]]; [None] is [undefined]. *)
Definition get {V : Type} (obj : list (string * V)) (key : string)
  : option (Property V) :=
  match own_property obj key with
  | Some v => Some (Own v)
  | None => if inherited key then Some (Builtin key) else None
  end.

(** The property key an optional string is converted to. *)
Definition property_key (k : option string) : string :=
  match k with
  | Some s => s
  | None => "undefined"
  end.

(** *** Numbers that are computed with

    An IEEE 754 double is a primitive float; [+], [-], [*] and [/] on
    numbers are the operations of the kernel, rounding and overflow
    included. *)

(** Truthiness of a double: 0, -0 and NaN are falsy. *)
Definition truthy_float (x : float) : bool :=
  negb (PrimFloat.is_zero x || PrimFloat.is_nan x).

(** [Math.PI]. *)
Definition Math_PI : float := 0x1.921fb54442d18p+1%float.

(** [Math.max(a, b)]: NaN if either is NaN, and +0 for the two zeros. *)
Definition Math_max (a b : float) : float :=
  if PrimFloat.is_nan a || PrimFloat.is_nan b then PrimFloat.nan
  else if PrimFloat.ltb a b then b
  else if PrimFloat.ltb b a then a
  else if PrimFloat.is_zero a then PrimFloat.add a b
  else a.

(** [ToNumber] of a looked-up number: a built-in function or object converts
    to NaN. *)
Definition to_number (p : Property float) : float :=
  match p with
  | Own x => x
  | Builtin _ => PrimFloat.nan
  end.

End JS.

(** ** The propagation cone (DispatchMapComponent, [createPropagationCone]) *)

Module Cone.

Import JS.
Local Open Scope float_scope.

(** Any JSON value, an array or an object as its JSON text: what the
    response holds besides the properties the cone reads. *)
Inductive Value : Type :=
| VNull
| VBool (b : bool)
| VNumber (x : float)
| VText (s : string)
| VJson (text : string).

(** The declare-incident response.  The properties the cone reads are
    optional, as the response is untyped in the source; every object also
    carries its other properties, whatever they are. *)
Record Coordinates : Type := {
  latitude : float;
  longitude : float;
  coordinates_rest : list (string * Value)
}.

Record CurrentConditions : Type := {
  wind_speed_kmh : option float;
  wind_direction_degrees : option float;
  conditions_rest : list (string * Value)
}.

Record FirePropagation : Type := {
  risk_level : option string;
  direccion_aproximada : option string;
  propagation_rest : list (string * Value)
}.

Record WeatherAnalysis : Type := {
  found : option bool;
  current_conditions : option CurrentConditions;
  fire_propagation : option FirePropagation;
  weather_rest : list (string * Value)
}.

Record IncidentData : Type := {
  coordinates : option Coordinates;
  weather_analysis : option WeatherAnalysis;
  response_rest : list (string * Value)
}.

(** The GeoJSON value that is returned.  A position is [[lon, lat]]. *)
Definition Position : Type := (float * float)%type.

Record Geometry : Type := {
  geom_type : string;
  geom_coordinates : list (list Position)
}.

Record ConeProperties : Type := {
  prop_type : string;
  wind_speed : float;
  wind_direction : float;
  prop_risk_level : string;
  propagation_direction : option string
}.

Record Feature : Type := {
  feat_type : string;
  properties : ConeProperties;
  geometry : Geometry
}.

Record FeatureCollection : Type := {
  fc_type : string;
  features : list Feature
}.

(** [cardinalMap], the object literal of [getDegreesFromCardinal]. *)
Definition cardinalMap : list (string * float) :=
  [ ("Norte"%string, 0); ("Noreste"%string, 45); ("Este"%string, 90);
    ("Sureste"%string, 135); ("Sur"%string, 180); ("Suroeste"%string, 225);
    ("Oeste"%string, 270); ("Noroeste"%string, 315) ].

(** [cardinalMap[direction] || 0]. *)
Definition getDegreesFromCardinal (direction : option string)
  : Property float :=
  match get cardinalMap (property_key direction) with
  | Some (Own d) => if truthy_float d then Own d else Own 0
  | Some (Builtin f) => Builtin f
  | None => Own 0
  end.

(** [risk_level === 'ALTO' ? 2 : risk_level === 'MEDIO' ? 1.5 : 1]. *)
Definition riskMultiplier (risk : string) : float :=
  if String.eqb risk "ALTO" then 2
  else if String.eqb risk "MEDIO" then 1.5
  else 1.

Definition metersPerDegree : float := 111000.

(** The 30 degree half-angle of the cone, [Math.PI / 6]. *)
Definition coneAngle : float := Math_PI / 6.

(** [baseRadius = Math.max(wind_speed_kmh * 55, 100)],
    [coneRadius = baseRadius * riskMultiplier], [coneLength = coneRadius * 2]. *)
Definition coneLength (wind : float) (risk : string) : float :=
  let baseRadius := Math_max (wind * 55) 100 in
  let coneRadius := baseRadius * riskMultiplier risk in
  coneRadius * 2.

(** [(90 - propagationDegrees) * (Math.PI / 180)]. *)
Definition mathAngle (propagationDegrees : Property float) : float :=
  (90 - to_number propagationDegrees) * (Math_PI / 180).

Section Trigonometry.

(** [Math.sin] and [Math.cos]: the language leaves their values to the
    implementation. *)
Variable Math_sin : float -> float.
Variable Math_cos : float -> float.

(** The point at [coneLength] metres from the incident in direction [angle]:
    [[longitude + (coneLength / metersPerDegree) * Math.cos(angle)
                  / Math.cos(latitude * Math.PI / 180),
      latitude + (coneLength / metersPerDegree) * Math.sin(angle)]]. *)
Definition conePoint (c : Coordinates) (len : float) (angle : float)
  : Position :=
  let lat := latitude c + (len / metersPerDegree) * Math_sin angle in
  let lon :=
    longitude c
    + (len / metersPerDegree) * Math_cos angle
      / Math_cos (latitude c * Math_PI / 180) in
  (lon, lat).

(** The five positions pushed on [vertices], in order. *)
Definition coneVertices (c : Coordinates) (len : float) (angle : float)
  : list Position :=
  let origin : Position := (longitude c, latitude c) in
  let tip := conePoint c len angle in
  let leftAngle := angle - coneAngle in
  let rightAngle := angle + coneAngle in
  let left := conePoint c len leftAngle in
  let right := conePoint c len rightAngle in
  [origin; left; tip; right; origin].

(** [createPropagationCone].  The source also computes [propagationAngle]
    from [wind_direction_degrees], with [%] and [*] on numbers, and never
    reads it; that binding is left out. *)
Definition createPropagationCone (incidentData : option IncidentData)
  : Completion (option FeatureCollection) :=
  (* !incidentData?.weather_analysis?.found ||
     !incidentData?.weather_analysis?.current_conditions *)
  let wa := incidentData ≫= weather_analysis in
  if negb (truthy_opt_bool (wa ≫= found))
     || negb (truthy_opt_object (wa ≫= current_conditions))
  then Returns None
  else
    match incidentData, wa with
    | Some data, Some weather =>
        (* const { latitude, longitude } = incidentData.coordinates *)
        match coordinates data with
        | None => Throws TypeError
        | Some c =>
            (* current_conditions || {} and fire_propagation || {} *)
            let wind := current_conditions weather ≫= wind_speed_kmh in
            let direction :=
              current_conditions weather ≫= wind_direction_degrees in
            let risk := fire_propagation weather ≫= risk_level in
            match wind, direction, risk with
            | Some w, Some d, Some r =>
                if negb (truthy_float w)
                   || negb (truthy_float d)
                   || negb (truthy_string r)
                then Returns None
                else
                  let len := coneLength w r in
                  let approx :=
                    fire_propagation weather ≫= direccion_aproximada in
                  let propagationDegrees := getDegreesFromCardinal approx in
                  let vertices :=
                    coneVertices c len (mathAngle propagationDegrees) in
                  let coneFeature :=
                    {| feat_type := "Feature";
                       properties :=
                         {| prop_type := "fire_propagation_cone";
                            wind_speed := w;
                            wind_direction := d;
                            prop_risk_level := r;
                            propagation_direction := approx |};
                       geometry :=
                         {| geom_type := "Polygon";
                            geom_coordinates := [vertices] |} |} in
                  Returns (Some {| fc_type := "FeatureCollection";
                                   features := [coneFeature] |})
            | _, _, _ => Returns None
            end
        end
    | _, _ => Returns None
    end.

(** The collection [createPropagationCone] builds once both guards pass. *)
Definition cone_of (c : Coordinates) (w d : float) (r : string)
    (approx : option string) : FeatureCollection :=
  {| fc_type := "FeatureCollection";
     features :=
       [ {| feat_type := "Feature";
            properties :=
              {| prop_type := "fire_propagation_cone";
                 wind_speed := w;
                 wind_direction := d;
                 prop_risk_level := r;
                 propagation_direction := approx |};
            geometry :=
              {| geom_type := "Polygon";
                 geom_coordinates :=
                   [coneVertices c (coneLength w r)
                      (mathAngle (getDegreesFromCardinal approx))] |} |} ] |}.

End Trigonometry.

(** The property paths the function reads. *)
Definition latitude_of (d : IncidentData) : option float :=
  latitude <$> coordinates d.

Definition longitude_of (d : IncidentData) : option float :=
  longitude <$> coordinates d.

Definition weather_found (d : IncidentData) : option bool :=
  weather_analysis d ≫= found.

Definition conditions_of (d : IncidentData) : option CurrentConditions :=
  weather_analysis d ≫= current_conditions.

Definition wind_speed_of (d : IncidentData) : option float :=
  conditions_of d ≫= wind_speed_kmh.

Definition wind_direction_of (d : IncidentData) : option float :=
  conditions_of d ≫= wind_direction_degrees.

Definition propagation_of (d : IncidentData) : option FirePropagation :=
  weather_analysis d ≫= fire_propagation.

Definition risk_level_of (d : IncidentData) : option string :=
  propagation_of d ≫= risk_level.

Definition direccion_of (d : IncidentData) : option string :=
  propagation_of d ≫= direccion_aproximada.

Definition truthy_opt_float (o : option float) : bool :=
  match o with
  | Some x => truthy_float x
  | None => false
  end.

(** The input is insufficient: the weather analysis is absent or not found,
    the current conditions are absent, or one of the three required fields
    is falsy. *)
Definition insufficient (d : option IncidentData) : bool :=
  match d with
  | None => true
  | Some d =>
      negb (truthy_opt_object (weather_analysis d))
      || negb (truthy_opt_bool (weather_found d))
      || negb (truthy_opt_object (conditions_of d))
      || negb (truthy_opt_float (wind_speed_of d))
      || negb (truthy_opt_float (wind_direction_of d))
      || negb (truthy_opt_string (risk_level_of d))
  end.

(** A returned value is a collection of exactly one polygon feature. *)
Definition one_polygon_feature (fc : FeatureCollection) : Prop :=
  fc_type fc = "FeatureCollection"%string /\
  exists f, features fc = [f] /\ feat_type f = "Feature"%string /\
            geom_type (geometry f) = "Polygon"%string.

(** A ring is closed: it starts and ends at the same position. *)
Definition closed_ring (ring : list Position) : Prop :=
  exists p middle, ring = p :: middle ++ [p].

(** The positions of a ring are exactly [n] distinct vertices. *)
Definition distinct_vertices (ring : list Position) (n : nat) : Prop :=
  exists vs : list Position,
    NoDup vs /\ length vs = n /\ forall p, p ∈ ring <-> p ∈ vs.

(** Two positions are equal as numbers. *)
Definition position_eqb (p q : Position) : bool :=
  (fst p =? fst q) && (snd p =? snd q).

(** The third position of the ring of a single polygon: the tip. *)
Definition cone_tip (geometries : list Geometry) : option Position :=
  match geometries with
  | [g] =>
      match geom_coordinates g with
      | [_ :: _ :: tip :: _] => Some tip
      | _ => None
      end
  | _ => None
  end.

(** A triangular polygon: one closed ring with three distinct vertices. *)
Definition triangular (g : Geometry) : Prop :=
  exists ring, geom_coordinates g = [ring] /\
               closed_ring ring /\ distinct_vertices ring 3.

(** Sample responses, after the incident of the component's tests. *)
Definition complete_weather (w d : float) (risk dir : string)
  : WeatherAnalysis :=
  {| found := Some true;
     current_conditions :=
       Some {| wind_speed_kmh := Some w; wind_direction_degrees := Some d;
               conditions_rest := [] |};
     fire_propagation :=
       Some {| risk_level := Some risk; direccion_aproximada := Some dir;
               propagation_rest := [] |};
     weather_rest := [] |}.

Definition valparaiso : Coordinates :=
  {| latitude := -33.0472; longitude := -71.6127; coordinates_rest := [] |}.

Definition incident (w d : float) (risk dir : string) : IncidentData :=
  {| coordinates := Some valparaiso;
     weather_analysis := Some (complete_weather w d risk dir);
     response_rest := [] |}.

(** The same response without its [coordinates] property. *)
Definition no_coordinates : IncidentData :=
  {| coordinates := None;
     weather_analysis := Some (complete_weather 20 180 "ALTO" "Norte");
     response_rest := [] |}.

(** No wind, and no [coordinates] property. *)
Definition becalmed_without_coordinates : IncidentData :=
  {| coordinates := None;
     weather_analysis := Some (complete_weather 0 180 "ALTO" "Norte");
     response_rest := [] |}.

(** The incident of the tests as the backend sends it, with the sections
    and properties the cone does not read; the wind direction, its cardinal
    name and the brigades vary. *)
Definition incident_in_full (d : float) (cardinal brigades : string)
  : IncidentData :=
  {| coordinates := Some valparaiso;
     weather_analysis :=
       Some {| found := Some true;
               current_conditions :=
                 Some {| wind_speed_kmh := Some 20;
                         wind_direction_degrees := Some d;
                         conditions_rest :=
                           [("wind_direction_cardinal"%string,
                             VText cardinal)] |};
               fire_propagation :=
                 Some {| risk_level := Some "ALTO"%string;
                         direccion_aproximada := Some "Este"%string;
                         propagation_rest :=
                           [("risk_description"%string,
                             VText "Condiciones de alto riesgo")] |};
               weather_rest := [] |};
     response_rest :=
       [("incendio_id"%string, VNumber 7);
        ("comuna_info"%string, VJson "{}");
        ("brigade_analysis"%string, VJson brigades)] |}.

(** [Math.sin] and [Math.cos] on the angles of the samples: 0, plus and minus
    [Math.PI / 6], the angles of a cone towards Noreste, and the latitude of
    the sample incident in radians.  Any other argument stands for NaN, as
    NaN itself does. *)
Definition sample_sin (x : float) : float :=
  if x =? 0 then 0
  else if x =? 0.5235987755982988 then 0.49999999999999994
  else if x =? -0.5235987755982988 then -0.49999999999999994
  else if x =? 0.26179938779914946 then 0.2588190451025208
  else if x =? 0.7853981633974483 then 0.7071067811865475
  else if x =? 1.308996938995747 then 0.9659258262890682
  else nan.

Definition sample_cos (x : float) : float :=
  if x =? 0 then 1
  else if x =? 0.5235987755982988 then 0.8660254037844387
  else if x =? -0.5235987755982988 then 0.8660254037844387
  else if x =? 0.26179938779914946 then 0.9659258262890683
  else if x =? 0.7853981633974483 then 0.7071067811865476
  else if x =? 1.308996938995747 then 0.25881904510252096
  else if x =? -0.57678244856507 then 0.8382216122834771
  else nan.

End Cone.

(** ** Declaring an incident and entering coordinates (DispatchMapComponent) *)

Module Dispatch.

Import JS Cone.
Local Open Scope R_scope.

Record Placemark : Type := {
  pm_latitude : number;
  pm_longitude : number
}.

Record CoordinateInput : Type := {
  input_latitude : string;
  input_longitude : string
}.

(** The component state the two handlers read and write. *)
Record State : Type := {
  placemark : Placemark;
  showEnhancedSearch : bool;
  coordinateInput : CoordinateInput;
  showTooltip : bool;
  showDrawer : bool;
  incendioData : option IncidentData;
  isSubmitting : bool;
  incidentDeclared : bool;
  propagationCone : option FeatureCollection
}.

Definition setPlacemark (p : Placemark) (st : State) : State :=
  {| placemark := p;
     showEnhancedSearch := showEnhancedSearch st;
     coordinateInput := coordinateInput st;
     showTooltip := showTooltip st;
     showDrawer := showDrawer st;
     incendioData := incendioData st;
     isSubmitting := isSubmitting st;
     incidentDeclared := incidentDeclared st;
     propagationCone := propagationCone st |}.

Definition setShowEnhancedSearch (b : bool) (st : State) : State :=
  {| placemark := placemark st;
     showEnhancedSearch := b;
     coordinateInput := coordinateInput st;
     showTooltip := showTooltip st;
     showDrawer := showDrawer st;
     incendioData := incendioData st;
     isSubmitting := isSubmitting st;
     incidentDeclared := incidentDeclared st;
     propagationCone := propagationCone st |}.

Definition setCoordinateInput (i : CoordinateInput) (st : State) : State :=
  {| placemark := placemark st;
     showEnhancedSearch := showEnhancedSearch st;
     coordinateInput := i;
     showTooltip := showTooltip st;
     showDrawer := showDrawer st;
     incendioData := incendioData st;
     isSubmitting := isSubmitting st;
     incidentDeclared := incidentDeclared st;
     propagationCone := propagationCone st |}.

Definition setShowTooltip (b : bool) (st : State) : State :=
  {| placemark := placemark st;
     showEnhancedSearch := showEnhancedSearch st;
     coordinateInput := coordinateInput st;
     showTooltip := b;
     showDrawer := showDrawer st;
     incendioData := incendioData st;
     isSubmitting := isSubmitting st;
     incidentDeclared := incidentDeclared st;
     propagationCone := propagationCone st |}.

Definition setShowDrawer (b : bool) (st : State) : State :=
  {| placemark := placemark st;
     showEnhancedSearch := showEnhancedSearch st;
     coordinateInput := coordinateInput st;
     showTooltip := showTooltip st;
     showDrawer := b;
     incendioData := incendioData st;
     isSubmitting := isSubmitting st;
     incidentDeclared := incidentDeclared st;
     propagationCone := propagationCone st |}.

Definition setIncendioData (d : option IncidentData) (st : State) : State :=
  {| placemark := placemark st;
     showEnhancedSearch := showEnhancedSearch st;
     coordinateInput := coordinateInput st;
     showTooltip := showTooltip st;
     showDrawer := showDrawer st;
     incendioData := d;
     isSubmitting := isSubmitting st;
     incidentDeclared := incidentDeclared st;
     propagationCone := propagationCone st |}.

Definition setIsSubmitting (b : bool) (st : State) : State :=
  {| placemark := placemark st;
     showEnhancedSearch := showEnhancedSearch st;
     coordinateInput := coordinateInput st;
     showTooltip := showTooltip st;
     showDrawer := showDrawer st;
     incendioData := incendioData st;
     isSubmitting := b;
     incidentDeclared := incidentDeclared st;
     propagationCone := propagationCone st |}.

Definition setIncidentDeclared (b : bool) (st : State) : State :=
  {| placemark := placemark st;
     showEnhancedSearch := showEnhancedSearch st;
     coordinateInput := coordinateInput st;
     showTooltip := showTooltip st;
     showDrawer := showDrawer st;
     incendioData := incendioData st;
     isSubmitting := isSubmitting st;
     incidentDeclared := b;
     propagationCone := propagationCone st |}.

Definition setPropagationCone (c : option FeatureCollection) (st : State)
  : State :=
  {| placemark := placemark st;
     showEnhancedSearch := showEnhancedSearch st;
     coordinateInput := coordinateInput st;
     showTooltip := showTooltip st;
     showDrawer := showDrawer st;
     incendioData := incendioData st;
     isSubmitting := isSubmitting st;
     incidentDeclared := incidentDeclared st;
     propagationCone := c |}.

(** What a handler does besides updating the state, in order. *)
Inductive Effect : Type :=
| Fetch (url : string) (longitude latitude : number)
| Alert (message : string)
| EaseTo (lng lat : number) (zoom duration : Z)
| ShowTooltipAfter (delay : Z).

(** What the POST to [/incendios/declarar] comes back with: the [fetch]
    promise rejects, or it resolves to a response whose [json()] rejects,
    yields [null], or yields an object. *)
Inductive Body : Type :=
| InvalidJson
| JsonNull
| JsonObject (data : IncidentData).

Inductive FetchOutcome : Type :=
| Rejected
| Response (ok : bool) (status : Z) (body : Body).

Definition declarar_url : string := "http://172.203.150.174:8100/incendios/declarar".

Definition declare_error_message : string :=
  "Error al declarar el incendio. Por favor, inténtelo de nuevo.".

Section Declare.

(** [Math.sin] and [Math.cos], which [createPropagationCone] calls. *)
Variable Math_sin : float -> float.
Variable Math_cos : float -> float.

(** The [try] block of [handleDeclareIncident]: the state reached and how the
    block completed.  State updates made before a throw are kept. *)
Definition declareTry (outcome : FetchOutcome) (st : State)
  : State * Completion unit :=
  match outcome with
  | Rejected => (st, Throws NetworkError)
  | Response ok status body =>
      if negb ok then (st, Throws HttpError)
      else
        match body with
        | InvalidJson => (st, Throws SyntaxError)
        | JsonNull => (st, Throws TypeError) (* data.brigade_analysis *)
        | JsonObject data =>
            let st1 := setIncidentDeclared true (setIncendioData (Some data) st) in
            match createPropagationCone Math_sin Math_cos (Some data) with
            | Throws e => (st1, Throws e)
            | Returns cone =>
                let st2 :=
                  match cone with
                  | Some c => setPropagationCone (Some c) st1
                  | None => st1
                  end in
                (setShowDrawer true (setShowTooltip false st2), Returns tt)
            end
        end
  end.

(** [handleDeclareIncident]: [setIsSubmitting(true)], the [try] block, the
    [catch] (one alert), and the [finally] ([setIsSubmitting(false)]). *)
Definition handleDeclareIncident (outcome : FetchOutcome) (st : State)
  : State * list Effect :=
  let st0 := setIsSubmitting true st in
  let request :=
    Fetch declarar_url (pm_longitude (placemark st)) (pm_latitude (placemark st)) in
  let (st1, completion) := declareTry outcome st0 in
  let caught :=
    match completion with
    | Returns _ => []
    | Throws _ => [Alert declare_error_message]
    end in
  (setIsSubmitting false st1, request :: caught).

End Declare.

(** The POST failed: the fetch rejected or the status is not ok. *)
Definition post_failed (outcome : FetchOutcome) : bool :=
  match outcome with
  | Rejected => true
  | Response ok _ _ => negb ok
  end.

Definition invalid_coordinates_message : string :=
  "Por favor ingresa coordenadas válidas".

Section CoordinateSubmit.

(** The global [parseFloat]. *)
Variable parseFloat : string -> number.

(** The test of [handleCoordinateSubmit]. *)
Definition valid_coordinates (lat lng : number) : bool :=
  negb (isNaN lat) && negb (isNaN lng)
  && ge lat (Num (-90)) && le lat (Num 90)
  && ge lng (Num (-180)) && le lng (Num 180).

(** [mapReady] tells whether [mapRef.current?.getMap()] is there. *)
Definition handleCoordinateSubmit (mapReady : bool) (st : State)
  : State * list Effect :=
  let lat := parseFloat (input_latitude (coordinateInput st)) in
  let lng := parseFloat (input_longitude (coordinateInput st)) in
  if valid_coordinates lat lng then
    let st1 := setPlacemark {| pm_latitude := lat; pm_longitude := lng |} st in
    let ease := if mapReady then [EaseTo lng lat 15 1000] else [] in
    let st2 :=
      setCoordinateInput {| input_latitude := ""; input_longitude := "" |} st1 in
    let st3 := setShowEnhancedSearch false st2 in
    let st4 := setShowTooltip false st3 in
    (st4, ease ++ [ShowTooltipAfter 100])
  else
    (st, [Alert invalid_coordinates_message]).

(** Both inputs parse to numbers, the latitude within [-90, 90] and the
    longitude within [-180, 180]. *)
Definition in_range (i : CoordinateInput) : Prop :=
  exists lat lng : R,
    parseFloat (input_latitude i) = Num lat /\
    parseFloat (input_longitude i) = Num lng /\
    -90 <= lat <= 90 /\ -180 <= lng <= 180.

End CoordinateSubmit.

(** The state of the first render. *)
Definition initial_state : State :=
  {| placemark :=
       {| pm_latitude := Num (-33.0472); pm_longitude := Num (-71.6127) |};
     showEnhancedSearch := false;
     coordinateInput := {| input_latitude := ""; input_longitude := "" |};
     showTooltip := true;
     showDrawer := false;
     incendioData := None;
     isSubmitting := false;
     incidentDeclared := false;
     propagationCone := None |}.

Definition typed (lat lng : string) (st : State) : State :=
  setCoordinateInput {| input_latitude := lat; input_longitude := lng |} st.

(** [parseFloat] on the strings typed in the examples; any other string
    stands for text that is not a number. *)
Definition sample_parseFloat (s : string) : number :=
  if String.eqb s "-33.0472" then Num (-33.0472)
  else if String.eqb s "-71.6127" then Num (-71.6127)
  else if String.eqb s "91" then Num 91
  else NaN.

End Dispatch.

(** ** Loading layer data (MapComponent.tsx, [loadLayerData]) *)

Module MapLayers.

Import JS.

Inductive LayerType : Type :=
| PointEnhanced
| WaterPolygons
| PriorityPolygons
| RoadNetwork
| AdministrativeRegions
| ElectricalSystem.

Record LayerConfig : Type := {
  id : string;
  name : string;
  file : string;
  color : string;
  enabled : bool;
  type : LayerType
}.

(** [LAYER_CONFIGS] of lib/map-layers. *)
Definition LAYER_CONFIGS : list LayerConfig :=
  [ {| id := "centrales-enhanced"; name := "Centrales Enhanced";
       file := "/recursos_actualizados_centrales_point_enhanced.geojson";
       color := "#4CAF50"; enabled := true; type := PointEnhanced |};
    {| id := "zonasur-activas"; name := "Zona Sur (Activas)";
       file := "/recursos_actualizados_zonasur_activas.geojson";
       color := "#ff0000"; enabled := true; type := PointEnhanced |};
    {| id := "hidro-poligonos"; name := "Cuerpos de Agua";
       file := "/hidro_polig_multipolygon.geojson";
       color := "#2563eb"; enabled := true; type := WaterPolygons |};
    {| id := "golpe-unico"; name := "Golpe Único";
       file := "/golpe_unico.geojson";
       color := "#dc2626"; enabled := true; type := PriorityPolygons |};
    {| id := "red-vial"; name := "Red Vial Valparaíso";
       file := "/red_vial_valparaiso.geojson";
       color := "#6b7280"; enabled := true; type := RoadNetwork |};
    {| id := "comunas-administrativas"; name := "Comunas Administrativas";
       file := "/comunas_administrativas.geojson";
       color := "#10b981"; enabled := false; type := AdministrativeRegions |};
    {| id := "sistema-electrico"; name := "Sistema Eléctrico";
       file := "/sistema_electrico.geojson";
       color := "#eab308"; enabled := false; type := ElectricalSystem |} ]%string.

(** What [fetch(config.file)] comes back with; [body = None] is a [json()]
    that rejects. *)
Inductive FetchOutcome (Json : Type) : Type :=
| Rejected
| Response (ok : bool) (body : option Json).

Arguments Rejected {Json}.
Arguments Response {Json} ok body.

Section Loader.

(** The value [response.json()] yields, and its truthiness. *)
Variable Json : Type.
Variable truthy : Json -> bool.

(** The layer builders of lib/map-layers; each may throw on its input. *)
Variable EnhancedLayer : Type.
Variable createRoadNetworkLayers : Json -> Completion (list EnhancedLayer).
Variable createPriorityPolygonLayers : Json -> Completion (list EnhancedLayer).
Variable createWaterPolygonLayers : Json -> Completion (list EnhancedLayer).
Variable createEnhancedCentralesLayers :
  Json -> string -> Completion (list EnhancedLayer).
Variable createAdministrativeRegionLayers :
  Json -> Completion (list EnhancedLayer).
Variable createElectricalSystemLayers :
  Json -> Completion (list EnhancedLayer).

(** The static files behind [fetch]. *)
Variable network : string -> FetchOutcome Json.

(** The three pieces of component state the loader writes. *)
Record State : Type := {
  layerData : gmap string Json;
  enhancedLayers : gmap string (list EnhancedLayer);
  loadedLayers : gset string
}.

Definition find_config (layerId : string) : option LayerConfig :=
  List.find (fun c => String.eqb (id c) layerId) LAYER_CONFIGS.

(** The [switch (config.type)]. *)
Definition createLayers (config : LayerConfig) (data : Json)
  : Completion (list EnhancedLayer) :=
  match type config with
  | RoadNetwork => createRoadNetworkLayers data
  | PriorityPolygons => createPriorityPolygonLayers data
  | WaterPolygons => createWaterPolygonLayers data
  | PointEnhanced => createEnhancedCentralesLayers data (id config)
  | AdministrativeRegions => createAdministrativeRegionLayers data
  | ElectricalSystem => createElectricalSystemLayers data
  end.

(** [layerData[layerId]] is truthy in the map the callback closed over. *)
Definition has_data (captured : gmap string Json) (layerId : string) : bool :=
  match captured !! layerId with
  | Some d => truthy d
  | None => false
  end.

(** One call of the [loadLayerData] callback.  [captured] is the
    [layerData] of the render that created the callback (its dependency
    list is [[layerData]]); [st] is the state the functional updates
    [prev => ...] are applied to.  The result is the new state and the
    files fetched.  A throw inside the [try] is caught and logged; the
    updates made before it are kept. *)
Definition loadLayerData (captured : gmap string Json) (layerId : string)
    (st : State) : State * list string :=
  match find_config layerId with
  | None => (st, [])
  | Some config =>
      if has_data captured layerId then (st, [])
      else
        match network (file config) with
        | Rejected => (st, [file config])
        | Response ok body =>
            if negb ok then (st, [file config])
            else
              match body with
              | None => (st, [file config])
              | Some data =>
                  let st1 :=
                    {| layerData := <[layerId := data]> (layerData st);
                       enhancedLayers := enhancedLayers st;
                       loadedLayers := loadedLayers st |} in
                  match createLayers config data with
                  | Throws _ => (st1, [file config])
                  | Returns createdLayers =>
                      ({| layerData := layerData st1;
                          enhancedLayers :=
                            <[layerId := createdLayers]> (enhancedLayers st1);
                          loadedLayers := {[layerId]} ∪ loadedLayers st1 |},
                       [file config])
                  end
              end
        end
  end.

(** The callback of the render whose state is [st]. *)
Definition loadLayerData_current (layerId : string) (st : State)
  : State * list string :=
  loadLayerData (layerData st) layerId st.

End Loader.

Arguments layerData {Json EnhancedLayer} _.
Arguments enhancedLayers {Json EnhancedLayer} _.
Arguments loadedLayers {Json EnhancedLayer} _.

(** A sample deployment: the layer files hold numbered documents and the
    builders make no layers. *)
Definition no_layers (document : nat) : Completion (list unit) := Returns [].

Definition sample_load (network : string -> FetchOutcome nat)
  : gmap string nat -> string -> State nat unit -> State nat unit * list string :=
  loadLayerData nat (fun _ => true) unit no_layers no_layers no_layers
    (fun document _ => no_layers document) no_layers no_layers network.

Definition serves (document : nat) (url : string) : FetchOutcome nat :=
  Response true (Some document).

Definition first_render : State nat unit :=
  {| layerData := ∅; enhancedLayers := ∅; loadedLayers := ∅ |}.

(** The state once the road network was loaded from a file that holds
    document 1. *)
Definition roads_loaded : State nat unit :=
  {| layerData := {["red-vial"%string := 1%nat]};
     enhancedLayers := {["red-vial"%string := []]};
     loadedLayers := {["red-vial"%string]} |}.

End MapLayers.

(** ** The incident API client (app/apis/incendios.ts) *)

Module Incendios.

Import JS.

(** An incident as the backend sends it ([item: any]). *)
Record BackendItem : Type := {
  id_incendio : option Z;
  item_nombre : option string;
  item_descripcion : option string;
  item_latitude : option R;
  item_longitude : option R;
  item_created_at : option string;
  item_updated_at : option string;
  item_estado : option string;
  item_prioridad : option string;
  item_superficie_afectada : option R;
  item_causa : option string;
  item_recursos_asignados : option (list string);
  item_observaciones : option string
}.

(** [IIncendio], as the transforms build it at run time. *)
Record IIncendio : Type := {
  id : option Z;
  nombre : option string;
  descripcion : string;
  latitud : option R;
  longitud : option R;
  fecha_deteccion : string;
  fecha_declaracion : string;
  estado : Property string;
  prioridad : Property string;
  superficie_afectada : option R;
  causa : option string;
  recursos_asignados : list string;
  observaciones : option string;
  created_at : string;
  updated_at : string
}.

(** [IIncendioFilters]. *)
Record IIncendioFilters : Type := {
  filter_estado : option string;
  filter_prioridad : option string;
  fecha_desde : option string;
  fecha_hasta : option string;
  search : option string;
  page : option Z;
  limit : option Z
}.

(** The form data of [createIncendio] and [updateIncendio] ([data: any]). *)
Record IncendioForm : Type := {
  form_nombre : option string;
  form_descripcion : option string;
  form_latitud : option R;
  form_longitud : option R;
  form_estado : option string;
  form_prioridad : option string;
  form_superficie_afectada : option R;
  form_causa : option string;
  form_observaciones : option string
}.

Record Payload : Type := {
  payload_nombre : option string;
  payload_descripcion : option string;
  payload_latitude : option R;
  payload_longitude : option R;
  payload_estado : option (Property string);
  payload_prioridad : option (Property string);
  payload_superficie_afectada : option R;
  payload_causa : option string;
  payload_observaciones : option string
}.

Inductive QueryValue : Type :=
| Text (s : string)
| Number (n : Z).

(** The requests sent through [INCENDIOS_API].  The Authorization header,
    which no call reads back, is left out. *)
Inductive Request : Type :=
| GET_incendios (params : list (string * QueryValue))
| GET_incendio (id : option Z)
| POST_incendios (payload : Payload)
| PUT_incendio (id : Z) (payload : Payload)
| PATCH_estado (id : Z) (nuevo_estado : Property string)
| PATCH_prioridad (id : Z) (nueva_prioridad : Property string).

(** [response.data]. *)
Inductive ResponseData : Type :=
| DataNull
| DataItem (item : BackendItem)
| DataList (items : list BackendItem).

Record ListResult : Type := {
  data : list IIncendio;
  total : nat;
  result_page : Z;
  result_limit : Z
}.

Definition statusMap : list (string * string) :=
  [ ("DECLARADO", "activo"); ("EN_COMBATE", "activo");
    ("CONTROLADO", "controlado"); ("EXTINGUIDO", "extinguido");
    ("CANCELADO", "cancelado") ]%string.

Definition priorityMap : list (string * string) :=
  [ ("BAJA", "baja"); ("MEDIA", "media"); ("ALTA", "alta");
    ("CRITICA", "critica") ]%string.

Definition frontendStatusMap : list (string * string) :=
  [ ("activo", "DECLARADO"); ("controlado", "CONTROLADO");
    ("extinguido", "EXTINGUIDO"); ("cancelado", "CANCELADO") ]%string.

Definition frontendPriorityMap : list (string * string) :=
  [ ("baja", "BAJA"); ("media", "MEDIA"); ("alta", "ALTA");
    ("critica", "CRITICA") ]%string.

(** [table[key] || fallback] on a table of strings. *)
Definition lookup_or (table : list (string * string)) (key : option string)
    (fallback : string) : Property string :=
  match get table (property_key key) with
  | Some (Own s) => if truthy_string s then Own s else Own fallback
  | Some (Builtin f) => Builtin f
  | None => Own fallback
  end.

(** [value || fallback] on optional strings and numbers. *)
Definition string_or (value : option string) (fallback : string) : string :=
  match value with
  | Some s => if truthy_string s then s else fallback
  | None => fallback
  end.

Definition string_or_null (value : option string) : option string :=
  match value with
  | Some s => if truthy_string s then Some s else None
  | None => None
  end.

Definition number_or_null (value : option R) : option R :=
  match value with
  | Some x => if truthy_number (Num x) then Some x else None
  | None => None
  end.

Definition Z_or (value : option Z) (fallback : Z) : Z :=
  match value with
  | Some n => if Z.eqb n 0 then fallback else n
  | None => fallback
  end.

(** The four values of [estado] and of [prioridad]. *)
Definition ESTADOS : list (Property string) :=
  [Own "activo"; Own "controlado"; Own "extinguido"; Own "cancelado"]%string.

Definition PRIORIDADES : list (Property string) :=
  [Own "baja"; Own "media"; Own "alta"; Own "critica"]%string.

(** A lower-case ASCII letter. *)
Definition is_lower (c : ascii) : bool :=
  (97 <=? nat_of_ascii c)%nat && (nat_of_ascii c <=? 122)%nat.

Definition is_upper (c : ascii) : bool :=
  (65 <=? nat_of_ascii c)%nat && (nat_of_ascii c <=? 90)%nat.

(** Upper- and lower-casing of the ASCII letters of a string. *)
Definition ascii_upper (c : ascii) : ascii :=
  if is_lower c then ascii_of_nat (nat_of_ascii c - 32) else c.

Definition ascii_lower (c : ascii) : ascii :=
  if is_upper c then ascii_of_nat (nat_of_ascii c + 32) else c.

Fixpoint map_string (f : ascii -> ascii) (s : string) : string :=
  match s with
  | EmptyString => EmptyString
  | String c rest => String (f c) (map_string f rest)
  end.

Definition asciiToUpperCase : string -> string := map_string ascii_upper.
Definition asciiToLowerCase : string -> string := map_string ascii_lower.

(** [estado] and [prioridad] are within their enumerations. *)
Definition in_enums (inc : IIncendio) : Prop :=
  In (estado inc) ESTADOS /\ In (prioridad inc) PRIORIDADES.

Section Api.

(** [String.prototype.toUpperCase] and [toLowerCase]. *)
Variable toUpperCase : string -> string.
Variable toLowerCase : string -> string.

(** [new Date().toISOString()]. *)
Variable now : string.

(** The backend behind [INCENDIOS_API]: a request is answered from the
    server state with [response.data], or the call rejects. *)
Variable Server : Type.
Variable handle : Request -> Server -> Completion ResponseData * Server.

Definition transformBackendStatus (backendStatus : option string)
  : Property string :=
  lookup_or statusMap (toUpperCase <$> backendStatus) "activo".

Definition transformBackendPriority (backendPriority : option string)
  : Property string :=
  lookup_or priorityMap (toUpperCase <$> backendPriority) "media".

Definition transformFrontendStatus (frontendStatus : option string)
  : Property string :=
  lookup_or frontendStatusMap (toLowerCase <$> frontendStatus) "DECLARADO".

Definition transformFrontendPriority (frontendPriority : option string)
  : Property string :=
  lookup_or frontendPriorityMap (toLowerCase <$> frontendPriority) "MEDIA".

(** The object built from one backend item by [getIncendios] and
    [getIncendio]. *)
Definition transformItem (item : BackendItem) : IIncendio :=
  {| id := id_incendio item;
     nombre := item_nombre item;
     descripcion := string_or (item_descripcion item) "";
     latitud := item_latitude item;
     longitud := item_longitude item;
     fecha_deteccion := string_or (item_created_at item) now;
     fecha_declaracion := string_or (item_created_at item) now;
     estado := transformBackendStatus (item_estado item);
     prioridad := transformBackendPriority (item_prioridad item);
     superficie_afectada := number_or_null (item_superficie_afectada item);
     causa := string_or_null (item_causa item);
     recursos_asignados := default [] (item_recursos_asignados item);
     observaciones := string_or_null (item_observaciones item);
     created_at := string_or (item_created_at item) now;
     updated_at := string_or (item_updated_at item) now |}.

(** The client and the backend: the server state and the requests sent so
    far, oldest first. *)
Record World : Type := {
  server : Server;
  trace : list Request
}.

(** An asynchronous call: it runs on a world and resolves or rejects. *)
Definition Client (A : Type) : Type := World -> Completion A * World.

Definition resolve {A : Type} (a : A) : Client A :=
  fun w => (Returns a, w).

Definition reject {A : Type} (e : Error) : Client A :=
  fun w => (Throws e, w).

(** [await]. *)
Definition await {A B : Type} (c : Client A) (k : A -> Client B) : Client B :=
  fun w =>
    match c w with
    | (Returns a, w1) => k a w1
    | (Throws e, w1) => (Throws e, w1)
    end.

(** One request through axios. *)
Definition send (r : Request) : Client ResponseData :=
  fun w =>
    let (answer, s) := handle r (server w) in
    (answer, {| server := s; trace := trace w ++ [r] |}).

(** An array read as an object has none of the item's properties. *)
Definition no_properties : BackendItem :=
  {| id_incendio := None; item_nombre := None; item_descripcion := None;
     item_latitude := None; item_longitude := None;
     item_created_at := None; item_updated_at := None;
     item_estado := None; item_prioridad := None;
     item_superficie_afectada := None; item_causa := None;
     item_recursos_asignados := None; item_observaciones := None |}.

(** [response.data] read as an object; reading a property of [null]
    throws. *)
Definition as_object (d : ResponseData) : Completion BackendItem :=
  match d with
  | DataNull => Throws TypeError
  | DataItem item => Returns item
  | DataList _ => Returns no_properties
  end.

Definition add_text (key : string) (value : option string)
    (params : list (string * QueryValue)) : list (string * QueryValue) :=
  match value with
  | Some s => if truthy_string s then params ++ [(key, Text s)] else params
  | None => params
  end.

Definition add_number (key : string) (value : option Z)
    (params : list (string * QueryValue)) : list (string * QueryValue) :=
  match value with
  | Some n => if Z.eqb n 0 then params else params ++ [(key, Number n)]
  | None => params
  end.

Definition query (filters : option IIncendioFilters)
  : list (string * QueryValue) :=
  add_number "limit" (filters ≫= limit)
    (add_number "page" (filters ≫= page)
      (add_text "search" (filters ≫= search)
        (add_text "fecha_hasta" (filters ≫= fecha_hasta)
          (add_text "fecha_desde" (filters ≫= fecha_desde)
            (add_text "prioridad" (filters ≫= filter_prioridad)
              (add_text "estado" (filters ≫= filter_estado) [])))))).

Definition getIncendios (filters : option IIncendioFilters)
  : Client ListResult :=
  await (send (GET_incendios (query filters))) (fun d =>
    match d with
    | DataList items =>
        let transformedData := map transformItem items in
        resolve {| data := transformedData;
                   total := length transformedData;
                   result_page := Z_or (filters ≫= page) 1;
                   result_limit := Z_or (filters ≫= limit) 10 |}
    | _ => reject TypeError (* response.data.map is not a function *)
    end).

Definition getIncendio (id : option Z) : Client IIncendio :=
  await (send (GET_incendio id)) (fun d =>
    match as_object d with
    | Returns item => resolve (transformItem item)
    | Throws e => reject e
    end).

Definition create_payload (form : IncendioForm) : Payload :=
  {| payload_nombre := form_nombre form;
     payload_descripcion := form_descripcion form;
     payload_latitude := form_latitud form;
     payload_longitude := form_longitud form;
     payload_estado := Some (transformFrontendStatus (form_estado form));
     payload_prioridad :=
       Some (transformFrontendPriority (form_prioridad form));
     payload_superficie_afectada := form_superficie_afectada form;
     payload_causa := form_causa form;
     payload_observaciones := form_observaciones form |}.

Definition update_payload (form : IncendioForm) : Payload :=
  {| payload_nombre := form_nombre form;
     payload_descripcion := form_descripcion form;
     payload_latitude := form_latitud form;
     payload_longitude := form_longitud form;
     payload_estado :=
       if truthy_opt_string (form_estado form)
       then Some (transformFrontendStatus (form_estado form)) else None;
     payload_prioridad :=
       if truthy_opt_string (form_prioridad form)
       then Some (transformFrontendPriority (form_prioridad form)) else None;
     payload_superficie_afectada := form_superficie_afectada form;
     payload_causa := form_causa form;
     payload_observaciones := form_observaciones form |}.

Definition createIncendio (form : IncendioForm) : Client IIncendio :=
  await (send (POST_incendios (create_payload form))) (fun d =>
    match as_object d with
    | Returns created => getIncendio (id_incendio created)
    | Throws e => reject e
    end).

Definition updateIncendio (id : Z) (form : IncendioForm) : Client IIncendio :=
  await (send (PUT_incendio id (update_payload form))) (fun _ =>
    getIncendio (Some id)).

Definition updateIncendioStatus (id : Z) (estado : option string)
  : Client IIncendio :=
  await (send (PATCH_estado id (transformFrontendStatus estado))) (fun _ =>
    getIncendio (Some id)).

Definition updateIncendioPriority (id : Z) (prioridad : option string)
  : Client IIncendio :=
  await (send (PATCH_prioridad id (transformFrontendPriority prioridad)))
    (fun _ => getIncendio (Some id)).

(** The id [createIncendio] reads off the answer to its POST
    ([response.data.id_incendio]), and the id the update calls were given. *)
Definition created_id (answer : ResponseData) : Completion (option Z) :=
  match as_object answer with
  | Returns created => Returns (id_incendio created)
  | Throws e => Throws e
  end.

Definition given_id (id : Z) (answer : ResponseData)
  : Completion (option Z) :=
  Returns (Some id).

(** The incident [inc] comes from a GET sent as the one request after
    [mutation] and answered by the server state the mutation left: from
    world [w] the call sent [mutation], then the GET of the id [id_of]
    gives, and nothing else; [inc] is the transform of the GET's answer,
    and [w'] is the world after the GET. *)
Definition refetched_after (mutation : Request)
    (id_of : ResponseData -> Completion (option Z))
    (w w' : World) (inc : IIncendio) : Prop :=
  exists (answer got : ResponseData) (fetched : option Z)
         (item : BackendItem) (s1 s2 : Server),
    handle mutation (server w) = (Returns answer, s1) /\
    id_of answer = Returns fetched /\
    handle (GET_incendio fetched) s1 = (Returns got, s2) /\
    as_object got = Returns item /\
    inc = transformItem item /\
    w' = {| server := s2;
            trace := trace w ++ [mutation; GET_incendio fetched] |}.

End Api.

(** A sample backend: the server state is the table of incidents. *)
Definition sample_item (n : Z) (estado prioridad : string) : BackendItem :=
  {| id_incendio := Some n;
     item_nombre := Some "Incendio_2024-01-01_7"%string;
     item_descripcion := None;
     item_latitude := Some (-33.0472)%R;
     item_longitude := Some (-71.6127)%R;
     item_created_at := Some "2024-01-01T12:00:00Z"%string;
     item_updated_at := None;
     item_estado := Some estado;
     item_prioridad := Some prioridad;
     item_superficie_afectada := None;
     item_causa := None;
     item_recursos_asignados := None;
     item_observaciones := None |}.

Definition has_id (n : Z) (item : BackendItem) : bool :=
  match id_incendio item with
  | Some m => Z.eqb m n
  | None => false
  end.

Definition with_estado (n : Z) (e : string) (item : BackendItem) : BackendItem :=
  if has_id n item then
    {| id_incendio := id_incendio item;
       item_nombre := item_nombre item;
       item_descripcion := item_descripcion item;
       item_latitude := item_latitude item;
       item_longitude := item_longitude item;
       item_created_at := item_created_at item;
       item_updated_at := item_updated_at item;
       item_estado := Some e;
       item_prioridad := item_prioridad item;
       item_superficie_afectada := item_superficie_afectada item;
       item_causa := item_causa item;
       item_recursos_asignados := item_recursos_asignados item;
       item_observaciones := item_observaciones item |}
  else item.

Definition sample_handle (r : Request) (table : list BackendItem)
  : Completion ResponseData * list BackendItem :=
  match r with
  | GET_incendios _ => (Returns (DataList table), table)
  | GET_incendio (Some n) =>
      match List.find (has_id n) table with
      | Some item => (Returns (DataItem item), table)
      | None => (Throws HttpError, table)
      end
  | PATCH_estado n (Own e) =>
      match List.find (has_id n) table with
      | Some item => (Returns DataNull, map (with_estado n e) table)
      | None => (Throws HttpError, table)
      end
  | _ => (Throws HttpError, table)
  end.

Definition sample_now : string := "2024-06-01T00:00:00Z".

Definition sample_world : World (list BackendItem) :=
  {| server := [ sample_item 1 "En_Combate" "urgente";
                 sample_item 2 "extinguido" "Alta" ];
     trace := [] |}.

End Incendios.

(** ** The other calls of the incident API client (app/apis/incendios.ts) *)

Module IncendiosCalls.

Import JS Incendios.
Local Open Scope R_scope.







(** What a call with a fallback resolves with: the endpoint's own
    [response.data], passed on as it came, or the value computed on the
    client. *)
Inductive Answer (Json A : Type) : Type :=
| FromServer (body : Json)
| Computed (value : A).

Arguments FromServer {Json A} body.
Arguments Computed {Json A} value.

Record BulkResult : Type := {
  updated_count : nat;
  updated_incendios : list IIncendio
}.

(** [errorData.detail]: a text or an array. *)
Inductive Detail : Type :=
| DetailText (text : string)
| DetailList (items : list string).

(** [error.response?.data]. *)
Record ErrorData : Type := {
  detail : option Detail;
  error : option string;
  message : option string
}.

(** What a [catch] receives: an [AxiosError] with its optional response
    data and its own message, or anything else. *)
Inductive Caught : Type :=
| AxiosError (response_data : option ErrorData) (error_message : string)
| OtherError.

Definition unknown_error_message : string :=
  "Error desconocido al procesar la solicitud".

Definition truthy_detail (d : option Detail) : bool :=
  match d with
  | Some (DetailText text) => truthy_string text
  | Some (DetailList _) => true
  | None => false
  end.

(** [handleIncendioError]. *)
Definition handleIncendioError (caught : Caught) : list string :=
  match caught with
  | AxiosError response_data error_message =>
      if truthy_detail (response_data ≫= detail) then
        match response_data ≫= detail with
        | Some (DetailList items) => items
        | Some (DetailText text) => [text]
        | None => []
        end
      else if truthy_opt_string (response_data ≫= error) then
        [default ""%string (response_data ≫= error)]
      else if truthy_opt_string (response_data ≫= message) then
        [default ""%string (response_data ≫= message)]
      else if truthy_string error_message then [error_message]
      else [unknown_error_message]
  | OtherError => [unknown_error_message]
  end.

Section Calls.

Variable toUpperCase : string -> string.
Variable toLowerCase : string -> string.
Variable now : string.
Variable Server : Type.
Variable handle : Request -> Server -> Completion ResponseData * Server.

(** The endpoints outside [Request]: the statistics summary and the bulk
    status update, each answering with a body the client passes on unread.
    They change the server state; the trace lists the incident requests
    only. *)
Variable Json : Type.
Variable handle_resumen : Server -> Completion Json * Server.
Variable handle_bulk :
  list Z -> Property string -> Server -> Completion Json * Server.

Definition send_other (endpoint : Server -> Completion Json * Server)
  : Client Server Json :=
  fun w =>
    let (answer, s) := endpoint (server Server w) in
    (answer, {| server := s; trace := trace Server w |}).

(** [try a catch b]: the handler runs on the world the failed attempt left. *)
Definition try_catch {A : Type} (attempt : Client Server A)
    (handler : Error -> Client Server A) : Client Server A :=
  fun w =>
    match attempt w with
    | (Returns a, w1) => (Returns a, w1)
    | (Throws e, w1) => handler e w1
    end.


(** [searchIncendios]. *)
Definition searchIncendios (query : string) (limit : option Z)
  : Client Server (list IIncendio) :=
  await Server
    (getIncendios toUpperCase now Server handle
       (Some {| filter_estado := None; filter_prioridad := None;
                fecha_desde := None; fecha_hasta := None;
                search := Some query; page := None; limit := limit |}))
    (fun incendiosResponse => resolve Server (data incendiosResponse)).

(** The [for] loop of the bulk fallback: each id is updated on its own, and
    an id whose update rejects is logged and skipped. *)
Fixpoint update_each (ids : list Z) (estado : option string)
    (updatedIncendios : list IIncendio) : Client Server (list IIncendio) :=
  match ids with
  | [] => resolve Server updatedIncendios
  | id :: rest =>
      fun w =>
        match updateIncendioStatus toUpperCase toLowerCase now Server handle
                id estado w with
        | (Returns updated, w1) =>
            update_each rest estado (updatedIncendios ++ [updated]) w1
        | (Throws _, w1) => update_each rest estado updatedIncendios w1
        end
  end.

Definition bulkUpdateIncendiosStatus (ids : list Z) (estado : option string)
  : Client Server (Answer Json BulkResult) :=
  try_catch
    (await Server
       (send_other (handle_bulk ids (transformFrontendStatus toLowerCase estado)))
       (fun body => resolve Server (FromServer body)))
    (fun _ =>
       await Server (update_each ids estado []) (fun updatedIncendios =>
         resolve Server
           (Computed {| updated_count := length updatedIncendios;
                        updated_incendios := updatedIncendios |}))).

End Calls.

(** Text with no lower-case ASCII letter and no byte outside ASCII: what
    upper-casing leaves as it is. *)
Definition is_ascii (c : ascii) : bool := (nat_of_ascii c <? 128)%nat.

Definition upper_text (s : string) : bool :=
  forallb (fun c => is_ascii c && negb (is_lower c)) (list_ascii_of_string s).

(** The keys of the query, in the order [getIncendios] appends them. *)
Definition filter_keys : list string :=
  ["estado"; "prioridad"; "fecha_desde"; "fecha_hasta"; "search"; "page";
   "limit"]%string.

(** The PATCH requests among the requests sent. *)
Definition is_patch (r : Request) : bool :=
  match r with
  | PATCH_estado _ _ => true
  | _ => false
  end.

(** A sample backend without the two extra endpoints. *)
Definition no_endpoint (table : list BackendItem)
  : Completion unit * list BackendItem :=
  (Throws HttpError, table).

End IncendiosCalls.

(** ** Moving the placemark (DispatchMapComponent) *)

Module Interaction.

Import JS Cone Dispatch.

(** [event.lngLat]. *)
Record LngLat : Type := {
  lng : number;
  lat : number
}.

(** The state of module [Dispatch] with the three further pieces the
    placemark handlers and the search read and write. *)
Record View : Type := {
  dispatch : State;
  isDragging : bool;
  events : gmap string LngLat;
  searchQuery : string
}.

Definition with_dispatch (st : State) (v : View) : View :=
  {| dispatch := st;
     isDragging := isDragging v;
     events := events v;
     searchQuery := searchQuery v |}.

Definition setIsDragging (b : bool) (v : View) : View :=
  {| dispatch := dispatch v;
     isDragging := b;
     events := events v;
     searchQuery := searchQuery v |}.

(** [logEvents(_events => ({ ..._events, [name]: lngLat }))]. *)
Definition logEvents (name : string) (at_ : LngLat) (v : View) : View :=
  {| dispatch := dispatch v;
     isDragging := isDragging v;
     events := <[name := at_]> (events v);
     searchQuery := searchQuery v |}.

(** The effects of module [Dispatch], [event.preventDefault()] and the
    geocoding request, with the encoded query of its URL. *)
Inductive Effect : Type :=
| Did (e : Dispatch.Effect)
| PreventDefault
| Geocode (query : string).

Definition moved_to (at_ : LngLat) : Placemark :=
  {| pm_latitude := lat at_; pm_longitude := lng at_ |}.

Definition onPlacemarkDragStart (at_ : LngLat) (v : View) : View * list Effect :=
  if incidentDeclared (dispatch v) then (v, [])
  else
    let v1 := logEvents "onDragStart" at_ v in
    let v2 := setIsDragging true v1 in
    (with_dispatch (setShowTooltip false (dispatch v2)) v2, []).

Definition onPlacemarkDrag (at_ : LngLat) (v : View) : View * list Effect :=
  if incidentDeclared (dispatch v) then (v, [])
  else
    let v1 := logEvents "onDrag" at_ v in
    (with_dispatch (setPlacemark (moved_to at_) (dispatch v1)) v1, []).

Definition onPlacemarkDragEnd (at_ : LngLat) (v : View) : View * list Effect :=
  if incidentDeclared (dispatch v) then (v, [])
  else
    let v1 := logEvents "onDragEnd" at_ v in
    (setIsDragging false v1, [Did (ShowTooltipAfter 100)]).

Definition onDoubleClick (at_ : LngLat) (v : View) : View * list Effect :=
  if incidentDeclared (dispatch v) then (v, [])
  else
    let st1 := setPlacemark (moved_to at_) (dispatch v) in
    let st2 := setShowTooltip false st1 in
    (with_dispatch st2 v, [PreventDefault; Did (ShowTooltipAfter 100)]).

(** One entry of the geocoder's answer. *)
Record SearchResult : Type := {
  result_lat : option string;
  result_lon : option string
}.

(** What the geocoding request comes back with: the fetch rejects, or
    [response.json()] rejects, yields a value that is falsy or has no
    positive [length] ([null], an object, an empty array), or yields an
    array; an entry of the array is an object or [null] (a text with a
    positive length reads as an array whose first entry has neither
    property). *)
Inductive SearchBody : Type :=
| SearchInvalidJson
| SearchNotAList
| SearchResults (results : list (option SearchResult)).

Inductive SearchOutcome : Type :=
| SearchRejected
| SearchResponse (body : SearchBody).

Definition no_results_message : string :=
  "No se encontraron resultados para la búsqueda".

Definition search_error_message : string :=
  "Error al buscar la ubicación".

Section Geocoding.

(** [String.prototype.trim], the global [parseFloat], and the global
    [encodeURIComponent], which throws a URIError ([None]) on a text with a
    lone surrogate. *)
Variable trim : string -> string.
Variable parseFloat : string -> number.
Variable encodeURIComponent : string -> option string.

(** What the [try] block does once the URL is built. *)
Definition searchTry (mapReady : bool) (encoded : string)
    (outcome : SearchOutcome) (v : View) : View * list Effect :=
  let request := Geocode encoded in
  match outcome with
  | SearchRejected => (v, [request; Did (Alert search_error_message)])
  | SearchResponse SearchInvalidJson =>
      (v, [request; Did (Alert search_error_message)])
  | SearchResponse SearchNotAList =>
      (v, [request; Did (Alert no_results_message)])
  | SearchResponse (SearchResults []) =>
      (v, [request; Did (Alert no_results_message)])
  | SearchResponse (SearchResults (None :: _)) =>
      (v, [request; Did (Alert search_error_message)])
  | SearchResponse (SearchResults (Some result :: _)) =>
      let lat := parseFloat (property_key (result_lat result)) in
      let lng := parseFloat (property_key (result_lon result)) in
      let st1 :=
        setPlacemark {| pm_latitude := lat; pm_longitude := lng |}
          (dispatch v) in
      let ease := if mapReady then [Did (EaseTo lng lat 15 1000)] else [] in
      let st2 := setShowTooltip false st1 in
      (with_dispatch st2 v,
       request :: ease ++ [Did (ShowTooltipAfter 100)])
  end.

(** [handleSearch]; the URL is built inside the [try], before [fetch] is
    called; [parseFloat] converts a missing [lat] or [lon] to the text
    [undefined] first, and reading [lat] of a [null] entry throws inside the
    [try]. *)
Definition handleSearch (mapReady : bool) (outcome : SearchOutcome) (v : View)
  : View * list Effect :=
  if negb (truthy_string (trim (searchQuery v))) then (v, [])
  else
    match encodeURIComponent (searchQuery v) with
    | None => (v, [Did (Alert search_error_message)])
    | Some encoded => searchTry mapReady encoded outcome v
    end.

End Geocoding.

(** The placemark is a point of the globe. *)
Definition valid_placemark (st : State) : Prop :=
  valid_coordinates (pm_latitude (placemark st)) (pm_longitude (placemark st))
  = true.

(** Everything of the dispatch state but the placemark and the tooltip. *)
Definition same_incident (st st' : State) : Prop :=
  showEnhancedSearch st' = showEnhancedSearch st /\
  coordinateInput st' = coordinateInput st /\
  showDrawer st' = showDrawer st /\
  incendioData st' = incendioData st /\
  isSubmitting st' = isSubmitting st /\
  incidentDeclared st' = incidentDeclared st /\
  propagationCone st' = propagationCone st.

Definition is_alert (e : Effect) : bool :=
  match e with
  | Did (Alert _) => true
  | _ => false
  end.

Definition is_search (e : Effect) : bool :=
  match e with
  | Geocode _ => true
  | _ => false
  end.

End Interaction.

(** ** Objects as accumulators, and the road layers (lib/map-layers) *)

Module LayerBuilders.

Import JS.

(** The value of a key that is an array index: a canonical decimal numeral
    below 2^32 - 1. *)
Definition digit (c : ascii) : option N :=
  let n := N_of_ascii c in
  if ((48 <=? n) && (n <=? 57))%N then Some (n - 48)%N else None.

Fixpoint digits (s : string) (acc : N) : option N :=
  match s with
  | EmptyString => Some acc
  | String c rest =>
      match digit c with
      | Some d => digits rest (10 * acc + d)%N
      | None => None
      end
  end.

Definition array_index (key : string) : option N :=
  match key with
  | EmptyString => None
  | String "0" EmptyString => Some 0%N
  | String "0" _ => None
  | _ =>
      match digits key 0 with
      | Some n => if (n <? 2 ^ 32 - 1)%N then Some n else None
      | None => None
      end
  end.

Definition is_index {V : Type} (entry : string * V) : bool :=
  match array_index (fst entry) with
  | Some _ => true
  | None => false
  end.

Definition index_value {V : Type} (entry : string * V) : N :=
  default 0%N (array_index (fst entry)).

(** The entries with an array index, in ascending order of the index. *)
Fixpoint insert_entry {V : Type} (entry : string * V)
    (sorted : list (string * V)) : list (string * V) :=
  match sorted with
  | [] => [entry]
  | first :: rest =>
      if (index_value entry <=? index_value first)%N
      then entry :: first :: rest
      else first :: insert_entry entry rest
  end.

Fixpoint sort_entries {V : Type} (obj : list (string * V))
  : list (string * V) :=
  match obj with
  | [] => []
  | entry :: rest => insert_entry entry (sort_entries rest)
  end.

(** [Object.entries(obj)] of an object whose own properties were created
    in the order of the list: the array indices first, ascending, then the
    other keys in creation order. *)
Definition entries {V : Type} (obj : list (string * V)) : list (string * V) :=
  sort_entries (List.filter is_index obj)
  ++ List.filter (fun entry => negb (is_index entry)) obj.

(** [obj[key].push(x)] on an own array. *)
Fixpoint push_to {F : Type} (key : string) (x : F)
    (obj : list (string * list F)) : list (string * list F) :=
  match obj with
  | [] => []
  | (k, group) :: rest =>
      if String.eqb k key then (k, group ++ [x]) :: rest
      else (k, group) :: push_to key x rest
  end.

(** One step of the grouping [reduce]:
    [if (!acc[key]) acc[key] = []; acc[key].push(feature)].
    An inherited property is truthy and has no [push]. *)
Definition group_step {F : Type} (key : string) (feature : F)
    (acc : list (string * list F)) : Completion (list (string * list F)) :=
  match own_property acc key with
  | Some _ => Returns (push_to key feature acc)
  | None =>
      if inherited key then Throws TypeError
      else Returns (acc ++ [(key, [feature])])
  end.

(** [features.reduce(step, acc)]. *)
Fixpoint group_from {F : Type} (key_of : F -> string) (features : list F)
    (acc : list (string * list F)) : Completion (list (string * list F)) :=
  match features with
  | [] => Returns acc
  | feature :: rest =>
      match group_step (key_of feature) feature acc with
      | Returns acc1 => group_from key_of rest acc1
      | Throws e => Throws e
      end
  end.

(** What the accumulator of the grouping holds after the features [seen]:
    one non-empty group per key, no inherited key, every feature under its
    own key, and all the features seen. *)
Definition grouped {F : Type} (key_of : F -> string)
    (acc : list (string * list F)) (seen : list F) : Prop :=
  NoDup (map fst acc) /\
  Forall (fun entry =>
            inherited (fst entry) = false /\ snd entry <> [] /\
            Forall (fun f => key_of f = fst entry) (snd entry)) acc /\
  concat (map snd acc) ≡ₚ seen.

(** [getRoadTypeColor] and [getRoadTypeDisplayName]. *)
Definition getRoadTypeColor (sourceLayer : string) : string :=
  if String.eqb sourceLayer "autopistas" then "#dc2626"
  else if String.eqb sourceLayer "rutas_troncales" then "#ea580c"
  else if String.eqb sourceLayer "rutas_colectoras" then "#f59e0b"
  else if String.eqb sourceLayer "rutas_locales" then "#84cc16"
  else if String.eqb sourceLayer "caminos_publicos" then "#22d3ee"
  else if String.eqb sourceLayer "otros_viales" then "#6b7280"
  else "#6b7280".

Definition getRoadTypeDisplayName (sourceLayer : string) : string :=
  if String.eqb sourceLayer "autopistas" then "Autopistas"
  else if String.eqb sourceLayer "rutas_troncales" then "Rutas Troncales"
  else if String.eqb sourceLayer "rutas_colectoras" then "Rutas Colectoras"
  else if String.eqb sourceLayer "rutas_locales" then "Rutas Locales"
  else if String.eqb sourceLayer "caminos_publicos" then "Caminos Públicos"
  else if String.eqb sourceLayer "otros_viales" then "Otros Viales"
  else "Vías de Transporte".

(** One road layer: the id, the colour and the metadata computed for it and
    the features of its collection.  The paint settings that are the same
    for every layer are left out. *)
Record RoadLayer (F : Type) : Type := {
  layer_id : string;
  line_color : string;
  displayName : string;
  sourceLayer : string;
  layer_features : list F
}.

Arguments layer_id {F} _.
Arguments line_color {F} _.
Arguments displayName {F} _.
Arguments sourceLayer {F} _.
Arguments layer_features {F} _.

Section Roads.

(** A feature (an object), and its [properties?.source_layer]: a text, or
    [None] when [properties] or the property is missing. *)
Variable F : Type.
Variable source_layer : F -> option string.

(** [feature.properties?.source_layer || 'otros_viales']. *)
Definition road_key (feature : F) : string :=
  match source_layer feature with
  | Some s => if truthy_string s then s else "otros_viales"
  | None => "otros_viales"
  end.

Definition road_layer (entry : string * list F) : RoadLayer F :=
  {| layer_id := "road-" ++ fst entry;
     line_color := getRoadTypeColor (fst entry);
     displayName := getRoadTypeDisplayName (fst entry);
     sourceLayer := fst entry;
     layer_features := snd entry |}.

(** [createRoadNetworkLayers(data)], on [data.features]; [None] is a
    [data] without features. *)
Definition createRoadNetworkLayers (features : option (list F))
  : Completion (list (RoadLayer F)) :=
  match features with
  | None => Throws TypeError
  | Some fs =>
      match group_from road_key fs [] with
      | Returns roadsByType => Returns (map road_layer (entries roadsByType))
      | Throws e => Throws e
      end
  end.

End Roads.

Arguments road_key {F} source_layer feature.
Arguments createRoadNetworkLayers {F} source_layer features.

(** Sample features: a road is its name and its source layer. *)
Definition sample_roads : list (string * option string) :=
  [ ("Ruta 68", Some "autopistas"); ("F-30-E", Some "rutas_colectoras");
    ("Ruta 5", Some "autopistas"); ("Camino viejo", None);
    ("Tramo 7", Some "7") ]%string.

End LayerBuilders.

(** ** Toggling layers and the start-up passes (MapComponent.tsx) *)

Module LayerPanel.

Import JS MapLayers LayerBuilders.

(** [{ ...prev, [key]: value }]: an own key keeps its place. *)
Fixpoint set_property {V : Type} (key : string) (value : V)
    (obj : list (string * V)) : list (string * V) :=
  match obj with
  | [] => [(key, value)]
  | (k, v) :: rest =>
      if String.eqb k key then (k, value) :: rest
      else (k, v) :: set_property key value rest
  end.

(** The [layers] of the first render:
    [LAYER_CONFIGS.forEach(config => initialLayers[config.id] = config.enabled)]. *)
Definition initialLayers : list (string * bool) :=
  fold_left (fun acc config => set_property (id config) (enabled config) acc)
    LAYER_CONFIGS [].

(** [Object.entries(layers).filter(([_, enabled]) => enabled)
      .map(([layerId, _]) => layerId)]. *)
Definition enabledLayerIds (layers : list (string * bool)) : list string :=
  map fst (List.filter snd (entries layers)).

Section Panel.

Variable Json : Type.
Variable truthy : Json -> bool.
Variable EnhancedLayer : Type.
Variable createRoadNetworkLayers : Json -> Completion (list EnhancedLayer).
Variable createPriorityPolygonLayers : Json -> Completion (list EnhancedLayer).
Variable createWaterPolygonLayers : Json -> Completion (list EnhancedLayer).
Variable createEnhancedCentralesLayers :
  Json -> string -> Completion (list EnhancedLayer).
Variable createAdministrativeRegionLayers :
  Json -> Completion (list EnhancedLayer).
Variable createElectricalSystemLayers :
  Json -> Completion (list EnhancedLayer).
Variable network : string -> FetchOutcome Json.

(** The layer state of the component. *)
Record Panel : Type := {
  layers : list (string * bool);
  isLayerLoading : bool;
  layerRevision : nat;
  loader : State Json EnhancedLayer
}.

Definition setLayers (l : list (string * bool)) (p : Panel) : Panel :=
  {| layers := l;
     isLayerLoading := isLayerLoading p;
     layerRevision := layerRevision p;
     loader := loader p |}.

Definition setIsLayerLoading (b : bool) (p : Panel) : Panel :=
  {| layers := layers p;
     isLayerLoading := b;
     layerRevision := layerRevision p;
     loader := loader p |}.

Definition setLayerRevision (n : nat) (p : Panel) : Panel :=
  {| layers := layers p;
     isLayerLoading := isLayerLoading p;
     layerRevision := n;
     loader := loader p |}.

Definition setLoader (st : State Json EnhancedLayer) (p : Panel) : Panel :=
  {| layers := layers p;
     isLayerLoading := isLayerLoading p;
     layerRevision := layerRevision p;
     loader := st |}.

(** A call of the [loadLayerData] callback that closed over
    [capturedData], on the panel. *)
Definition load (capturedData : gmap string Json) (layerId : string)
    (p : Panel) : Panel * list string :=
  let (st, fetched) :=
    loadLayerData Json truthy EnhancedLayer createRoadNetworkLayers
      createPriorityPolygonLayers createWaterPolygonLayers
      createEnhancedCentralesLayers createAdministrativeRegionLayers
      createElectricalSystemLayers network capturedData layerId (loader p) in
  (setLoader st p, fetched).

(** [handleLayerToggle], created by a render whose [loadedLayers] was
    [capturedLoaded] and whose [loadLayerData] closed over
    [capturedData]. *)
Definition handleLayerToggle (capturedLoaded : gset string)
    (capturedData : gmap string Json) (layerId : string) (enabled : bool)
    (p : Panel) : Panel * list string :=
  let p1 := setLayers (set_property layerId enabled (layers p)) p in
  if enabled && negb (bool_decide (layerId ∈ capturedLoaded)) then
    let (p2, fetched) := load capturedData layerId (setIsLayerLoading true p1) in
    (setIsLayerLoading false p2, fetched)
  else (p1, []).

(** The [for] loop of both start-up passes. *)
Fixpoint load_each (capturedLoaded : gset string)
    (capturedData : gmap string Json) (layerIds : list string) (p : Panel)
  : Panel * list string :=
  match layerIds with
  | [] => (p, [])
  | layerId :: rest =>
      if bool_decide (layerId ∈ capturedLoaded)
      then load_each capturedLoaded capturedData rest p
      else
        let (p1, fetched) := load capturedData layerId p in
        let (p2, more) := load_each capturedLoaded capturedData rest p1 in
        (p2, fetched ++ more)
  end.

(** [loadEnabledLayers], the effect that runs on mount. *)
Definition loadEnabledLayers (capturedLayers : list (string * bool))
    (capturedLoaded : gset string) (capturedData : gmap string Json)
    (p : Panel) : Panel * list string :=
  let (p1, fetched) :=
    load_each capturedLoaded capturedData (enabledLayerIds capturedLayers)
      (setIsLayerLoading true p) in
  (setLayerRevision (layerRevision p1 + 1) (setIsLayerLoading false p1),
   fetched).

(** [loadEnabledLayersOnMapReady]. *)
Definition loadEnabledLayersOnMapReady (capturedLayers : list (string * bool))
    (capturedLoaded : gset string) (capturedData : gmap string Json)
    (p : Panel) : Panel * list string :=
  let (p1, fetched) :=
    load_each capturedLoaded capturedData (enabledLayerIds capturedLayers) p in
  (setLayerRevision (layerRevision p1 + 1) p1, fetched).

(** Every layer marked as loaded has its data and its enhanced layers. *)
Definition consistent (st : State Json EnhancedLayer) : Prop :=
  forall layerId,
    layerId ∈ loadedLayers st ->
    is_Some (layerData st !! layerId) /\
    is_Some (enhancedLayers st !! layerId).

End Panel.

Arguments layers {Json EnhancedLayer} _.
Arguments isLayerLoading {Json EnhancedLayer} _.
Arguments layerRevision {Json EnhancedLayer} _.
Arguments loader {Json EnhancedLayer} _.
Arguments consistent {Json EnhancedLayer} _.

(** The files of the layers that are enabled from the start. *)
Definition enabled_files : list string :=
  map file (List.filter enabled LAYER_CONFIGS).

(** The sample deployment of [sample_load], with a road builder that
    throws. *)
Definition broken_builder (document : nat) : Completion (list unit) :=
  Throws TypeError.

Definition sample_load_broken (network : string -> FetchOutcome nat)
  : gmap string nat -> string -> State nat unit -> State nat unit * list string :=
  loadLayerData nat (fun _ => true) unit broken_builder no_layers no_layers
    (fun document _ => no_layers document) no_layers no_layers network.

Definition sample_toggle (network : string -> FetchOutcome nat)
  : gset string -> gmap string nat -> string -> bool -> Panel nat unit ->
    Panel nat unit * list string :=
  handleLayerToggle nat (fun _ => true) unit no_layers no_layers no_layers
    (fun document _ => no_layers document) no_layers no_layers network.

Definition sample_mount (network : string -> FetchOutcome nat)
  : list (string * bool) -> gset string -> gmap string nat -> Panel nat unit ->
    Panel nat unit * list string :=
  loadEnabledLayers nat (fun _ => true) unit no_layers no_layers no_layers
    (fun document _ => no_layers document) no_layers no_layers network.

Definition sample_ready (network : string -> FetchOutcome nat)
  : list (string * bool) -> gset string -> gmap string nat -> Panel nat unit ->
    Panel nat unit * list string :=
  loadEnabledLayersOnMapReady nat (fun _ => true) unit no_layers no_layers
    no_layers (fun document _ => no_layers document) no_layers no_layers
    network.

Definition unreachable (url : string) : FetchOutcome nat := Rejected.

(** The panel of the first render, and the panel once the road network was
    loaded. *)
Definition first_panel : Panel nat unit :=
  {| layers := initialLayers;
     isLayerLoading := false;
     layerRevision := 0;
     loader := first_render |}.

Definition roads_panel : Panel nat unit :=
  {| layers := initialLayers;
     isLayerLoading := false;
     layerRevision := 1;
     loader := roads_loaded |}.

End LayerPanel.

(** ** Description text (MapComponent.tsx, [renderHTMLContent]) *)

Module Html.

Import JS.

(** [s.includes(c)] for one character. *)
Fixpoint contains (c : ascii) (s : string) : bool :=
  match s with
  | EmptyString => false
  | String x rest => Ascii.eqb x c || contains c rest
  end.

(** [s.replace(/<[^>]*>/g, '')]: a [<] starts a match when a [>] follows
    somewhere, and the match ends at the first one.  [inside] tells that the
    scan is within a match. *)
Fixpoint stripTags (inside : bool) (s : string) : string :=
  match s with
  | EmptyString => EmptyString
  | String c rest =>
      if inside then
        if Ascii.eqb c ">" then stripTags false rest else stripTags true rest
      else if Ascii.eqb c "<" then
        if contains ">" rest then stripTags true rest else String c rest
      else String c (stripTags false rest)
  end.

(** [s.replace(/pattern/g, replacement)] for a pattern without special
    characters; [skip] counts the characters of a match still to pass. *)
Fixpoint replaceAll (skip : nat) (pattern replacement : string) (s : string)
  : string :=
  match s with
  | EmptyString => EmptyString
  | String c rest =>
      match skip with
      | S k => replaceAll k pattern replacement rest
      | O =>
          if String.prefix pattern s
          then replacement ++ replaceAll (String.length pattern - 1) pattern
                                replacement rest
          else String c (replaceAll 0 pattern replacement rest)
      end
  end.

(** No [<] of the text has a [>] after it: the text holds no tag. *)
Fixpoint tag_free (s : string) : bool :=
  match s with
  | EmptyString => true
  | String c rest =>
      (if Ascii.eqb c "<" then negb (contains ">" rest) else true)
      && tag_free rest
  end.

Section Render.

(** [String.prototype.trim]. *)
Variable trim : string -> string.

Definition renderHTMLContent (htmlContent : string) : string :=
  trim
    (replaceAll 0 "&amp;" "&"
       (replaceAll 0 "&gt;" ">"
          (replaceAll 0 "&lt;" "<"
             (replaceAll 0 "&nbsp;" " " (stripTags false htmlContent))))).

End Render.

(** [trim] on the ASCII blanks: tab, line feed, vertical tab, form feed,
    carriage return and space. *)
Definition is_blank (c : ascii) : bool :=
  let n := nat_of_ascii c in
  ((9 <=? n) && (n <=? 13) || (n =? 32))%nat.

Fixpoint asciiTrimStart (s : string) : string :=
  match s with
  | EmptyString => EmptyString
  | String c rest => if is_blank c then asciiTrimStart rest else s
  end.

Fixpoint asciiTrimEnd (s : string) : string :=
  match s with
  | EmptyString => EmptyString
  | String c rest =>
      match asciiTrimEnd rest with
      | EmptyString => if is_blank c then EmptyString else String c EmptyString
      | kept => String c kept
      end
  end.

Definition asciiTrim (s : string) : string := asciiTrimEnd (asciiTrimStart s).

End Html.

(** * Properties *)

(** ** Object literals as lookup tables *)

Module JSFacts.

Import JS.

Lemma own_property_None {V : Type} (obj : list (string * V)) (key : string) :
  ~ In key (map fst obj) -> own_property obj key = None.
Proof.
  induction obj as [|[k v] rest IH]; cbn; intros Hin; [reflexivity|].
  destruct (String.eqb k key) eqn:E.
  - apply String.eqb_eq in E. tauto.
  - apply IH. tauto.
Qed.

(** A key that differs from every own key is not an own key. *)
Lemma not_own_key {V : Type} (obj : list (string * V)) (key : string) :
  forallb (fun k => negb (String.eqb k key)) (map fst obj) = true ->
  ~ In key (map fst obj).
Proof.
  intros H Hin. rewrite forallb_forall in H. specialize (H _ Hin).
  rewrite String.eqb_refl in H. discriminate.
Qed.

(** Every inherited name has a lower-case letter in it. *)
Lemma inherited_has_lower (key : string) :
  inherited key = true ->
  exists c, In c (list_ascii_of_string key) /\ Incendios.is_lower c = true.
Proof.
  unfold inherited. rewrite existsb_exists.
  intros (name & Hin & Heq). apply String.eqb_eq in Heq. subst name.
  cbn in Hin.
  repeat (destruct Hin as [<-|Hin];
          [first [ exists "o"%char; split; [cbn; tauto | reflexivity]
                 | exists "e"%char; split; [cbn; tauto | reflexivity] ]|]).
  destruct Hin.
Qed.

End JSFacts.

(** ** The propagation cone *)

Module ConeFacts.

Import JS Cone JSFacts.
Local Open Scope float_scope.

Section Guards.

Variable Math_sin : float -> float.
Variable Math_cos : float -> float.

Local Abbreviation createPropagationCone :=
  (createPropagationCone Math_sin Math_cos).
Local Abbreviation cone_of := (cone_of Math_sin Math_cos).

(** *** The guards *)

(** With [coordinates] present the function returns, and it returns [null]
    exactly on insufficient input. *)
Lemma createPropagationCone_with_coordinates (d : IncidentData) (c : Coordinates) :
  coordinates d = Some c ->
  (insufficient (Some d) = true /\
   createPropagationCone (Some d) = Returns None)
  \/
  (insufficient (Some d) = false /\
   exists fc, createPropagationCone (Some d) = Returns (Some fc) /\
              one_polygon_feature fc).
Proof.
  intros Hc. destruct d as [co wa rest]. cbn in Hc. subst co.
  unfold insufficient, Cone.createPropagationCone, weather_found,
    wind_speed_of, wind_direction_of, risk_level_of, propagation_of,
    conditions_of, truthy_opt_float. cbn.
  destruct wa as [[[[] |] [[[w|] [dr|] crest]|] [[[r|] ap prest]|] wrest]|];
    cbn; auto.
  all: destruct (truthy_float w); cbn; auto.
  all: destruct (truthy_float dr); cbn; auto.
  all: try (destruct (truthy_string r); cbn; auto).
  right. split; [reflexivity|]. eexists. split; [reflexivity|].
  split; [reflexivity|]. eexists. cbn. auto.
Qed.

(** A missing or [null] response gives no cone. *)
Lemma createPropagationCone_null : createPropagationCone None = Returns None.
Proof. reflexivity. Qed.

(** Whatever is returned as a cone was built by [cone_of] from the fields
    the guards let through. *)
Lemma createPropagationCone_Some (d : option IncidentData) (fc : FeatureCollection) :
  createPropagationCone d = Returns (Some fc) ->
  exists data c w dr r,
    d = Some data /\
    coordinates data = Some c /\
    wind_speed_of data = Some w /\ truthy_float w = true /\
    wind_direction_of data = Some dr /\ truthy_float dr = true /\
    risk_level_of data = Some r /\
    fc = cone_of c w dr r (direccion_of data).
Proof.
  destruct d as [[co wa rest]|]; [|discriminate].
  unfold Cone.createPropagationCone, wind_speed_of, wind_direction_of,
    risk_level_of, direccion_of, propagation_of, conditions_of. cbn.
  destruct wa as [[[[] |] [[[w|] [dr|] crest]|] [[[r|] ap prest]|] wrest]|];
    cbn; try discriminate; destruct co as [c|]; try discriminate.
  all: destruct (truthy_float w) eqn:Hw; cbn; try discriminate.
  all: destruct (truthy_float dr) eqn:Hdr; cbn; try discriminate.
  all: destruct (truthy_string r); cbn; try discriminate.
  intros H. injection H as <-.
  eexists. exists c, w, dr, r.
  split; [reflexivity|]. cbn. repeat split; auto.
Qed.

(** The sample incident passes both guards. *)
Lemma incident_cone (w d : float) (risk dir : string) :
  truthy_float w = true -> truthy_float d = true -> risk <> ""%string ->
  createPropagationCone (Some (incident w d risk dir)) =
    Returns (Some (cone_of valparaiso w d risk (Some dir))).
Proof.
  intros Hw Hd Hr. unfold Cone.createPropagationCone, incident, complete_weather.
  cbn. rewrite Hw, Hd.
  unfold truthy_string. destruct (String.eqb_spec risk ""); [contradiction|].
  reflexivity.
Qed.

(** C1. The claim says that [createPropagationCone] never throws and returns a
    one-polygon collection whenever the weather fields are all present and
    truthy.  On a response that is sufficient in the claim's sense but has no
    [coordinates] property, the destructuring of [incidentData.coordinates]
    throws a TypeError. *)
Theorem createPropagationCone_throws_without_coordinates :
  insufficient (Some no_coordinates) = false /\
  createPropagationCone (Some no_coordinates) = Throws TypeError.
Proof. split; reflexivity. Qed.

(** When [coordinates] is present, a wind speed of 0 or a wind direction of 0
    degrees makes [createPropagationCone] return [null], whatever else the
    weather analysis holds. *)
Lemma zero_wind_gives_no_cone (d : IncidentData) (c : Coordinates) :
  coordinates d = Some c ->
  wind_speed_of d = Some 0 \/ wind_direction_of d = Some 0 ->
  createPropagationCone (Some d) = Returns None.
Proof.
  intros Hc Hzero.
  destruct (createPropagationCone_with_coordinates d c Hc)
    as [[_ H]|[_ (fc & H & _)]]; [exact H|].
  apply createPropagationCone_Some in H
    as (x & c' & w & dr & r & E & _ & Hw & Hw0 & Hd & Hd0 & _).
  injection E as <-.
  destruct Hzero as [Hz|Hz]; [rewrite Hz in Hw | rewrite Hz in Hd].
  - assert (E : w = 0) by congruence. rewrite E in Hw0. discriminate Hw0.
  - assert (E : dr = 0) by congruence. rewrite E in Hd0. discriminate Hd0.
Qed.

(** C8. The claim says that a wind speed of 0 or a wind direction of 0 gives
    [null] whenever the weather analysis is found and complete.  On such a
    response without a [coordinates] property the function does not reach
    the falsiness guard: the destructuring of [incidentData.coordinates]
    throws a TypeError first. *)
Theorem zero_wind_throws_without_coordinates (d : IncidentData) :
  wind_speed_of d = Some 0 \/ wind_direction_of d = Some 0 ->
  weather_found d = Some true ->
  coordinates d = None ->
  createPropagationCone (Some d) = Throws TypeError.
Proof.
  intros Hzero Hfound Hc. destruct d as [co wa rest]. cbn in Hc. subst co.
  unfold wind_speed_of, wind_direction_of, conditions_of, weather_found
    in Hzero, Hfound.
  unfold Cone.createPropagationCone. cbn in *.
  destruct wa as [[fo [cc|] fp wrest]|]; cbn in *.
  - subst fo. reflexivity.
  - destruct Hzero; discriminate.
  - discriminate.
Qed.

(** *** The cardinal table *)

Lemma getDegreesFromCardinal_Own (direction : option string) :
  inherited (property_key direction) = false ->
  exists x, getDegreesFromCardinal direction = Own x.
Proof.
  intros Hinh. unfold getDegreesFromCardinal, get. rewrite Hinh.
  destruct (own_property cardinalMap (property_key direction)) as [x|]; eauto.
  destruct (truthy_float x); eauto.
Qed.

Lemma getDegreesFromCardinal_Norte :
  getDegreesFromCardinal (Some "Norte"%string) = Own 0.
Proof. reflexivity. Qed.

Lemma getDegreesFromCardinal_Este :
  getDegreesFromCardinal (Some "Este"%string) = Own 90.
Proof. reflexivity. Qed.

Lemma mathAngle_Builtin (f : string) : mathAngle (Builtin f) = nan.
Proof. reflexivity. Qed.

(** For every direction (a string or [undefined]) that is neither one of
    the eight cardinal names nor the name of a property inherited from
    [Object.prototype], [getDegreesFromCardinal] returns 0, and the cone gets
    the angle it gets for ['Norte']. *)
Lemma getDegreesFromCardinal_unrecognised (direction : option string) :
  ~ In (property_key direction) (map fst cardinalMap) ->
  inherited (property_key direction) = false ->
  getDegreesFromCardinal direction = Own 0 /\
  mathAngle (getDegreesFromCardinal direction) =
    mathAngle (getDegreesFromCardinal (Some "Norte"%string)).
Proof.
  intros Hnot Hinh.
  assert (E : getDegreesFromCardinal direction = Own 0).
  { unfold getDegreesFromCardinal, get.
    rewrite (own_property_None _ _ Hnot), Hinh. reflexivity. }
  rewrite E, getDegreesFromCardinal_Norte. split; reflexivity.
Qed.

(** A missing [direccion_aproximada]. *)
Example getDegreesFromCardinal_undefined :
  getDegreesFromCardinal None = Own 0 /\
  mathAngle (getDegreesFromCardinal None) =
    mathAngle (getDegreesFromCardinal (Some "Norte"%string)).
Proof.
  apply (getDegreesFromCardinal_unrecognised None).
  - apply not_own_key. reflexivity.
  - reflexivity.
Qed.

(** C9. The claim says that every string that is not a cardinal name gives 0.
    ["constructor"] is not a cardinal name, and the lookup finds the function
    every object inherits, which is truthy, so [|| 0] does not apply: the
    result is that function and not 0, and the angle computed from it is
    NaN. *)
Theorem getDegreesFromCardinal_constructor :
  ~ In "constructor"%string (map fst cardinalMap) /\
  getDegreesFromCardinal (Some "constructor"%string) = Builtin "constructor" /\
  getDegreesFromCardinal (Some "constructor"%string) <> Own 0 /\
  mathAngle (getDegreesFromCardinal (Some "constructor"%string)) = nan.
Proof.
  split; [apply not_own_key; reflexivity|].
  split; [reflexivity|]. split; [discriminate | reflexivity].
Qed.

(** The same for every inherited name. *)
Lemma getDegreesFromCardinal_inherited (name : string) :
  In name ObjectPrototype ->
  getDegreesFromCardinal (Some name) = Builtin name /\
  mathAngle (getDegreesFromCardinal (Some name)) = nan.
Proof.
  intros Hin. cbn in Hin.
  repeat (destruct Hin as [<-|Hin]; [split; reflexivity|]).
  destruct Hin.
Qed.

End Guards.

(** A complete, found weather analysis with a due-north wind. *)
Example due_north_wind_gives_no_cone :
  createPropagationCone sample_sin sample_cos
    (Some (incident 20 0 "ALTO" "Norte")) = Returns None.
Proof. reflexivity. Qed.

(** No wind at all, and a response without [coordinates]. *)
Lemma zero_wind_throws_without_coordinates_witness :
  createPropagationCone sample_sin sample_cos
    (Some becalmed_without_coordinates) = Throws TypeError.
Proof.
  apply (zero_wind_throws_without_coordinates sample_sin sample_cos
           becalmed_without_coordinates).
  - left. reflexivity.
  - reflexivity.
  - reflexivity.
Defined.

(** The cone built for an inherited name has no finite point but its
    origin. *)
Example cone_of_constructor :
  coneVertices sample_sin sample_cos valparaiso (coneLength 20 "ALTO")
    (mathAngle (getDegreesFromCardinal (Some "constructor"%string))) =
  [ (-71.6127, -33.0472); (nan, nan); (nan, nan); (nan, nan);
    (-71.6127, -33.0472) ].
Proof. reflexivity. Qed.

End ConeFacts.

(** ** The polygon of the cone *)

Module ConeGeometry.

Import JS Cone JSFacts ConeFacts.
Local Open Scope float_scope.

Lemma four_vertices_not_three (ring : list Position) :
  distinct_vertices ring 4 -> ~ distinct_vertices ring 3.
Proof.
  intros (vs4 & Hnd4 & Hlen4 & Hin4) (vs3 & Hnd3 & Hlen3 & Hin3).
  assert (Hsub : vs4 ⊆+ vs3).
  { apply NoDup_submseteq; [assumption|]. intros p Hp. apply Hin3, Hin4, Hp. }
  apply submseteq_length in Hsub. lia.
Qed.

(** Two equal positions are equal as numbers. *)
Lemma position_eq (p q : Position) :
  p = q -> position_eqb p q = position_eqb q q.
Proof. intros ->. reflexivity. Qed.

(** Two positions that differ as numbers are different. *)
Ltac positions_differ :=
  let E := fresh "E" in
  intros E; apply position_eq in E; vm_compute in E; discriminate E.

Section RingFacts.

Variable Math_sin : float -> float.
Variable Math_cos : float -> float.

Local Abbreviation createPropagationCone :=
  (createPropagationCone Math_sin Math_cos).
Local Abbreviation conePoint := (conePoint Math_sin Math_cos).
Local Abbreviation coneVertices := (coneVertices Math_sin Math_cos).
Local Abbreviation cone_of := (cone_of Math_sin Math_cos).

(** The ring reads the coordinates through their latitude and longitude
    only. *)
Lemma coneVertices_coordinates (c1 c2 : Coordinates) (len angle : float) :
  latitude c1 = latitude c2 -> longitude c1 = longitude c2 ->
  coneVertices c1 len angle = coneVertices c2 len angle.
Proof.
  intros Hlat Hlon. unfold Cone.coneVertices, Cone.conePoint.
  rewrite Hlat, Hlon. reflexivity.
Qed.

(** C2, as amended.  Every returned cone is one feature with a Polygon
    geometry of one ring of five positions, in this order: the incident's
    [[longitude, latitude]], the points at the cone length at 30 degrees to
    the left of the direction, in the direction (the tip) and at 30 degrees
    to the right, and [[longitude, latitude]] again, which closes the ring. *)
Theorem cone_ring_shape (d : option IncidentData) (fc : FeatureCollection) :
  createPropagationCone d = Returns (Some fc) ->
  exists data c w r f ring,
    d = Some data /\ coordinates data = Some c /\
    wind_speed_of data = Some w /\ risk_level_of data = Some r /\
    features fc = [f] /\
    geom_type (geometry f) = "Polygon"%string /\
    geom_coordinates (geometry f) = [ring] /\
    (let origin := (longitude c, latitude c) in
     let len := coneLength w r in
     let angle := mathAngle (getDegreesFromCardinal (direccion_of data)) in
     ring = [ origin;
              conePoint c len (angle - coneAngle);
              conePoint c len angle;
              conePoint c len (angle + coneAngle);
              origin ]) /\
    closed_ring ring /\ length ring = 5%nat.
Proof.
  intros H. apply createPropagationCone_Some in H
    as (data & c & w & dr & r & -> & Hc & Hw & _ & _ & _ & Hr & ->).
  exists data, c, w, r. eexists. eexists.
  split; [reflexivity|]. split; [exact Hc|]. split; [exact Hw|].
  split; [exact Hr|]. split; [reflexivity|]. split; [reflexivity|].
  split; [reflexivity|]. split; [reflexivity|]. split; [|reflexivity].
  eexists. eexists. cbn [app]. unfold Cone.coneVertices.
  change (?o :: ?l :: ?t :: ?r :: [?o]) with (o :: [l; t; r] ++ [o]).
  reflexivity.
Qed.

(** C3, as amended.  Two responses, whatever else they hold, that agree on
    the latitude and the longitude of [coordinates], the wind speed, the risk
    level and [direccion_aproximada], and for which a cone is returned, get
    equal polygons; the wind direction only has to be truthy.  When they
    agree on the wind direction as well, the returned collections are
    equal. *)
Theorem cone_determined_by_fields (d1 d2 : IncidentData)
    (fc1 fc2 : FeatureCollection) :
  latitude_of d1 = latitude_of d2 ->
  longitude_of d1 = longitude_of d2 ->
  wind_speed_of d1 = wind_speed_of d2 ->
  risk_level_of d1 = risk_level_of d2 ->
  direccion_of d1 = direccion_of d2 ->
  createPropagationCone (Some d1) = Returns (Some fc1) ->
  createPropagationCone (Some d2) = Returns (Some fc2) ->
  map geometry (features fc1) = map geometry (features fc2) /\
  (wind_direction_of d1 = wind_direction_of d2 -> fc1 = fc2).
Proof.
  intros Hlat Hlon Hw Hr Ha H1 H2.
  apply createPropagationCone_Some in H1
    as (x1 & c1 & w1 & dr1 & r1 & E1 & Hc1 & Hw1 & _ & Hd1 & _ & Hr1 & ->).
  apply createPropagationCone_Some in H2
    as (x2 & c2 & w2 & dr2 & r2 & E2 & Hc2 & Hw2 & _ & Hd2 & _ & Hr2 & ->).
  injection E1 as <-. injection E2 as <-.
  unfold latitude_of, longitude_of in Hlat, Hlon.
  rewrite Hc1, Hc2 in Hlat, Hlon. cbn in Hlat, Hlon.
  injection Hlat as Hlat. injection Hlon as Hlon.
  assert (Ew : w1 = w2) by congruence.
  assert (Er : r1 = r2) by congruence.
  subst w2 r2. rewrite <- Ha.
  assert (Ering :
    coneVertices c1 (coneLength w1 r1)
      (mathAngle (getDegreesFromCardinal (direccion_of d1))) =
    coneVertices c2 (coneLength w1 r1)
      (mathAngle (getDegreesFromCardinal (direccion_of d1))))
    by (apply coneVertices_coordinates; assumption).
  split.
  - unfold Cone.cone_of. cbn [features map geometry]. rewrite Ering.
    reflexivity.
  - intros Hd. assert (Ed : dr1 = dr2) by congruence. subst dr2.
    unfold Cone.cone_of. rewrite Ering. reflexivity.
Qed.

(** Two winds from different directions give the same polygon. *)
Lemma wind_direction_not_read (c : Coordinates) (w d1 d2 : float) (r : string)
    (approx : option string) :
  map geometry (features (cone_of c w d1 r approx)) =
  map geometry (features (cone_of c w d2 r approx)).
Proof. reflexivity. Qed.

End RingFacts.

(** The incident of the tests with the fire spreading east: the ring that is
    returned, and its four distinct vertices. *)
Example cone_towards_Este :
  createPropagationCone sample_sin sample_cos
    (Some (incident 20 180 "ALTO" "Este"))
  = Returns (Some (cone_of sample_sin sample_cos valparaiso 20 180 "ALTO"
                     (Some "Este"%string))) /\
  coneVertices sample_sin sample_cos valparaiso (coneLength 20 "ALTO")
    (mathAngle (getDegreesFromCardinal (Some "Este"%string)))
  = [ (-71.6127, -33.0472);
      (-71.57174551442994, -33.06701981981982);
      (-71.56540983346319, -33.0472);
      (-71.57174551442994, -33.027380180180174);
      (-71.6127, -33.0472) ].
Proof. split; reflexivity. Qed.

Lemma cone_towards_Este_distinct :
  distinct_vertices
    (coneVertices sample_sin sample_cos valparaiso (coneLength 20 "ALTO")
       (mathAngle (getDegreesFromCardinal (Some "Este"%string)))) 4.
Proof.
  rewrite (proj2 cone_towards_Este).
  exists [ (-71.6127, -33.0472);
           (-71.57174551442994, -33.06701981981982);
           (-71.56540983346319, -33.0472);
           (-71.57174551442994, -33.027380180180174) ].
  split; [|split; [reflexivity|]].
  - repeat (apply NoDup_cons; split;
            [rewrite ?elem_of_cons, elem_of_nil; intros Hin;
             repeat (destruct Hin as [E|Hin]; [revert E; positions_differ|]);
             contradiction
            |]).
    constructor.
  - intros p. rewrite !elem_of_cons, !elem_of_nil. tauto.
Qed.

(** The incident of the tests with the fire spreading east. *)
Lemma cone_ring_shape_witness :
  exists data c w r f ring,
    Some (incident 20 180 "ALTO" "Este") = Some data /\
    coordinates data = Some c /\
    wind_speed_of data = Some w /\ risk_level_of data = Some r /\
    features (cone_of sample_sin sample_cos valparaiso 20 180 "ALTO"
                (Some "Este"%string)) = [f] /\
    geom_type (geometry f) = "Polygon"%string /\
    geom_coordinates (geometry f) = [ring] /\
    (let origin := (longitude c, latitude c) in
     let len := coneLength w r in
     let angle := mathAngle (getDegreesFromCardinal (direccion_of data)) in
     ring = [ origin;
              conePoint sample_sin sample_cos c len (angle - coneAngle);
              conePoint sample_sin sample_cos c len angle;
              conePoint sample_sin sample_cos c len (angle + coneAngle);
              origin ]) /\
    closed_ring ring /\ length ring = 5%nat.
Proof.
  apply (cone_ring_shape sample_sin sample_cos
           (Some (incident 20 180 "ALTO" "Este"))).
  apply incident_cone; [reflexivity | reflexivity | discriminate].
Defined.

(** C2, as stated, fails: the cone returned for the incident of the tests,
    with the fire spreading east, is not a triangular polygon; its ring has
    four distinct vertices. *)
Lemma cone_not_triangular :
  exists fc f,
    createPropagationCone sample_sin sample_cos
      (Some (incident 20 180 "ALTO" "Este")) = Returns (Some fc) /\
    features fc = [f] /\ ~ triangular (geometry f).
Proof.
  eexists. eexists. split; [exact (proj1 cone_towards_Este)|].
  split; [reflexivity|].
  intros (ring & Hring & _ & Hthree).
  cbn [geom_coordinates geometry] in Hring. injection Hring as <-.
  revert Hthree. apply four_vertices_not_three.
  exact cone_towards_Este_distinct.
Qed.

(** The incident of the tests received twice: once with a wind from the
    south and no brigade, once with a wind from the east and two brigades. *)
Lemma cone_determined_by_fields_witness :
  incident_in_full 180 "Sur" "[]" <> incident_in_full 90 "Este" "[12,15]" /\
  exists fc1 fc2,
    createPropagationCone sample_sin sample_cos
      (Some (incident_in_full 180 "Sur" "[]")) = Returns (Some fc1) /\
    createPropagationCone sample_sin sample_cos
      (Some (incident_in_full 90 "Este" "[12,15]")) = Returns (Some fc2) /\
    map geometry (features fc1) = map geometry (features fc2).
Proof.
  split; [discriminate|].
  eexists. eexists. split; [reflexivity|]. split; [reflexivity|].
  refine (proj1 (cone_determined_by_fields sample_sin sample_cos
                   (incident_in_full 180 "Sur" "[]")
                   (incident_in_full 90 "Este" "[12,15]") _ _
                   eq_refl eq_refl eq_refl eq_refl eq_refl eq_refl eq_refl)).
Defined.

(** C3, as stated, fails: two responses that agree on the coordinates, the
    wind speed, the wind direction and the risk level, and differ only in
    [direccion_aproximada] (Este, Noreste), get different polygons. *)
Lemma cone_depends_on_direccion_aproximada :
  let d1 := incident 20 180 "ALTO" "Este" in
  let d2 := incident 20 180 "ALTO" "Noreste" in
  coordinates d1 = coordinates d2 /\
  wind_speed_of d1 = wind_speed_of d2 /\
  wind_direction_of d1 = wind_direction_of d2 /\
  risk_level_of d1 = risk_level_of d2 /\
  exists fc1 fc2,
    createPropagationCone sample_sin sample_cos (Some d1)
      = Returns (Some fc1) /\
    createPropagationCone sample_sin sample_cos (Some d2)
      = Returns (Some fc2) /\
    map geometry (features fc1) <> map geometry (features fc2).
Proof.
  cbn zeta. repeat (split; [reflexivity|]).
  eexists. eexists.
  split; [apply incident_cone; [reflexivity | reflexivity | discriminate]|].
  split; [apply incident_cone; [reflexivity | reflexivity | discriminate]|].
  intros E.
  apply (f_equal (fun geometries =>
                    match cone_tip geometries with
                    | Some tip => position_eqb tip (-71.56540983346319, -33.0472)
                    | None => false
                    end)) in E.
  vm_compute in E. discriminate E.
Qed.

End ConeGeometry.

(** ** Declaring an incident and entering coordinates *)

Module DispatchFacts.

Import JS Cone Dispatch ConeFacts.
Local Open Scope R_scope.

Section DeclareFacts.

Variable Math_sin : float -> float.
Variable Math_cos : float -> float.

Local Abbreviation handleDeclareIncident :=
  (handleDeclareIncident Math_sin Math_cos).
Local Abbreviation declareTry := (declareTry Math_sin Math_cos).

(** C7.  After [handleDeclareIncident], [isSubmitting] is false whatever the
    POST came back with; and when the POST failed (the fetch rejected or the
    status is not ok), [incendioData], [incidentDeclared], [propagationCone]
    and [showDrawer] are as before the call, and the call did one fetch (no
    retry) followed by one alert. *)
Theorem handleDeclareIncident_failure :
  (forall outcome st,
      isSubmitting (fst (handleDeclareIncident outcome st)) = false) /\
  (forall outcome st,
      post_failed outcome = true ->
      let (st', effects) := handleDeclareIncident outcome st in
      incendioData st' = incendioData st /\
      incidentDeclared st' = incidentDeclared st /\
      propagationCone st' = propagationCone st /\
      showDrawer st' = showDrawer st /\
      effects =
        [ Fetch declarar_url (pm_longitude (placemark st))
                (pm_latitude (placemark st));
          Alert declare_error_message ]).
Proof.
  split.
  - intros outcome st. unfold Dispatch.handleDeclareIncident.
    destruct (declareTry outcome (setIsSubmitting true st)). reflexivity.
  - intros outcome st Hfail. unfold Dispatch.handleDeclareIncident.
    destruct outcome as [|ok status body]; cbn in Hfail |- *.
    + repeat split.
    + destruct ok; [discriminate|]. cbn. repeat split.
Qed.

End DeclareFacts.

(** A rejected fetch and a 500 response, from the first render. *)
Lemma handleDeclareIncident_failure_witness :
  (let (st', effects) :=
     handleDeclareIncident sample_sin sample_cos Rejected initial_state in
   incendioData st' = None /\
   incidentDeclared st' = false /\
   propagationCone st' = None /\
   showDrawer st' = false /\
   effects =
     [ Fetch declarar_url (Num (-71.6127)) (Num (-33.0472));
       Alert declare_error_message ]) /\
  (let (st', effects) :=
     handleDeclareIncident sample_sin sample_cos
       (Response false 500 InvalidJson) initial_state in
   incendioData st' = None /\
   incidentDeclared st' = false /\
   propagationCone st' = None /\
   showDrawer st' = false /\
   effects =
     [ Fetch declarar_url (Num (-71.6127)) (Num (-33.0472));
       Alert declare_error_message ]).
Proof.
  split.
  - apply (proj2 (handleDeclareIncident_failure sample_sin sample_cos)
             Rejected initial_state).
    reflexivity.
  - apply (proj2 (handleDeclareIncident_failure sample_sin sample_cos)
             (Response false 500 InvalidJson) initial_state).
    reflexivity.
Defined.

(** The success path: the drawer opens on the declared incident with its
    cone, after one fetch and no alert. *)
Example handleDeclareIncident_success :
  handleDeclareIncident sample_sin sample_cos
    (Response true 200 (JsonObject (incident 20 180 "ALTO" "Este")))
    initial_state
  = ({| placemark := placemark initial_state;
        showEnhancedSearch := false;
        coordinateInput := coordinateInput initial_state;
        showTooltip := false;
        showDrawer := true;
        incendioData := Some (incident 20 180 "ALTO" "Este");
        isSubmitting := false;
        incidentDeclared := true;
        propagationCone :=
          Some (cone_of sample_sin sample_cos valparaiso 20 180 "ALTO"
                  (Some "Este"%string)) |},
     [Fetch declarar_url (Num (-71.6127)) (Num (-33.0472))]).
Proof.
  unfold handleDeclareIncident, declareTry. cbn [negb].
  rewrite incident_cone by (reflexivity || discriminate). reflexivity.
Qed.

(** A response without [coordinates]: the incident is stored and marked as
    declared, then the cone throws, the alert is shown and the drawer stays
    closed. *)
Example handleDeclareIncident_without_coordinates :
  handleDeclareIncident sample_sin sample_cos
    (Response true 200 (JsonObject no_coordinates)) initial_state
  = ({| placemark := placemark initial_state;
        showEnhancedSearch := false;
        coordinateInput := coordinateInput initial_state;
        showTooltip := true;
        showDrawer := false;
        incendioData := Some no_coordinates;
        isSubmitting := false;
        incidentDeclared := true;
        propagationCone := None |},
     [ Fetch declarar_url (Num (-71.6127)) (Num (-33.0472));
       Alert declare_error_message ]).
Proof. reflexivity. Qed.

Section CoordinateSubmitFacts.

Variable parseFloat : string -> number.

Lemma valid_coordinates_spec (lat lng : number) :
  valid_coordinates lat lng = true <->
  exists la ln : R, lat = Num la /\ lng = Num ln /\
                    -90 <= la <= 90 /\ -180 <= ln <= 180.
Proof.
  unfold valid_coordinates, ge, le, isNaN.
  destruct lat as [|la], lng as [|ln]; cbn.
  1-3: split; [discriminate | intros (? & ? & ? & ? & _); discriminate].
  split.
  - intros H. exists la, ln.
    destruct (Rle_dec (-90) la), (Rle_dec la 90),
      (Rle_dec (-180) ln), (Rle_dec ln 180);
      cbn in H; try discriminate. repeat split; assumption.
  - intros (la' & ln' & E1 & E2 & [? ?] & [? ?]).
    injection E1 as <-. injection E2 as <-.
    destruct (Rle_dec (-90) la), (Rle_dec la 90),
      (Rle_dec (-180) ln), (Rle_dec ln 180);
      cbn; try reflexivity; contradiction.
Qed.

(** C10.  [handleCoordinateSubmit] either finds both inputs parsing to
    numbers in range, sets the placemark to them and shows no alert; or it
    does not, leaves the whole state (the placemark with it) unchanged and
    shows the alert. *)
Theorem handleCoordinateSubmit_moves_iff_valid (mapReady : bool) (st : State) :
  let (st', effects) := handleCoordinateSubmit parseFloat mapReady st in
  (in_range parseFloat (coordinateInput st) /\
   placemark st' =
     {| pm_latitude := parseFloat (input_latitude (coordinateInput st));
        pm_longitude := parseFloat (input_longitude (coordinateInput st)) |} /\
   forall message, ~ In (Alert message) effects)
  \/
  (~ in_range parseFloat (coordinateInput st) /\
   st' = st /\
   effects = [Alert invalid_coordinates_message]).
Proof.
  unfold handleCoordinateSubmit.
  destruct (valid_coordinates _ _) eqn:Hvalid.
  - left. apply valid_coordinates_spec in Hvalid.
    split; [exact Hvalid|]. split; [reflexivity|].
    intros message. destruct mapReady; cbn; intros [H|H]; try discriminate;
      try destruct H as [H|H]; try discriminate; assumption.
  - right. split; [|split; reflexivity].
    intros Hin. apply valid_coordinates_spec in Hin. congruence.
Qed.

End CoordinateSubmitFacts.

(** The coordinates of the tests move the placemark and the map. *)
Example handleCoordinateSubmit_valparaiso :
  handleCoordinateSubmit sample_parseFloat true
    (typed "-33.0472" "-71.6127" initial_state)
  = ({| placemark :=
          {| pm_latitude := Num (-33.0472); pm_longitude := Num (-71.6127) |};
        showEnhancedSearch := false;
        coordinateInput := {| input_latitude := ""; input_longitude := "" |};
        showTooltip := false;
        showDrawer := false;
        incendioData := None;
        isSubmitting := false;
        incidentDeclared := false;
        propagationCone := None |},
     [EaseTo (Num (-71.6127)) (Num (-33.0472)) 15 1000; ShowTooltipAfter 100]).
Proof.
  unfold handleCoordinateSubmit. cbn [typed setCoordinateInput coordinateInput
    input_latitude input_longitude sample_parseFloat String.eqb Ascii.eqb
    Bool.eqb andb].
  rewrite (proj2 (valid_coordinates_spec (Num (-33.0472)) (Num (-71.6127)))).
  - reflexivity.
  - exists (-33.0472), (-71.6127). repeat split; lra.
Qed.

(** A latitude of 91 and text that is not a number are refused. *)
Example handleCoordinateSubmit_refused :
  handleCoordinateSubmit sample_parseFloat true
    (typed "91" "-71.6127" initial_state)
  = (typed "91" "-71.6127" initial_state, [Alert invalid_coordinates_message])
  /\
  handleCoordinateSubmit sample_parseFloat true
    (typed "invalid" "invalid" initial_state)
  = (typed "invalid" "invalid" initial_state,
     [Alert invalid_coordinates_message]).
Proof.
  split.
  - unfold handleCoordinateSubmit. cbn [typed setCoordinateInput coordinateInput
      input_latitude input_longitude sample_parseFloat String.eqb Ascii.eqb
      Bool.eqb andb].
    destruct (valid_coordinates (Num 91) (Num (-71.6127))) eqn:E; [|reflexivity].
    apply valid_coordinates_spec in E as (la & ln & E1 & _ & [_ H] & _).
    injection E1 as <-. lra.
  - reflexivity.
Qed.

End DispatchFacts.

(** ** Loading layer data *)

Module MapLayersFacts.

Import JS MapLayers.

Section LoaderFacts.

Variable Json : Type.
Variable truthy : Json -> bool.
Variable EnhancedLayer : Type.
Variable createRoadNetworkLayers : Json -> Completion (list EnhancedLayer).
Variable createPriorityPolygonLayers : Json -> Completion (list EnhancedLayer).
Variable createWaterPolygonLayers : Json -> Completion (list EnhancedLayer).
Variable createEnhancedCentralesLayers :
  Json -> string -> Completion (list EnhancedLayer).
Variable createAdministrativeRegionLayers :
  Json -> Completion (list EnhancedLayer).
Variable createElectricalSystemLayers :
  Json -> Completion (list EnhancedLayer).
Variable network : string -> FetchOutcome Json.

Local Abbreviation load :=
  (loadLayerData Json truthy EnhancedLayer createRoadNetworkLayers
     createPriorityPolygonLayers createWaterPolygonLayers
     createEnhancedCentralesLayers createAdministrativeRegionLayers
     createElectricalSystemLayers network).

Local Abbreviation load_current :=
  (loadLayerData_current Json truthy EnhancedLayer createRoadNetworkLayers
     createPriorityPolygonLayers createWaterPolygonLayers
     createEnhancedCentralesLayers createAdministrativeRegionLayers
     createElectricalSystemLayers network).

(** A call writes no entry but the one of its layer. *)
Lemma loadLayerData_other (captured : gmap string Json) (layerId : string)
    (st : State Json EnhancedLayer) (other : string) :
  other <> layerId ->
  layerData (fst (load captured layerId st)) !! other = layerData st !! other.
Proof.
  intros Hne. unfold loadLayerData.
  destruct (find_config layerId) as [config|]; [|reflexivity].
  destruct (has_data _ _ _ _); [reflexivity|].
  destruct (network (file config)) as [|[] [data|]]; cbn; try reflexivity.
  destruct (createLayers _ _ _ _ _ _ _ _ _ _); cbn;
    rewrite lookup_insert_ne by congruence; reflexivity.
Qed.

(** No call fetches more than the one file of its layer. *)
Lemma loadLayerData_fetches (captured : gmap string Json) (layerId : string)
    (st : State Json EnhancedLayer) :
  (length (snd (load captured layerId st)) <= 1)%nat.
Proof.
  unfold loadLayerData.
  destruct (find_config layerId) as [config|]; [|cbn; lia].
  destruct (has_data _ _ _ _); [cbn; lia|].
  destruct (network (file config)) as [|[] [data|]]; cbn; try lia.
  destruct (createLayers _ _ _ _ _ _ _ _ _ _); cbn; lia.
Qed.

(** When the layer id is absent from [LAYER_CONFIGS], or
    the [layerData] the callback closed over holds a truthy entry for it,
    the call fetches nothing and leaves [layerData], [enhancedLayers] and
    [loadedLayers] unchanged; and a call through the callback of the
    current render never replaces a truthy entry of [layerData]. *)
Lemma loadLayerData_guard :
  (forall captured layerId st,
      find_config layerId = None \/
      has_data Json truthy captured layerId = true ->
      load captured layerId st = (st, [])) /\
  (forall layerId st other d,
      layerData st !! other = Some d -> truthy d = true ->
      layerData (fst (load_current layerId st)) !! other = Some d).
Proof.
  split.
  - intros captured layerId st [Hnone|Hdata]; unfold loadLayerData.
    + rewrite Hnone. reflexivity.
    + destruct (find_config layerId); [|reflexivity].
      rewrite Hdata. reflexivity.
  - intros layerId st other d Hd Ht.
    destruct (decide (other = layerId)) as [->|Hne].
    + unfold loadLayerData_current, loadLayerData.
      destruct (find_config layerId); [|exact Hd].
      unfold has_data. rewrite Hd, Ht. exact Hd.
    + unfold loadLayerData_current.
      rewrite loadLayerData_other by assumption. exact Hd.
Qed.

(** C6. The claim says that once [layerData[layerId]] is set no further call
    fetches, and that loaded data is never replaced.  The guard reads the
    [layerData] the callback closed over, not the state: a callback created
    before the data was stored (the mount effect keeps the first render's)
    fetches the file again, whatever the state holds by then, and stores
    what the file holds now in place of the loaded entry. *)
Theorem stale_callback_refetches (captured : gmap string Json)
    (layerId : string) (config : LayerConfig) (data : Json)
    (st : State Json EnhancedLayer) :
  find_config layerId = Some config ->
  has_data Json truthy captured layerId = false ->
  network (file config) = Response true (Some data) ->
  snd (load captured layerId st) = [file config] /\
  layerData (fst (load captured layerId st)) !! layerId = Some data.
Proof.
  intros Hc Hd Hn. unfold loadLayerData. rewrite Hc, Hd, Hn. cbn.
  destruct (createLayers _ _ _ _ _ _ _ _ _ _); cbn;
    (split; [reflexivity | apply lookup_insert_eq]).
Qed.

End LoaderFacts.

(** The callback of the render that has the road network loaded, called
    while the file has changed to document 2. *)
Example loadLayerData_guard_roads :
  sample_load (serves 2) (layerData roads_loaded) "red-vial" roads_loaded
    = (roads_loaded, []) /\
  layerData (fst (sample_load (serves 2) (layerData roads_loaded) "red-vial"
                    roads_loaded)) !! "red-vial"%string = Some 1%nat.
Proof.
  pose proof (loadLayerData_guard nat (fun _ => true) unit no_layers no_layers
                no_layers (fun document _ => no_layers document) no_layers
                no_layers (serves 2)) as [Hguard Hkeep].
  split.
  - apply Hguard. right. reflexivity.
  - apply Hkeep; reflexivity.
Qed.

(** The first call of the first render's callback gives [roads_loaded]. *)
Example first_load :
  sample_load (serves 1) ∅ "red-vial" first_render
  = ({| layerData := <["red-vial"%string := 1%nat]> ∅;
        enhancedLayers := <["red-vial"%string := []]> ∅;
        loadedLayers := {["red-vial"%string]} ∪ ∅ |},
     ["/red_vial_valparaiso.geojson"%string]).
Proof. reflexivity. Qed.

(** With [layerData["red-vial"]] set to document 1, a further call through
    the callback of the first render (which closed over the empty
    [layerData]) fetches the file again, and stores what the file holds by
    then in place of the loaded data. *)
Lemma stale_callback_loads_again :
  layerData roads_loaded !! "red-vial"%string = Some 1%nat /\
  snd (sample_load (serves 1) ∅ "red-vial" roads_loaded)
    = ["/red_vial_valparaiso.geojson"%string] /\
  layerData (fst (sample_load (serves 2) ∅ "red-vial" roads_loaded))
    !! "red-vial"%string = Some 2%nat.
Proof.
  split; [apply lookup_singleton_eq|]. split.
  - refine (proj1 (stale_callback_refetches nat (fun _ => true) unit
                    no_layers no_layers no_layers
                    (fun document _ => no_layers document) no_layers
                    no_layers (serves 1) ∅ "red-vial"
                    {| id := "red-vial"; name := "Red Vial Valparaíso";
                       file := "/red_vial_valparaiso.geojson";
                       color := "#6b7280"; enabled := true;
                       type := RoadNetwork |}
                    1%nat roads_loaded _ _ _));
      reflexivity.
  - refine (proj2 (stale_callback_refetches nat (fun _ => true) unit
                    no_layers no_layers no_layers
                    (fun document _ => no_layers document) no_layers
                    no_layers (serves 2) ∅ "red-vial"
                    {| id := "red-vial"; name := "Red Vial Valparaíso";
                       file := "/red_vial_valparaiso.geojson";
                       color := "#6b7280"; enabled := true;
                       type := RoadNetwork |}
                    2%nat roads_loaded _ _ _));
      reflexivity.
Defined.

(** An unknown layer id is ignored. *)
Example unknown_layer :
  sample_load (serves 1) ∅ "volcanes" first_render = (first_render, []).
Proof. reflexivity. Qed.

End MapLayersFacts.

(** ** The incident API client *)

Module IncendiosFacts.

Import JS Incendios JSFacts.

Lemma map_string_chars (f : ascii -> ascii) (s : string) :
  list_ascii_of_string (map_string f s) = map f (list_ascii_of_string s).
Proof. induction s as [|c s IH]; cbn; [reflexivity | rewrite IH; reflexivity]. Qed.

Lemma ascii_upper_not_lower (c : ascii) : is_lower (ascii_upper c) = false.
Proof.
  unfold ascii_upper. destruct (is_lower c) eqn:E; [|exact E].
  unfold is_lower in *.
  apply andb_true_iff in E as [E1 E2].
  apply Nat.leb_le in E1, E2.
  pose proof (nat_ascii_bounded c) as Hb.
  rewrite nat_ascii_embedding by lia.
  apply andb_false_iff. left. apply Nat.leb_gt. lia.
Qed.

Lemma asciiToUpperCase_no_lower (s : string) (c : ascii) :
  In c (list_ascii_of_string (asciiToUpperCase s)) -> is_lower c = false.
Proof.
  unfold asciiToUpperCase. rewrite map_string_chars, in_map_iff.
  intros (c0 & <- & _). apply ascii_upper_not_lower.
Qed.

(** A lookup whose key is not inherited stays within the values of the
    table and the fallback. *)
Lemma lookup_or_member (table : list (string * string)) (key : option string)
    (fallback : string) (values : list (Property string)) :
  (forall k v, In (k, v) table -> In (Own v) values) ->
  In (Own fallback) values ->
  inherited (property_key key) = false ->
  In (lookup_or table key fallback) values.
Proof.
  intros Hvalues Hfallback Hinh. unfold lookup_or, get. rewrite Hinh.
  destruct (own_property table (property_key key)) as [v|] eqn:Hown;
    [|assumption].
  destruct (truthy_string v); [|assumption].
  clear Hinh. induction table as [|[k v'] rest IH]; cbn in Hown; [discriminate|].
  destruct (String.eqb k (property_key key)).
  - injection Hown as ->. apply (Hvalues k). left. reflexivity.
  - apply IH; [|assumption]. intros k0 v0 Hin. apply (Hvalues k0). right. exact Hin.
Qed.

Lemma lookup_or_fallback (table : list (string * string)) (key : option string)
    (fallback : string) :
  ~ In (property_key key) (map fst table) ->
  inherited (property_key key) = false ->
  lookup_or table key fallback = Own fallback.
Proof.
  intros Hnot Hinh. unfold lookup_or, get.
  rewrite (own_property_None _ _ Hnot), Hinh. reflexivity.
Qed.

Section TransformFacts.

Variable toUpperCase : string -> string.
Variable now : string.
Variable Server : Type.
Variable handle : Request -> Server -> Completion ResponseData * Server.

(** Upper-casing leaves no lower-case ASCII letter. *)
Hypothesis toUpperCase_no_lower :
  forall s c, In c (list_ascii_of_string (toUpperCase s)) -> is_lower c = false.

Lemma upper_key_not_inherited (s : option string) :
  inherited (property_key (toUpperCase <$> s)) = false.
Proof.
  destruct s as [s|]; [|reflexivity].
  change (inherited (toUpperCase s) = false).
  destruct (inherited (toUpperCase s)) eqn:E; [|reflexivity].
  apply inherited_has_lower in E as (c & Hin & Hlow).
  rewrite (toUpperCase_no_lower s c Hin) in Hlow. discriminate.
Qed.

Lemma transformBackendStatus_enum (s : option string) :
  In (transformBackendStatus toUpperCase s) ESTADOS.
Proof.
  apply lookup_or_member.
  - intros k v Hin. cbn in Hin.
    repeat (destruct Hin as [E|Hin]; [injection E as <- <-; cbn; tauto|]).
    destruct Hin.
  - cbn; tauto.
  - apply upper_key_not_inherited.
Qed.

Lemma transformBackendPriority_enum (s : option string) :
  In (transformBackendPriority toUpperCase s) PRIORIDADES.
Proof.
  apply lookup_or_member.
  - intros k v Hin. cbn in Hin.
    repeat (destruct Hin as [E|Hin]; [injection E as <- <-; cbn; tauto|]).
    destruct Hin.
  - cbn; tauto.
  - apply upper_key_not_inherited.
Qed.

Lemma transformItem_enum (item : BackendItem) :
  in_enums (transformItem toUpperCase now item).
Proof.
  split; cbn;
    [apply transformBackendStatus_enum | apply transformBackendPriority_enum].
Qed.

(** C4.  Every record [getIncendios] or [getIncendio] resolves with has its
    [estado] among activo, controlado, extinguido, cancelado and its
    [prioridad] among baja, media, alta, critica, whatever strings the
    backend sent; a status outside the table maps to activo and a priority
    outside the table to media. *)
Theorem estado_prioridad_enum :
  (forall filters w res w',
      getIncendios toUpperCase now Server handle filters w = (Returns res, w') ->
      Forall in_enums (data res)) /\
  (forall id w inc w',
      getIncendio toUpperCase now Server handle id w = (Returns inc, w') ->
      in_enums inc) /\
  (forall backendStatus,
      ~ In (property_key (toUpperCase <$> backendStatus)) (map fst statusMap) ->
      transformBackendStatus toUpperCase backendStatus = Own "activo"%string) /\
  (forall backendPriority,
      ~ In (property_key (toUpperCase <$> backendPriority))
           (map fst priorityMap) ->
      transformBackendPriority toUpperCase backendPriority
        = Own "media"%string).
Proof.
  split; [|split; [|split]].
  - intros filters w res w'. unfold getIncendios, await, send.
    destruct (handle _ _) as [[[| |items]|e] s]; cbn; try discriminate.
    intros H. injection H as <- _. cbn.
    induction items as [|item items IH]; cbn; constructor;
      [apply transformItem_enum | exact IH].
  - intros id w inc w'. unfold getIncendio, await, send.
    destruct (handle _ _) as [[[| |items]|e] s]; cbn; try discriminate.
    all: intros H; injection H as <- _; apply transformItem_enum.
  - intros s Hnot.
    apply lookup_or_fallback; [exact Hnot | apply upper_key_not_inherited].
  - intros s Hnot.
    apply lookup_or_fallback; [exact Hnot | apply upper_key_not_inherited].
Qed.

End TransformFacts.

(** The sample backend, with ASCII upper-casing: the list, one incident, and
    two strings the tables do not know. *)
Lemma estado_prioridad_enum_witness :
  Forall in_enums
    (map (transformItem asciiToUpperCase sample_now)
       (server _ sample_world)) /\
  in_enums
    (transformItem asciiToUpperCase sample_now
       (sample_item 1 "En_Combate" "urgente")) /\
  transformBackendStatus asciiToUpperCase (Some "quemando"%string)
    = Own "activo"%string /\
  transformBackendPriority asciiToUpperCase (Some "urgente"%string)
    = Own "media"%string.
Proof.
  pose proof (estado_prioridad_enum asciiToUpperCase sample_now
                (list BackendItem) sample_handle asciiToUpperCase_no_lower)
    as (Hlist & Hone & Hstatus & Hpriority).
  split; [|split; [|split]].
  - apply (Hlist None sample_world
             {| data := map (transformItem asciiToUpperCase sample_now)
                          (server _ sample_world);
                total := 2; result_page := 1; result_limit := 10 |}
             {| server := server _ sample_world;
                trace := [GET_incendios []] |}).
    reflexivity.
  - apply (Hone (Some 1%Z) sample_world _
             {| server := server _ sample_world;
                trace := [GET_incendio (Some 1%Z)] |}).
    reflexivity.
  - apply Hstatus. cbn. intros H.
    repeat (destruct H as [H|H]; [discriminate|]). destruct H.
  - apply Hpriority. cbn. intros H.
    repeat (destruct H as [H|H]; [discriminate|]). destruct H.
Defined.

Example transformItem_sample :
  estado (transformItem asciiToUpperCase sample_now
            (sample_item 1 "En_Combate" "urgente")) = Own "activo"%string /\
  prioridad (transformItem asciiToUpperCase sample_now
               (sample_item 2 "extinguido" "Alta")) = Own "alta"%string.
Proof. split; reflexivity. Qed.

(** The frontend tables are read with lower-cased keys, and one inherited
    name is all lower case. *)
Example transformFrontendStatus_constructor :
  transformFrontendStatus asciiToLowerCase (Some "constructor"%string)
    = Builtin "constructor".
Proof. reflexivity. Qed.

Section Refetch.

Variable toUpperCase : string -> string.
Variable toLowerCase : string -> string.
Variable now : string.
Variable Server : Type.
Variable handle : Request -> Server -> Completion ResponseData * Server.

(** A mutation followed by [getIncendio] resolves exactly when both
    requests are answered, with the transform of the second answer. *)
Lemma await_send_getIncendio (mutation : Request)
    (id_of : ResponseData -> Completion (option Z))
    (w : World Server) (inc : IIncendio) (w' : World Server) :
  await Server (send Server handle mutation)
    (fun answer =>
       match id_of answer with
       | Returns fetched => getIncendio toUpperCase now Server handle fetched
       | Throws e => reject Server e
       end) w = (Returns inc, w')
  <-> refetched_after toUpperCase now Server handle mutation id_of w w' inc.
Proof.
  unfold refetched_after, getIncendio, await, send, resolve, reject.
  split.
  - destruct (handle mutation (server Server w)) as [[answer|e] s1] eqn:H1;
      [|discriminate].
    destruct (id_of answer) as [fetched|e] eqn:Hid; [|discriminate].
    cbn.
    destruct (handle (GET_incendio fetched) s1) as [[got|e] s2] eqn:H2;
      [|discriminate].
    destruct (as_object got) as [item|e] eqn:Hobj; [|discriminate].
    intros H. injection H as <- <-.
    exists answer, got, fetched, item, s1, s2.
    rewrite <- app_assoc. cbn. repeat split; assumption.
  - intros (answer & got & fetched & item & s1 & s2
            & H1 & Hid & H2 & Hobj & -> & ->).
    rewrite H1, Hid. cbn. rewrite H2, Hobj.
    rewrite <- app_assoc. reflexivity.
Qed.

(** C5.  Each of [createIncendio], [updateIncendio], [updateIncendioStatus]
    and [updateIncendioPriority] resolves with an incident exactly when its
    POST, PUT or PATCH was answered and the GET sent after it was answered
    too; the incident is the transform of the GET's answer, and the two
    requests are the only ones sent.  Of the mutation's own answer only
    [createIncendio] reads anything: the id to fetch. *)
Theorem mutations_refetch :
  (forall form w inc w',
      createIncendio toUpperCase toLowerCase now Server handle form w
        = (Returns inc, w') <->
      refetched_after toUpperCase now Server handle
        (POST_incendios (create_payload toLowerCase form)) created_id
        w w' inc) /\
  (forall id form w inc w',
      updateIncendio toUpperCase toLowerCase now Server handle id form w
        = (Returns inc, w') <->
      refetched_after toUpperCase now Server handle
        (PUT_incendio id (update_payload toLowerCase form)) (given_id id)
        w w' inc) /\
  (forall id estado w inc w',
      updateIncendioStatus toUpperCase toLowerCase now Server handle
        id estado w = (Returns inc, w') <->
      refetched_after toUpperCase now Server handle
        (PATCH_estado id (transformFrontendStatus toLowerCase estado))
        (given_id id) w w' inc) /\
  (forall id prioridad w inc w',
      updateIncendioPriority toUpperCase toLowerCase now Server handle
        id prioridad w = (Returns inc, w') <->
      refetched_after toUpperCase now Server handle
        (PATCH_prioridad id (transformFrontendPriority toLowerCase prioridad))
        (given_id id) w w' inc).
Proof.
  split; [|split; [|split]]; intros.
  - rewrite <- await_send_getIncendio.
    unfold createIncendio, created_id, await.
    destruct (send _ _ _ w) as [[answer|e] w1]; [|reflexivity].
    destruct (as_object answer); reflexivity.
  - rewrite <- await_send_getIncendio. reflexivity.
  - rewrite <- await_send_getIncendio. reflexivity.
  - rewrite <- await_send_getIncendio. reflexivity.
Qed.

End Refetch.

(** On the sample backend a status update is a PATCH and then a GET, and the
    incident returned shows the stored status. *)
Example updateIncendioStatus_sample :
  exists inc w',
    updateIncendioStatus asciiToUpperCase asciiToLowerCase sample_now
      (list BackendItem) sample_handle 1 (Some "Controlado"%string) sample_world
    = (Returns inc, w') /\
    estado inc = Own "controlado"%string /\
    trace _ w' = [ PATCH_estado 1 (Own "CONTROLADO"%string);
                   GET_incendio (Some 1%Z) ].
Proof. eexists. eexists. split; [reflexivity|]. split; reflexivity. Qed.

(** A rejected PATCH sends no GET and resolves with nothing. *)
Example updateIncendioStatus_rejected :
  updateIncendioStatus asciiToUpperCase asciiToLowerCase sample_now
    (list BackendItem) sample_handle 9 (Some "controlado"%string) sample_world
  = (Throws HttpError,
     {| server := server _ sample_world;
        trace := [PATCH_estado 9 (Own "CONTROLADO"%string)] |}).
Proof. reflexivity. Qed.

End IncendiosFacts.

(** ** Own properties of an object literal *)

Module JSLookup.

Import JS.

Lemma own_property_not_In {V : Type} (obj : list (string * V)) (key : string) :
  own_property obj key = None -> ~ In key (map fst obj).
Proof.
  induction obj as [|[k v] rest IH]; cbn; [tauto|].
  destruct (String.eqb_spec k key) as [->|Hne]; [discriminate|].
  intros H [E|Hin]; [contradiction | exact (IH H Hin)].
Qed.

Lemma own_property_In {V : Type} (obj : list (string * V)) (key : string)
    (v : V) :
  own_property obj key = Some v -> In (key, v) obj.
Proof.
  induction obj as [|[k v'] rest IH]; cbn; [discriminate|].
  destruct (String.eqb_spec k key) as [->|Hne].
  - intros E. injection E as ->. left. reflexivity.
  - intros E. right. apply IH, E.
Qed.

End JSLookup.

(** ** Declaring, searching and moving the placemark *)

Module InteractionFacts.

Import JS Cone Dispatch ConeFacts DispatchFacts Interaction.
Local Open Scope R_scope.

Section DeclaredFacts.

Variable Math_sin : float -> float.
Variable Math_cos : float -> float.

Local Abbreviation createPropagationCone :=
  (createPropagationCone Math_sin Math_cos).
Local Abbreviation handleDeclareIncident :=
  (handleDeclareIncident Math_sin Math_cos).

(** X4. Every ok response whose body is a JSON object declares the incident:
    the body is stored as [incendioData], [incidentDeclared] is set,
    [isSubmitting] is back to false and the placemark is untouched, whatever
    the cone does. The error alert is shown exactly when
    [createPropagationCone] throws, and then the incident stays declared
    although the drawer is not opened; with no cone (or a cone) the drawer
    opens and [propagationCone] is kept (or set). *)
Theorem declared_on_every_ok_response (status : Z) (data : IncidentData)
    (st : State) :
  let (st', effects) :=
    handleDeclareIncident (Response true status (JsonObject data)) st in
  incendioData st' = Some data /\
  incidentDeclared st' = true /\
  isSubmitting st' = false /\
  placemark st' = placemark st /\
  ((exists e, createPropagationCone (Some data) = Throws e) <->
   In (Alert declare_error_message) effects) /\
  ((exists e, createPropagationCone (Some data) = Throws e) ->
   showDrawer st' = showDrawer st /\ propagationCone st' = propagationCone st) /\
  (createPropagationCone (Some data) = Returns None ->
   showDrawer st' = true /\ propagationCone st' = propagationCone st) /\
  (forall cone, createPropagationCone (Some data) = Returns (Some cone) ->
   showDrawer st' = true /\ propagationCone st' = Some cone).
Proof.
  unfold Dispatch.handleDeclareIncident, declareTry. cbn [negb].
  destruct (createPropagationCone (Some data)) as [[cone|]|e]; cbn;
    split_and!; try reflexivity.
  - split; [intros [e He]; discriminate | intros [H|[]]; discriminate].
  - intros [e He]; discriminate.
  - discriminate.
  - intros c Hc. injection Hc as <-. split; reflexivity.
  - split; [intros [e He]; discriminate | intros [H|[]]; discriminate].
  - intros [e He]; discriminate.
  - intros _. split; reflexivity.
  - discriminate.
  - split; [intros _; right; left; reflexivity | intros _; eauto].
  - intros _. split; reflexivity.
  - discriminate.
  - discriminate.
Qed.

(** The guard of the four placemark handlers. *)
Lemma declared_placemark_is_fixed (at_ : LngLat) (v : View) :
  incidentDeclared (dispatch v) = true ->
  onPlacemarkDragStart at_ v = (v, []) /\
  onPlacemarkDrag at_ v = (v, []) /\
  onPlacemarkDragEnd at_ v = (v, []) /\
  onDoubleClick at_ v = (v, []).
Proof.
  intros H. unfold onPlacemarkDragStart, onPlacemarkDrag, onPlacemarkDragEnd,
    onDoubleClick. rewrite H. repeat split.
Qed.

(** An ok response with an object sets [incidentDeclared] and keeps the
    placemark. *)
Lemma ok_response_declares (status : Z) (data : IncidentData) (st : State) :
  let st' :=
    fst (handleDeclareIncident (Response true status (JsonObject data)) st) in
  incidentDeclared st' = true /\ placemark st' = placemark st.
Proof.
  unfold Dispatch.handleDeclareIncident, declareTry. cbn [negb].
  destruct (createPropagationCone (Some data)) as [[cone|]|e]; cbn;
    split; reflexivity.
Qed.

(** X5. Once an ok response with an object has been handled, the placemark is
    fixed where the incident was declared: drag start, drag, drag end and
    double click at any position leave the whole view as it is and cause no
    effect. *)
Theorem ok_response_fixes_placemark (status : Z) (data : IncidentData)
    (at_ : LngLat) (v : View) :
  let declared :=
    with_dispatch
      (fst (handleDeclareIncident (Response true status (JsonObject data))
              (dispatch v))) v in
  onPlacemarkDragStart at_ declared = (declared, []) /\
  onPlacemarkDrag at_ declared = (declared, []) /\
  onPlacemarkDragEnd at_ declared = (declared, []) /\
  onDoubleClick at_ declared = (declared, []) /\
  placemark (dispatch declared) = placemark (dispatch v).
Proof.
  cbn zeta.
  destruct (ok_response_declares status data (dispatch v)) as [Hd Hp].
  cbn zeta in Hd, Hp.
  pose proof (declared_placemark_is_fixed at_
    (with_dispatch
       (fst (handleDeclareIncident (Response true status (JsonObject data))
               (dispatch v))) v) Hd) as (H1 & H2 & H3 & H4).
  split_and!; assumption.
Qed.

End DeclaredFacts.

Section GeocodingFacts.

Variable trim : string -> string.
Variable parseFloat : string -> number.
Variable encodeURIComponent : string -> option string.

(** X6. [handleSearch] touches nothing but the placemark and the tooltip. A
    query that trims to the empty text does nothing at all: no request, no
    alert. For any other query, when [encodeURIComponent] throws, no request
    is sent, the view is unchanged and the one effect is the error alert;
    otherwise exactly one geocoding request is sent, with the encoded query,
    and then either the answer is an array with an object first and the
    placemark becomes [parseFloat] of its [lat] and [lon] without any
    validation or alert (also on a declared incident), or the view is
    unchanged and exactly one alert is shown. *)
Theorem handleSearch_frame (mapReady : bool) (outcome : SearchOutcome)
    (v : View) :
  let (v', effects) :=
    handleSearch trim parseFloat encodeURIComponent mapReady outcome v in
  same_incident (dispatch v) (dispatch v') /\
  isDragging v' = isDragging v /\ events v' = events v /\
  searchQuery v' = searchQuery v /\
  (trim (searchQuery v) = ""%string -> v' = v /\ effects = []) /\
  (trim (searchQuery v) <> ""%string ->
   (encodeURIComponent (searchQuery v) = None ->
    v' = v /\ effects = [Did (Alert search_error_message)]) /\
   (forall encoded,
      encodeURIComponent (searchQuery v) = Some encoded ->
      List.filter is_search effects = [Geocode encoded] /\
      ((exists result rest,
           outcome = SearchResponse (SearchResults (Some result :: rest)) /\
           placemark (dispatch v') =
             {| pm_latitude := parseFloat (property_key (result_lat result));
                pm_longitude :=
                  parseFloat (property_key (result_lon result)) |} /\
           List.filter is_alert effects = [])
       \/
       (v' = v /\ length (List.filter is_alert effects) = 1%nat)))).
Proof.
  unfold handleSearch, searchTry, truthy_string, same_incident.
  destruct (String.eqb_spec (trim (searchQuery v)) "") as [E|E]; cbn [negb].
  - split_and!; try reflexivity.
    + intros _. split; reflexivity.
    + intros Hne. contradiction.
  - destruct (encodeURIComponent (searchQuery v)) as [encoded|].
    + destruct outcome as [|[| |[|[result|] rest]]].
      1-4,6: split_and!; try reflexivity; try (intros Hb; contradiction);
             intros _; (split; [discriminate|]); intros x Hx;
             injection Hx as <-; (split; [reflexivity|]); right;
             split; reflexivity.
      split_and!; try reflexivity; try (intros Hb; contradiction).
      intros _. split; [discriminate|]. intros x Hx. injection Hx as <-.
      split; [destruct mapReady; reflexivity|].
      left. exists result, rest. split; [reflexivity|]. split; [reflexivity|].
      destruct mapReady; reflexivity.
    + split_and!; try reflexivity; try (intros Hb; contradiction).
      intros _. split; [intros _; split; reflexivity | discriminate].
Qed.

End GeocodingFacts.

Section PlacemarkFacts.

Variable parseFloat : string -> number.
Variable Math_sin : float -> float.
Variable Math_cos : float -> float.

(** X7. A placemark that is a point of the globe (a latitude within -90..90
    and a longitude within -180..180, neither NaN) stays one through
    [handleCoordinateSubmit], whatever was typed, and through
    [handleDeclareIncident], whatever the request comes back with. *)
Theorem valid_placemark_kept (mapReady : bool) (outcome : FetchOutcome)
    (st : State) :
  valid_placemark st ->
  valid_placemark (fst (handleCoordinateSubmit parseFloat mapReady st)) /\
  valid_placemark
    (fst (handleDeclareIncident Math_sin Math_cos outcome st)).
Proof.
  intros Hvalid. split.
  - unfold handleCoordinateSubmit.
    destruct (valid_coordinates _ _) eqn:E; [exact E | exact Hvalid].
  - unfold valid_placemark, handleDeclareIncident.
    assert (Hp : forall o s,
               placemark (fst (declareTry Math_sin Math_cos o s))
               = placemark s).
    { intros o s. unfold declareTry.
      destruct o as [|[] status [| |data]]; cbn; try reflexivity.
      destruct (createPropagationCone Math_sin Math_cos (Some data))
        as [[c|]|e]; reflexivity. }
    specialize (Hp outcome (setIsSubmitting true st)).
    destruct (declareTry Math_sin Math_cos outcome (setIsSubmitting true st))
      as [st1 completion].
    cbn [fst] in *. cbn. rewrite Hp. exact Hvalid.
Qed.

End PlacemarkFacts.

Lemma valid_placemark_kept_witness :
  valid_placemark
    (fst (handleCoordinateSubmit sample_parseFloat true
            (typed "91" "-71.6127" initial_state))) /\
  valid_placemark
    (fst (handleDeclareIncident sample_sin sample_cos Rejected
            (typed "91" "-71.6127" initial_state))).
Proof.
  apply (valid_placemark_kept sample_parseFloat sample_sin sample_cos true
           Rejected (typed "91" "-71.6127" initial_state)).
  change (valid_coordinates (Num (-33.0472)) (Num (-71.6127)) = true).
  apply valid_coordinates_spec.
  exists (-33.0472), (-71.6127). repeat split; lra.
Defined.

End InteractionFacts.

(** ** The road layers *)

Module LayerBuildersFacts.

Import JS JSFacts JSLookup LayerBuilders.

Lemma concat_Permutation {A : Type} (l k : list (list A)) :
  l ≡ₚ k -> concat l ≡ₚ concat k.
Proof.
  induction 1 as [|x l k _ IH|x y l|l k m _ IH1 _ IH2]; cbn.
  - reflexivity.
  - rewrite IH. reflexivity.
  - rewrite !app_assoc. apply Permutation_app_tail, Permutation_app_comm.
  - etransitivity; eassumption.
Qed.

Lemma filter_split {A : Type} (f : A -> bool) (l : list A) :
  List.filter f l ++ List.filter (fun x => negb (f x)) l ≡ₚ l.
Proof.
  induction l as [|x l IH]; cbn; [reflexivity|].
  destruct (f x); cbn.
  - rewrite IH. reflexivity.
  - rewrite <- Permutation_middle, IH. reflexivity.
Qed.

Lemma insert_entry_Permutation {V : Type} (entry : string * V) sorted :
  insert_entry entry sorted ≡ₚ entry :: sorted.
Proof.
  induction sorted as [|first rest IH]; cbn; [reflexivity|].
  destruct (index_value entry <=? index_value first)%N; [reflexivity|].
  rewrite IH. apply perm_swap.
Qed.

Lemma sort_entries_Permutation {V : Type} (obj : list (string * V)) :
  sort_entries obj ≡ₚ obj.
Proof.
  induction obj as [|entry rest IH]; cbn; [reflexivity|].
  rewrite insert_entry_Permutation, IH. reflexivity.
Qed.

(** [Object.entries] lists every own property once. *)
Lemma entries_Permutation {V : Type} (obj : list (string * V)) :
  entries obj ≡ₚ obj.
Proof.
  unfold entries. rewrite sort_entries_Permutation. apply filter_split.
Qed.

Section Grouping.

Variable F : Type.
Variable key_of : F -> string.

Lemma push_to_keys key (x : F) acc :
  map fst (push_to key x acc) = map fst acc.
Proof.
  induction acc as [|[k g] rest IH]; cbn; [reflexivity|].
  destruct (String.eqb k key); cbn; [reflexivity | rewrite IH; reflexivity].
Qed.

Lemma push_to_concat key (x : F) acc :
  In key (map fst acc) ->
  concat (map snd (push_to key x acc)) ≡ₚ x :: concat (map snd acc).
Proof.
  induction acc as [|[k g] rest IH]; cbn; [tauto|].
  destruct (String.eqb_spec k key) as [->|Hne]; cbn.
  - intros _. rewrite <- app_assoc. cbn.
    rewrite <- Permutation_middle. reflexivity.
  - intros [E|Hin]; [contradiction|].
    rewrite (IH Hin). rewrite <- Permutation_middle. reflexivity.
Qed.

Lemma push_to_groups key (x : F) acc :
  key_of x = key ->
  Forall (fun entry =>
            inherited (fst entry) = false /\ snd entry <> [] /\
            Forall (fun f => key_of f = fst entry) (snd entry)) acc ->
  Forall (fun entry =>
            inherited (fst entry) = false /\ snd entry <> [] /\
            Forall (fun f => key_of f = fst entry) (snd entry))
    (push_to key x acc).
Proof.
  intros Hkey. induction 1 as [|[k g] rest (Hi & Hne & Hg) Hrest IH]; cbn;
    [constructor|].
  destruct (String.eqb_spec k key) as [->|Hdiff].
  - constructor; [|assumption]. cbn in *.
    split; [assumption|]. split.
    + destruct g; discriminate.
    + apply Forall_app. split; [assumption|].
      constructor; [assumption|constructor].
  - constructor; [|exact IH]. cbn in *. auto.
Qed.

Lemma group_step_grouped (x : F) acc acc1 seen :
  grouped key_of acc seen ->
  group_step (key_of x) x acc = Returns acc1 ->
  grouped key_of acc1 (seen ++ [x]).
Proof.
  intros (Hnd & Hgroups & Hperm). unfold group_step.
  destruct (own_property acc (key_of x)) as [g|] eqn:Hown.
  - intros E. injection E as <-. split; [|split].
    + rewrite push_to_keys. exact Hnd.
    + apply push_to_groups; [reflexivity | exact Hgroups].
    + rewrite push_to_concat.
      * rewrite Hperm. apply Permutation_cons_append.
      * apply own_property_In in Hown. apply in_map_iff.
        exists (key_of x, g). split; [reflexivity | exact Hown].
  - destruct (inherited (key_of x)) eqn:Hinh; [discriminate|].
    intros E. injection E as <-. split; [|split].
    + rewrite map_app. cbn. apply NoDup_app. split; [exact Hnd|].
      split; [|apply NoDup_singleton].
      intros k Hin Hk. apply list_elem_of_In in Hin. apply list_elem_of_singleton in Hk.
      subst k. exact (own_property_not_In _ _ Hown Hin).
    + apply Forall_app. split; [exact Hgroups|].
      constructor; [|constructor]. cbn. split; [assumption|].
      split; [discriminate|]. constructor; [reflexivity|constructor].
    + rewrite map_app, concat_app. cbn. rewrite Hperm. reflexivity.
Qed.

End Grouping.

Section GroupingFold.

Variable F : Type.
Variable key_of : F -> string.

Lemma group_from_grouped (features : list F) :
  forall acc seen grouped_,
    grouped key_of acc seen ->
    group_from key_of features acc = Returns grouped_ ->
    grouped key_of grouped_ (seen ++ features).
Proof.
  induction features as [|x rest IH]; intros acc seen result Hacc; cbn.
  - intros E. injection E as <-. rewrite app_nil_r. exact Hacc.
  - destruct (group_step (key_of x) x acc) as [acc1|e] eqn:Hstep; [|discriminate].
    intros E. replace (seen ++ x :: rest) with ((seen ++ [x]) ++ rest)
      by (rewrite <- app_assoc; reflexivity).
    eapply IH; [|exact E]. eapply group_step_grouped; eassumption.
Qed.


End GroupingFold.

Section RoadFacts.

Variable F : Type.
Variable source_layer : F -> option string.

Lemma road_layer_id_inj (a b : string * list F) :
  layer_id (road_layer F a) = layer_id (road_layer F b) -> fst a = fst b.
Proof.
  cbn. intros E. injection E as E. exact E.
Qed.

(** X13. When [createRoadNetworkLayers] returns, its layers partition the
    features of the data: together the layers' collections hold exactly the
    input features (none lost, none twice), the layer ids are pairwise
    different, no layer is empty, and every feature of a layer has that
    layer's [sourceLayer] as its [source_layer], with [otros_viales] for a
    missing or empty one. *)
Theorem createRoadNetworkLayers_partition (features : list F)
    (layers : list (RoadLayer F)) :
  createRoadNetworkLayers source_layer (Some features) = Returns layers ->
  concat (map layer_features layers) ≡ₚ features /\
  NoDup (map layer_id layers) /\
  Forall (fun layer =>
            layer_features layer <> [] /\
            Forall (fun f => road_key source_layer f = sourceLayer layer)
              (layer_features layer)) layers.
Proof.
  unfold createRoadNetworkLayers.
  destruct (group_from (road_key source_layer) features []) as [acc|e] eqn:Hg;
    [|discriminate].
  intros E. injection E as <-.
  assert (Hinit : grouped (road_key source_layer) [] []).
  { split; [constructor|]. split; [constructor | reflexivity]. }
  destruct (group_from_grouped F _ features [] [] acc Hinit Hg)
    as (Hnd & Hgroups & Hperm). cbn in Hperm.
  pose proof (entries_Permutation acc) as He.
  split; [|split].
  - rewrite map_map. cbn.
    rewrite <- Hperm. apply concat_Permutation, Permutation_map, He.
  - assert (Hkeys : NoDup (map fst (entries acc))).
    { assert (Hp : map fst (entries acc) ≡ₚ map fst acc)
        by (apply Permutation_map, He).
      rewrite Hp. exact Hnd. }
    revert Hkeys. generalize (entries acc). intros l.
    induction l as [|a l IH]; cbn; intros Hl; [constructor|].
    apply NoDup_cons in Hl as [Ha Hl]. apply NoDup_cons. split; [|auto].
    intros Hin. apply Ha. apply list_elem_of_In in Hin. apply list_elem_of_In.
    rewrite map_map in Hin. apply in_map_iff in Hin as (b & Hb & Hin).
    apply in_map_iff. exists b. split; [|exact Hin].
    cbn in Hb. injection Hb as Hb. exact Hb.
  - rewrite Forall_forall. intros layer Hin.
    apply list_elem_of_In, in_map_iff in Hin as (entry & <- & Hin).
    rewrite Forall_forall in Hgroups.
    assert (Hentry : entry ∈ acc).
    { rewrite <- He. apply list_elem_of_In. exact Hin. }
    destruct (Hgroups _ Hentry) as (_ & Hne & Hall). cbn. auto.
Qed.


End RoadFacts.

Lemma createRoadNetworkLayers_partition_witness :
  exists layers,
    createRoadNetworkLayers snd (Some sample_roads) = Returns layers /\
    map layer_id layers =
      ["road-7"; "road-autopistas"; "road-rutas_colectoras";
       "road-otros_viales"]%string /\
    concat (map layer_features layers) ≡ₚ sample_roads /\
    NoDup (map layer_id layers) /\
    Forall (fun layer =>
              layer_features layer <> [] /\
              Forall (fun f => road_key snd f = sourceLayer layer)
                (layer_features layer)) layers.
Proof.
  eexists. split; [vm_compute; reflexivity|]. split; [reflexivity|].
  apply (createRoadNetworkLayers_partition _ snd sample_roads).
  vm_compute. reflexivity.
Defined.

End LayerBuildersFacts.

(** ** Toggling layers and the start-up passes *)

Module LayerPanelFacts.

Import JS MapLayers LayerBuilders LayerPanel.

Section PanelFacts.

Variable Json : Type.
Variable truthy : Json -> bool.
Variable EnhancedLayer : Type.
Variable createRoadNetworkLayers : Json -> Completion (list EnhancedLayer).
Variable createPriorityPolygonLayers : Json -> Completion (list EnhancedLayer).
Variable createWaterPolygonLayers : Json -> Completion (list EnhancedLayer).
Variable createEnhancedCentralesLayers :
  Json -> string -> Completion (list EnhancedLayer).
Variable createAdministrativeRegionLayers :
  Json -> Completion (list EnhancedLayer).
Variable createElectricalSystemLayers :
  Json -> Completion (list EnhancedLayer).
Variable network : string -> FetchOutcome Json.

Local Abbreviation loadLayerData' :=
  (loadLayerData Json truthy EnhancedLayer createRoadNetworkLayers
     createPriorityPolygonLayers createWaterPolygonLayers
     createEnhancedCentralesLayers createAdministrativeRegionLayers
     createElectricalSystemLayers network).

Local Abbreviation createLayers' :=
  (createLayers Json EnhancedLayer createRoadNetworkLayers
     createPriorityPolygonLayers createWaterPolygonLayers
     createEnhancedCentralesLayers createAdministrativeRegionLayers
     createElectricalSystemLayers).

Local Abbreviation load' :=
  (load Json truthy EnhancedLayer createRoadNetworkLayers
     createPriorityPolygonLayers createWaterPolygonLayers
     createEnhancedCentralesLayers createAdministrativeRegionLayers
     createElectricalSystemLayers network).

Local Abbreviation handleLayerToggle' :=
  (handleLayerToggle Json truthy EnhancedLayer createRoadNetworkLayers
     createPriorityPolygonLayers createWaterPolygonLayers
     createEnhancedCentralesLayers createAdministrativeRegionLayers
     createElectricalSystemLayers network).

Local Abbreviation load_each' :=
  (load_each Json truthy EnhancedLayer createRoadNetworkLayers
     createPriorityPolygonLayers createWaterPolygonLayers
     createEnhancedCentralesLayers createAdministrativeRegionLayers
     createElectricalSystemLayers network).

Local Abbreviation loadEnabledLayers' :=
  (loadEnabledLayers Json truthy EnhancedLayer createRoadNetworkLayers
     createPriorityPolygonLayers createWaterPolygonLayers
     createEnhancedCentralesLayers createAdministrativeRegionLayers
     createElectricalSystemLayers network).

Local Abbreviation loadEnabledLayersOnMapReady' :=
  (loadEnabledLayersOnMapReady Json truthy EnhancedLayer createRoadNetworkLayers
     createPriorityPolygonLayers createWaterPolygonLayers
     createEnhancedCentralesLayers createAdministrativeRegionLayers
     createElectricalSystemLayers network).

(** X8. A load whose fetch rejects, answers with a status that is not ok, or
    whose [json()] rejects changes nothing: [layerData], [enhancedLayers]
    and [loadedLayers] are as before, and the one request made is the
    layer's file. The layer stays unloaded, so a later toggle or pass tries
    again. *)
Theorem loadLayerData_fetch_failure (captured : gmap string Json)
    (layerId : string) (config : LayerConfig) (st : State Json EnhancedLayer) :
  find_config layerId = Some config ->
  has_data Json truthy captured layerId = false ->
  (network (file config) = Rejected \/
   (exists body, network (file config) = Response false body) \/
   network (file config) = Response true None) ->
  loadLayerData' captured layerId st = (st, [file config]).
Proof.
  intros Hc Hd Hn. unfold loadLayerData. rewrite Hc, Hd.
  destruct Hn as [->|[[body ->]| ->]]; reflexivity.
Qed.

(** X9. When the layer builder throws on truthy data, the load leaves the
    layer half loaded: the data is stored in [layerData], but
    [enhancedLayers] and [loadedLayers] are unchanged; and the callback of
    the next render then finds the data and returns at once, without a
    fetch, so the layer is never built. *)
Theorem loadLayerData_builder_throws (captured : gmap string Json)
    (layerId : string) (config : LayerConfig) (data : Json) (e : Error)
    (st : State Json EnhancedLayer) :
  find_config layerId = Some config ->
  has_data Json truthy captured layerId = false ->
  network (file config) = Response true (Some data) ->
  createLayers' config data = Throws e ->
  truthy data = true ->
  let st1 := fst (loadLayerData' captured layerId st) in
  layerData st1 = <[layerId := data]> (layerData st) /\
  enhancedLayers st1 = enhancedLayers st /\
  loadedLayers st1 = loadedLayers st /\
  loadLayerData' (layerData st1) layerId st1 = (st1, []).
Proof.
  intros Hc Hd Hn Hb Ht. cbn zeta.
  assert (E : loadLayerData' captured layerId st =
              ({| layerData := <[layerId := data]> (layerData st);
                  enhancedLayers := enhancedLayers st;
                  loadedLayers := loadedLayers st |}, [file config])).
  { unfold loadLayerData. rewrite Hc, Hd, Hn. cbn. rewrite Hb. reflexivity. }
  rewrite E. cbn [fst layerData enhancedLayers loadedLayers].
  split_and!; try reflexivity.
  unfold loadLayerData. rewrite Hc. unfold has_data.
  rewrite lookup_insert_eq, Ht. reflexivity.
Qed.

Lemma loadLayerData_consistent (captured : gmap string Json) (layerId : string)
    (st : State Json EnhancedLayer) :
  consistent st -> consistent (fst (loadLayerData' captured layerId st)).
Proof.
  intros Hst. unfold loadLayerData.
  destruct (find_config layerId) as [config|]; [|exact Hst].
  destruct (has_data _ _ _ _); [exact Hst|].
  destruct (network (file config)) as [|[] [data|]]; cbn [fst negb]; try exact Hst.
  destruct (createLayers' config data) as [created|e]; cbn [fst].
  - intros other Hin. cbn in *.
    destruct (decide (other = layerId)) as [->|Hne].
    + rewrite !lookup_insert_eq. split; eauto.
    + rewrite !lookup_insert_ne by congruence.
      apply Hst. apply elem_of_union in Hin as [Hin|Hin]; [|exact Hin].
      apply elem_of_singleton in Hin. contradiction.
  - intros other Hin. cbn in *.
    destruct (Hst other Hin) as [Hd He]. split; [|exact He].
    destruct (decide (other = layerId)) as [->|Hne].
    + rewrite lookup_insert_eq. eauto.
    + rewrite lookup_insert_ne by congruence. exact Hd.
Qed.

Lemma load_consistent captured layerId (p : Panel Json EnhancedLayer) :
  consistent (loader p) -> consistent (loader (fst (load' captured layerId p))).
Proof.
  intros H. unfold load.
  pose proof (loadLayerData_consistent captured layerId (loader p) H) as H1.
  destruct (loadLayerData' captured layerId (loader p)). exact H1.
Qed.

Lemma load_each_consistent capturedLoaded capturedData layerIds :
  forall p : Panel Json EnhancedLayer,
    consistent (loader p) ->
    consistent (loader (fst (load_each' capturedLoaded capturedData layerIds p))).
Proof.
  induction layerIds as [|layerId rest IH]; intros p Hp; cbn [load_each];
    [exact Hp|].
  destruct (bool_decide _); [apply IH, Hp|].
  pose proof (load_consistent capturedData layerId p Hp) as H1.
  destruct (load' capturedData layerId p) as [p1 fetched]. cbn [fst] in H1.
  specialize (IH p1 H1).
  destruct (load_each' capturedLoaded capturedData rest p1). exact IH.
Qed.

(** X10. Every layer in [loadedLayers] has an entry in [layerData] and in
    [enhancedLayers]: the invariant holds at the start and is kept by
    [loadLayerData], [handleLayerToggle], the mount pass and the map-ready
    pass, whatever state their callbacks closed over and whatever the
    network and the builders do. *)
Theorem loaded_layers_have_data (capturedLayers : list (string * bool))
    (capturedLoaded : gset string) (capturedData : gmap string Json)
    (layerId : string) (enabled : bool) (p : Panel Json EnhancedLayer) :
  consistent (loader p) ->
  consistent (fst (loadLayerData' capturedData layerId (loader p))) /\
  consistent
    (loader (fst (handleLayerToggle' capturedLoaded capturedData layerId enabled p))) /\
  consistent
    (loader (fst (loadEnabledLayers' capturedLayers capturedLoaded capturedData p))) /\
  consistent
    (loader (fst (loadEnabledLayersOnMapReady' capturedLayers capturedLoaded
                    capturedData p))).
Proof.
  intros Hp. split_and!.
  - apply loadLayerData_consistent, Hp.
  - unfold handleLayerToggle.
    destruct (enabled && negb _); [|exact Hp].
    set (p1 := setIsLayerLoading _ _ _ _).
    pose proof (load_consistent capturedData layerId p1 Hp) as H1.
    destruct (load' capturedData layerId p1). exact H1.
  - unfold loadEnabledLayers.
    set (p1 := setIsLayerLoading _ _ _ _).
    pose proof (load_each_consistent capturedLoaded capturedData
                  (enabledLayerIds capturedLayers) p1 Hp) as H1.
    destruct (load_each' _ _ _ p1). exact H1.
  - unfold loadEnabledLayersOnMapReady.
    pose proof (load_each_consistent capturedLoaded capturedData
                  (enabledLayerIds capturedLayers) p Hp) as H1.
    destruct (load_each' _ _ _ p). exact H1.
Qed.

Lemma load_unloaded_fetches (layerId : string) (config : LayerConfig)
    (p : Panel Json EnhancedLayer) :
  find_config layerId = Some config ->
  snd (load' ∅ layerId p) = [file config].
Proof.
  intros Hc. unfold load, loadLayerData. rewrite Hc.
  unfold has_data. rewrite lookup_empty.
  destruct (network (file config)) as [|[] [data|]]; cbn; try reflexivity.
  destruct (createLayers' config data); reflexivity.
Qed.

Lemma load_each_first_render (layerIds : list string) :
  forall p : Panel Json EnhancedLayer,
    snd (load_each' ∅ ∅ layerIds p)
    = flat_map (fun layerId =>
                  match find_config layerId with
                  | Some config => [file config]
                  | None => []
                  end) layerIds.
Proof.
  induction layerIds as [|layerId rest IH]; intros p; cbn [load_each flat_map];
    [reflexivity|].
  rewrite bool_decide_eq_false_2 by apply not_elem_of_empty.
  assert (Hl : snd (load' ∅ layerId p) =
               match find_config layerId with
               | Some config => [file config]
               | None => []
               end).
  { destruct (find_config layerId) as [config|] eqn:Hc.
    - apply load_unloaded_fetches, Hc.
    - unfold load, loadLayerData. rewrite Hc. reflexivity. }
  destruct (load' ∅ layerId p) as [p1 fetched]. cbn [snd] in Hl. subst fetched.
  specialize (IH p1). destruct (load_each' ∅ ∅ rest p1) as [p2 more].
  cbn [snd] in *. rewrite IH. reflexivity.
Qed.

(** X11. A start-up pass that closed over the state of the first render
    (the initial [layers], nothing loaded, no data) fetches the file of every
    layer enabled in [LAYER_CONFIGS], in the order of the configuration,
    whatever the state has become by the time it runs: the mount pass and a
    map-ready pass with that closure request the same five files each. *)
Theorem first_render_passes_fetch_everything (p q : Panel Json EnhancedLayer) :
  snd (loadEnabledLayers' initialLayers ∅ ∅ p) = enabled_files /\
  snd (loadEnabledLayersOnMapReady' initialLayers ∅ ∅ q) = enabled_files.
Proof.
  unfold loadEnabledLayers, loadEnabledLayersOnMapReady.
  split.
  - set (p1 := setIsLayerLoading _ _ _ _).
    pose proof (load_each_first_render (enabledLayerIds initialLayers) p1) as H.
    destruct (load_each' ∅ ∅ _ p1). cbn [snd] in *. rewrite H. reflexivity.
  - pose proof (load_each_first_render (enabledLayerIds initialLayers) q) as H.
    destruct (load_each' ∅ ∅ _ q). cbn [snd] in *. rewrite H. reflexivity.
Qed.

Lemma set_property_lookup {V : Type} (key : string) (value : V) obj :
  own_property (set_property key value obj) key = Some value.
Proof.
  induction obj as [|[k v] rest IH]; cbn.
  - rewrite String.eqb_refl. reflexivity.
  - destruct (String.eqb k key) eqn:E; cbn; rewrite E; [reflexivity | exact IH].
Qed.

Lemma set_property_other {V : Type} (key other : string) (value : V) obj :
  other <> key ->
  own_property (set_property key value obj) other = own_property obj other.
Proof.
  intros Hne. induction obj as [|[k v] rest IH]; cbn.
  - destruct (String.eqb_spec key other); [congruence | reflexivity].
  - destruct (String.eqb_spec k key) as [->|Hk]; cbn.
    + destruct (String.eqb_spec key other); [congruence | reflexivity].
    + destruct (String.eqb k other); [reflexivity | exact IH].
Qed.

Lemma set_property_twice {V : Type} (key : string) (first second : V) obj :
  set_property key second (set_property key first obj)
  = set_property key second obj.
Proof.
  induction obj as [|[k v] rest IH]; cbn.
  - rewrite String.eqb_refl. reflexivity.
  - destruct (String.eqb k key) eqn:E; cbn; rewrite E;
      [reflexivity | rewrite IH; reflexivity].
Qed.

Lemma set_property_same {V : Type} (key : string) (value : V) obj :
  own_property obj key = Some value -> set_property key value obj = obj.
Proof.
  induction obj as [|[k v] rest IH]; cbn; [discriminate|].
  destruct (String.eqb k key).
  - intros E. injection E as ->. reflexivity.
  - intros E. rewrite (IH E). reflexivity.
Qed.

(** X12. Switching a loaded layer off and on again through the current
    callbacks fetches nothing and leaves [layerData], [enhancedLayers],
    [loadedLayers], [isLayerLoading] and [layerRevision] as they were; in
    [layers] the layer's flag goes to false and then to true while the flag
    of every other layer stays as it was, so a layer that was on ends with
    the [layers] it started from. *)
Theorem toggle_off_and_on_again (layerId : string)
    (p : Panel Json EnhancedLayer) :
  layerId ∈ loadedLayers (loader p) ->
  let current q :=
    handleLayerToggle' (loadedLayers (loader q)) (layerData (loader q)) layerId in
  let off := current p false p in
  let on := current (fst off) true (fst off) in
  snd off = [] /\ snd on = [] /\
  loader (fst on) = loader p /\
  isLayerLoading (fst on) = isLayerLoading p /\
  layerRevision (fst on) = layerRevision p /\
  own_property (layers (fst off)) layerId = Some false /\
  own_property (layers (fst on)) layerId = Some true /\
  (forall other, other <> layerId ->
     own_property (layers (fst off)) other = own_property (layers p) other /\
     own_property (layers (fst on)) other = own_property (layers p) other) /\
  (own_property (layers p) layerId = Some true -> layers (fst on) = layers p).
Proof.
  intros Hin. cbv beta zeta. unfold handleLayerToggle.
  cbn [andb fst snd loader setLayers loadedLayers].
  rewrite bool_decide_eq_true_2 by exact Hin.
  cbn [negb andb fst snd layers isLayerLoading layerRevision loader].
  split_and!; try reflexivity.
  all: unfold setLayers; cbn [layers].
  - apply set_property_lookup.
  - apply set_property_lookup.
  - intros other Hne. rewrite !set_property_other by exact Hne.
    split; reflexivity.
  - intros Hon. rewrite set_property_twice. apply set_property_same, Hon.
Qed.

(** Switching a layer off never fetches, whatever the callback closed over. *)
Lemma toggle_off_never_fetches (capturedLoaded : gset string)
    (capturedData : gmap string Json) (layerId : string)
    (p : Panel Json EnhancedLayer) :
  let (p', fetched) := handleLayerToggle' capturedLoaded capturedData layerId false p in
  fetched = [] /\ loader p' = loader p /\ isLayerLoading p' = isLayerLoading p /\
  own_property (layers p') layerId = Some false.
Proof.
  unfold handleLayerToggle. cbn. split_and!; try reflexivity.
  apply set_property_lookup.
Qed.

End PanelFacts.

Lemma loadLayerData_fetch_failure_witness :
  sample_load unreachable ∅ "golpe-unico" roads_loaded
  = (roads_loaded, ["/golpe_unico.geojson"%string]).
Proof.
  apply (loadLayerData_fetch_failure nat (fun _ => true) unit no_layers
           no_layers no_layers (fun document _ => no_layers document)
           no_layers no_layers unreachable ∅ "golpe-unico"
           {| id := "golpe-unico"; name := "Golpe Único";
              file := "/golpe_unico.geojson";
              color := "#dc2626"; enabled := true;
              type := PriorityPolygons |} roads_loaded).
  - reflexivity.
  - reflexivity.
  - left. reflexivity.
Defined.

Lemma loadLayerData_builder_throws_witness :
  let st1 := fst (sample_load_broken (serves 1) ∅ "red-vial" first_render) in
  layerData st1 = <["red-vial"%string := 1%nat]> (layerData first_render) /\
  enhancedLayers st1 = enhancedLayers first_render /\
  loadedLayers st1 = loadedLayers first_render /\
  sample_load_broken (serves 1) (layerData st1) "red-vial" st1 = (st1, []).
Proof.
  apply (loadLayerData_builder_throws nat (fun _ => true) unit broken_builder
           no_layers no_layers (fun document _ => no_layers document)
           no_layers no_layers (serves 1) ∅ "red-vial"
           {| id := "red-vial"; name := "Red Vial Valparaíso";
              file := "/red_vial_valparaiso.geojson";
              color := "#6b7280"; enabled := true; type := RoadNetwork |}
           1%nat TypeError first_render); reflexivity.
Defined.

Lemma loaded_layers_have_data_witness :
  consistent
    (fst (sample_load (serves 1) ∅ "sistema-electrico" first_render)) /\
  consistent
    (loader (fst (sample_toggle (serves 1) ∅ ∅ "sistema-electrico" true
                    first_panel))) /\
  consistent (loader (fst (sample_mount (serves 1) initialLayers ∅ ∅ first_panel))) /\
  consistent (loader (fst (sample_ready (serves 1) initialLayers ∅ ∅ first_panel))).
Proof.
  apply (loaded_layers_have_data nat (fun _ => true) unit no_layers no_layers
           no_layers (fun document _ => no_layers document) no_layers
           no_layers (serves 1) initialLayers ∅ ∅ "sistema-electrico" true
           first_panel).
  intros layerId Hin. apply not_elem_of_empty in Hin. destruct Hin.
Defined.

Lemma toggle_off_and_on_again_witness :
  let current q :=
    sample_toggle unreachable (loadedLayers (loader q)) (layerData (loader q))
      "red-vial" in
  let off := current roads_panel false roads_panel in
  let on := current (fst off) true (fst off) in
  snd off = [] /\ snd on = [] /\
  loader (fst on) = loader roads_panel /\
  isLayerLoading (fst on) = isLayerLoading roads_panel /\
  layerRevision (fst on) = layerRevision roads_panel /\
  own_property (layers (fst off)) "red-vial" = Some false /\
  own_property (layers (fst on)) "red-vial" = Some true /\
  (forall other, other <> "red-vial"%string ->
     own_property (layers (fst off)) other
       = own_property (layers roads_panel) other /\
     own_property (layers (fst on)) other
       = own_property (layers roads_panel) other) /\
  (own_property (layers roads_panel) "red-vial" = Some true ->
   layers (fst on) = layers roads_panel).
Proof.
  apply (toggle_off_and_on_again nat (fun _ => true) unit no_layers no_layers
           no_layers (fun document _ => no_layers document) no_layers
           no_layers unreachable "red-vial" roads_panel).
  apply elem_of_singleton. reflexivity.
Defined.

End LayerPanelFacts.

(** ** Description text *)

Module HtmlFacts.

Import JS Html.
Local Open Scope string_scope.

(** Tags go, a lone [<] stays. *)
Example stripTags_embalse :
  stripTags false "<b>Embalse</b> 3 < 5" = "Embalse 3 < 5".
Proof. reflexivity. Qed.

(** The entities are decoded after the tags are removed, each once: an
    escaped tag comes out as a tag. *)
Example renderHTMLContent_decodes :
  renderHTMLContent asciiTrim " a&nbsp;&amp;lt;b<br/>&lt;c&gt; " = "a &lt;b<c>".
Proof. reflexivity. Qed.

Lemma no_gt_tag_free (s : string) : contains ">" s = false -> tag_free s = true.
Proof.
  induction s as [|c rest IH]; cbn; [reflexivity|].
  intros H. apply orb_false_iff in H as [_ H].
  rewrite H, (IH H). destruct (Ascii.eqb c "<"); reflexivity.
Qed.

Lemma stripTags_tag_free (s : string) :
  forall inside, tag_free (stripTags inside s) = true.
Proof.
  induction s as [|c rest IH]; intros inside; cbn; [reflexivity|].
  destruct inside.
  - destruct (Ascii.eqb c ">"); apply IH.
  - destruct (Ascii.eqb c "<") eqn:Ec.
    + destruct (contains ">" rest) eqn:Hg; [apply IH|].
      cbn. rewrite Ec, Hg. cbn. apply no_gt_tag_free, Hg.
    + cbn. rewrite Ec. cbn. apply IH.
Qed.

Lemma tag_free_unchanged (s : string) :
  tag_free s = true -> stripTags false s = s.
Proof.
  induction s as [|c rest IH]; cbn; [reflexivity|].
  intros H. apply andb_true_iff in H as [Hc Hrest].
  destruct (Ascii.eqb c "<").
  - apply negb_true_iff in Hc. rewrite Hc. reflexivity.
  - rewrite (IH Hrest). reflexivity.
Qed.

Lemma stripTags_contains (c : ascii) (s : string) :
  forall inside, contains c (stripTags inside s) = true -> contains c s = true.
Proof.
  induction s as [|x rest IH]; intros inside; cbn; [discriminate|].
  destruct inside.
  - destruct (Ascii.eqb x ">"); intros H; apply IH in H; rewrite H;
      apply orb_true_r.
  - destruct (Ascii.eqb x "<").
    + destruct (contains ">" rest); [|cbn; tauto].
      intros H; apply IH in H; rewrite H; apply orb_true_r.
    + cbn. intros H. apply orb_true_iff in H as [H|H]; [rewrite H; reflexivity|].
      apply IH in H. rewrite H. apply orb_true_r.
Qed.

Lemma prefix_head (c : ascii) (pattern s : string) :
  String.prefix (String c pattern) s = true -> contains c s = true.
Proof.
  destruct s as [|x rest]; cbn; [discriminate|].
  destruct (Ascii.ascii_dec c x) as [->|Hne]; [|discriminate].
  rewrite Ascii.eqb_refl. reflexivity.
Qed.

Lemma replaceAll_unchanged (c : ascii) (pattern replacement s : string) :
  contains c s = false ->
  replaceAll 0 (String c pattern) replacement s = s.
Proof.
  induction s as [|x rest IH]; [reflexivity|].
  intros H. cbn [replaceAll].
  destruct (String.prefix (String c pattern) (String x rest)) eqn:Hp.
  - apply prefix_head in Hp. rewrite H in Hp. discriminate.
  - cbn in H. apply orb_false_iff in H as [_ H]. rewrite (IH H). reflexivity.
Qed.

Lemma tag_free_app (a b : string) :
  tag_free (a ++ b) = true -> tag_free a = true /\ tag_free b = true.
Proof.
  induction a as [|c rest IH]; simpl; [tauto|].
  intros H. apply andb_true_iff in H as [Hc H]. destruct (IH H) as [Ha Hb].
  split; [|exact Hb]. rewrite Ha, andb_true_r.
  destruct (Ascii.eqb c "<"); [|reflexivity].
  apply negb_true_iff in Hc. apply negb_true_iff.
  destruct (contains ">" rest) eqn:E; [|reflexivity].
  assert (Hgt : contains ">" (rest ++ b) = true).
  2: { congruence. }
  clear -E. induction rest as [|x r IHr]; simpl in *; [discriminate|].
  apply orb_true_iff in E as [E|E]; [rewrite E; reflexivity|].
  rewrite (IHr E). apply orb_true_r.
Qed.

(** X15. The first replacement of [renderHTMLContent] removes every tag:
    in its result no [<] is followed by a [>] anywhere later; applying it
    again changes nothing, and text without a tag is returned as it is. *)
Theorem stripTags_removes_every_tag (s : string) :
  tag_free (stripTags false s) = true /\
  stripTags false (stripTags false s) = stripTags false s /\
  (tag_free s = true -> stripTags false s = s).
Proof.
  split; [apply stripTags_tag_free|]. split.
  - apply tag_free_unchanged, stripTags_tag_free.
  - apply tag_free_unchanged.
Qed.

Section RenderFacts.

Variable trim : string -> string.

(** [trim] returns a part of its argument. *)
Hypothesis trim_part : forall s, exists front back, s = front ++ trim s ++ back.

(** X16. On text without [&], [renderHTMLContent] is the tag removal followed
    by [trim], and its result holds no tag. (With entities it may: they are
    decoded after the tags are removed.) *)
Theorem renderHTMLContent_without_entities (s : string) :
  contains "&" s = false ->
  renderHTMLContent trim s = trim (stripTags false s) /\
  tag_free (renderHTMLContent trim s) = true.
Proof.
  intros Hamp.
  assert (Hs : contains "&" (stripTags false s) = false).
  { destruct (contains "&" (stripTags false s)) eqn:E; [|reflexivity].
    apply stripTags_contains in E. congruence. }
  assert (E : renderHTMLContent trim s = trim (stripTags false s)).
  { unfold renderHTMLContent.
    rewrite (replaceAll_unchanged "&" "nbsp;" " " _ Hs).
    rewrite (replaceAll_unchanged "&" "lt;" "<" _ Hs).
    rewrite (replaceAll_unchanged "&" "gt;" ">" _ Hs).
    rewrite (replaceAll_unchanged "&" "amp;" "&" _ Hs). reflexivity. }
  split; [exact E|]. rewrite E.
  destruct (trim_part (stripTags false s)) as (front & back & Hparts).
  pose proof (stripTags_tag_free s false) as Hfree.
  rewrite Hparts in Hfree.
  apply tag_free_app in Hfree as [_ Hfree].
  apply tag_free_app in Hfree as [Hfree _]. exact Hfree.
Qed.

End RenderFacts.

Lemma asciiTrimStart_part (s : string) :
  exists front, s = front ++ asciiTrimStart s.
Proof.
  induction s as [|c rest [front IH]]; [exists ""; reflexivity|].
  cbn [asciiTrimStart]. destruct (is_blank c).
  - exists (String c front). rewrite IH at 1. reflexivity.
  - exists "". reflexivity.
Qed.

Lemma asciiTrimEnd_part (s : string) :
  exists back, s = asciiTrimEnd s ++ back.
Proof.
  induction s as [|c rest [back IH]]; [exists ""; reflexivity|].
  cbn [asciiTrimEnd]. destruct (asciiTrimEnd rest) as [|k kept].
  - destruct (is_blank c).
    + exists (String c rest). reflexivity.
    + exists rest. reflexivity.
  - exists back. rewrite IH at 1. reflexivity.
Qed.

Lemma asciiTrim_part (s : string) :
  exists front back, s = front ++ asciiTrim s ++ back.
Proof.
  destruct (asciiTrimStart_part s) as [front Hf].
  destruct (asciiTrimEnd_part (asciiTrimStart s)) as [back Hb].
  exists front, back. unfold asciiTrim. rewrite <- Hb. exact Hf.
Qed.

Lemma renderHTMLContent_without_entities_witness :
  renderHTMLContent asciiTrim " <b>Embalse</b> Los Aromos <br/> "
    = asciiTrim (stripTags false " <b>Embalse</b> Los Aromos <br/> ") /\
  tag_free (renderHTMLContent asciiTrim " <b>Embalse</b> Los Aromos <br/> ")
    = true.
Proof.
  apply (renderHTMLContent_without_entities asciiTrim asciiTrim_part
           " <b>Embalse</b> Los Aromos <br/> ").
  reflexivity.
Defined.

End HtmlFacts.

(** ** The other calls of the incident API client *)

Module IncendiosCallsFacts.

Import JS Incendios JSFacts JSLookup IncendiosFacts IncendiosCalls.

(** *** The status and priority tables *)

(** What a table lookup with a fallback can give. *)
Lemma lookup_or_cases (table : list (string * string)) (key : option string)
    (fallback : string) :
  lookup_or table key fallback = Own fallback \/
  (exists v, In (property_key key, v) table /\ lookup_or table key fallback = Own v) \/
  (inherited (property_key key) = true /\
   lookup_or table key fallback = Builtin (property_key key)).
Proof.
  unfold lookup_or, get.
  destruct (own_property table (property_key key)) as [v|] eqn:Hown.
  - destruct (truthy_string v); [|left; reflexivity].
    right. left. exists v. split; [apply own_property_In, Hown | reflexivity].
  - destruct (inherited (property_key key)); [|left; reflexivity].
    right. right. split; reflexivity.
Qed.

Section Tables.

Variable toUpperCase : string -> string.
Variable toLowerCase : string -> string.

(** X17. The status sent to the backend is never EN_COMBATE, for any text
    (or undefined) and any lower-casing: the backend's second active status
    cannot be set from the client. Unless the lower-cased text names a
    property inherited from [Object.prototype], what is sent is one of
    DECLARADO, CONTROLADO, EXTINGUIDO and CANCELADO. *)
Theorem frontend_status_range (frontendStatus : option string) :
  transformFrontendStatus toLowerCase frontendStatus <> Own "EN_COMBATE"%string /\
  (inherited (property_key (toLowerCase <$> frontendStatus)) = false ->
   In (transformFrontendStatus toLowerCase frontendStatus)
      [Own "DECLARADO"; Own "CONTROLADO"; Own "EXTINGUIDO"; Own "CANCELADO"]%string).
Proof.
  assert (Hvalues : forall k v, In (k, v) frontendStatusMap ->
            In (@Own string v) [Own "DECLARADO"; Own "CONTROLADO"; Own "EXTINGUIDO"; Own "CANCELADO"]%string).
  { intros k v Hin. cbn in Hin.
    repeat (destruct Hin as [E|Hin]; [injection E as <- <-; cbn; tauto|]).
    destruct Hin. }
  split.
  - unfold transformFrontendStatus.
    destruct (lookup_or_cases frontendStatusMap (toLowerCase <$> frontendStatus)
                "DECLARADO") as [->|[(v & Hin & ->)|[_ ->]]]; try discriminate.
    apply Hvalues in Hin. cbn in Hin. intros E. rewrite E in Hin.
    repeat (destruct Hin as [Hin|Hin]; [discriminate|]). destruct Hin.
  - intros Hinh. apply lookup_or_member; [exact Hvalues | cbn; tauto | exact Hinh].
Qed.

Hypothesis toUpperCase_upper :
  forall s, upper_text s = true -> toUpperCase s = s.

(** X18. Frontend to backend and back is the identity on the frontend's
    values: a status (a priority) whose lower-casing is a key of the frontend
    table is sent as a backend value that [transformBackendStatus]
    ([transformBackendPriority]) reads back as that lower-cased text. *)
Theorem enum_round_trip (frontendStatus frontendPriority : string) :
  (In (toLowerCase frontendStatus) (map fst frontendStatusMap) ->
   exists backend,
     transformFrontendStatus toLowerCase (Some frontendStatus) = Own backend /\
     transformBackendStatus toUpperCase (Some backend)
       = Own (toLowerCase frontendStatus)) /\
  (In (toLowerCase frontendPriority) (map fst frontendPriorityMap) ->
   exists backend,
     transformFrontendPriority toLowerCase (Some frontendPriority)
       = Own backend /\
     transformBackendPriority toUpperCase (Some backend)
       = Own (toLowerCase frontendPriority)).
Proof.
  split; intros Hin.
  - unfold transformFrontendStatus, transformBackendStatus, lookup_or, get.
    cbn [fmap option_fmap option_map property_key].
    cbn in Hin.
    repeat (destruct Hin as [<-|Hin];
      [ cbn; eexists; split; [reflexivity|];
        rewrite toUpperCase_upper by reflexivity; reflexivity |]).
    destruct Hin.
  - unfold transformFrontendPriority, transformBackendPriority, lookup_or, get.
    cbn [fmap option_fmap option_map property_key].
    cbn in Hin.
    repeat (destruct Hin as [<-|Hin];
      [ cbn; eexists; split; [reflexivity|];
        rewrite toUpperCase_upper by reflexivity; reflexivity |]).
    destruct Hin.
Qed.

End Tables.

(** ASCII upper-casing leaves text without lower-case letters as it is. *)
Lemma asciiToUpperCase_upper (s : string) :
  upper_text s = true -> asciiToUpperCase s = s.
Proof.
  unfold upper_text, asciiToUpperCase.
  induction s as [|c rest IH]; [reflexivity|].
  cbn [list_ascii_of_string forallb map_string].
  intros H. apply andb_prop in H as [Hc Hrest].
  apply andb_prop in Hc as [_ Hc]. apply negb_true_iff in Hc.
  unfold ascii_upper at 1. rewrite Hc, (IH Hrest). reflexivity.
Qed.

Lemma enum_round_trip_witness :
  (exists backend,
     transformFrontendStatus asciiToLowerCase (Some "Controlado"%string)
       = Own backend /\
     transformBackendStatus asciiToUpperCase (Some backend)
       = Own "controlado"%string) /\
  (exists backend,
     transformFrontendPriority asciiToLowerCase (Some "CRITICA"%string)
       = Own backend /\
     transformBackendPriority asciiToUpperCase (Some backend)
       = Own "critica"%string).
Proof.
  destruct (enum_round_trip asciiToUpperCase asciiToLowerCase
              asciiToUpperCase_upper "Controlado" "CRITICA") as [Hs Hp].
  split; [apply Hs | apply Hp]; cbn; tauto.
Defined.

(** *** The query and the defaults of [getIncendios] *)

Lemma add_text_spec key value params k v :
  In (k, v) (add_text key value params) ->
  In (k, v) params \/ (k = key /\ exists s, v = Text s /\ value = Some s /\ s <> ""%string).
Proof.
  unfold add_text. destruct value as [s|]; [|tauto].
  unfold truthy_string. destruct (String.eqb_spec s ""); cbn; [tauto|].
  rewrite in_app_iff. cbn. intros [H|[H|[]]]; [tauto|].
  injection H as <- <-. right. split; [reflexivity|]. eauto.
Qed.

Lemma add_number_spec key value params k v :
  In (k, v) (add_number key value params) ->
  In (k, v) params \/ (k = key /\ exists n, v = Number n /\ value = Some n /\ n <> 0%Z).
Proof.
  unfold add_number. destruct value as [n|]; [|tauto].
  destruct (Z.eqb_spec n 0); [tauto|].
  rewrite in_app_iff. cbn. intros [H|[H|[]]]; [tauto|].
  injection H as <- <-. right. split; [reflexivity|]. eauto.
Qed.

Lemma add_text_keys key value params :
  exists tail, map fst (add_text key value params) = map fst params ++ tail /\
               (tail = [] \/ tail = [key]).
Proof.
  unfold add_text. destruct value as [s|].
  - destruct (truthy_string s).
    + exists [key]. rewrite map_app. auto.
    + exists []. rewrite app_nil_r. auto.
  - exists []. rewrite app_nil_r. auto.
Qed.

Lemma add_number_keys key value params :
  exists tail, map fst (add_number key value params) = map fst params ++ tail /\
               (tail = [] \/ tail = [key]).
Proof.
  unfold add_number. destruct value as [n|].
  - destruct (Z.eqb n 0).
    + exists []. rewrite app_nil_r. auto.
    + exists [key]. rewrite map_app. auto.
  - exists []. rewrite app_nil_r. auto.
Qed.

(** X19. The query of [getIncendios] carries a filter only when it is truthy:
    no parameter is the empty text or the number 0 (so page 0 and limit 0
    are never sent), every key is one of the seven filter names, the keys
    come in the fixed order estado, prioridad, fecha_desde, fecha_hasta,
    search, page, limit, each at most once, and no filters give no
    parameter. *)
Theorem query_carries_truthy_filters (filters : option IIncendioFilters) :
  (forall k v, In (k, v) (query filters) ->
     In k filter_keys /\ v <> Text "" /\ v <> Number 0) /\
  sublist (map fst (query filters)) filter_keys /\
  query None = [].
Proof.
  split; [|split; [|reflexivity]].
  - intros k v Hin. unfold query in Hin.
    repeat (first [ apply add_number_spec in Hin | apply add_text_spec in Hin ];
            destruct Hin as [Hin|(-> & x & -> & _ & Hx)];
            [| split; [cbn; tauto | split; congruence] ]).
    destruct Hin.
  - unfold query, filter_keys.
    destruct (add_text_keys "estado" (filters ≫= filter_estado) []) as (t1 & E1 & H1).
    destruct (add_text_keys "prioridad" (filters ≫= filter_prioridad)
                (add_text "estado" (filters ≫= filter_estado) [])) as (t2 & E2 & H2).
    set (q2 := add_text "prioridad" _ _) in *.
    destruct (add_text_keys "fecha_desde" (filters ≫= fecha_desde) q2) as (t3 & E3 & H3).
    set (q3 := add_text "fecha_desde" _ _) in *.
    destruct (add_text_keys "fecha_hasta" (filters ≫= fecha_hasta) q3) as (t4 & E4 & H4).
    set (q4 := add_text "fecha_hasta" _ _) in *.
    destruct (add_text_keys "search" (filters ≫= search) q4) as (t5 & E5 & H5).
    set (q5 := add_text "search" _ _) in *.
    destruct (add_number_keys "page" (filters ≫= page) q5) as (t6 & E6 & H6).
    set (q6 := add_number "page" _ _) in *.
    destruct (add_number_keys "limit" (filters ≫= limit) q6) as (t7 & E7 & H7).
    rewrite E7, E6, E5, E4, E3, E2, E1. cbn [map app].
    destruct H1 as [->| ->], H2 as [->| ->], H3 as [->| ->], H4 as [->| ->],
      H5 as [->| ->], H6 as [->| ->], H7 as [->| ->]; cbn;
      repeat first [ apply sublist_nil | apply sublist_skip | apply sublist_cons ];
      repeat constructor.
Qed.

Section SearchFacts.

Variable toUpperCase : string -> string.
Variable now : string.
Variable Server : Type.
Variable handle : Request -> Server -> Completion ResponseData * Server.

(** X20. [searchIncendios] with an empty query text and no limit (or limit 0)
    does what [getIncendios()] does: it sends the unfiltered request and
    resolves with every incident of the answer. *)
Theorem searchIncendios_blank (limit : option Z) (w : World Server) :
  limit = None \/ limit = Some 0%Z ->
  searchIncendios toUpperCase now Server handle "" limit w
    = await Server (getIncendios toUpperCase now Server handle None)
        (fun incendiosResponse => resolve Server (data incendiosResponse)) w.
Proof.
  intros [-> | ->]; unfold searchIncendios, await, getIncendios, send; cbn;
    destruct (handle (GET_incendios []) (server Server w)) as [[[| |items]|e] s1];
    reflexivity.
Qed.

End SearchFacts.

Lemma searchIncendios_blank_witness :
  searchIncendios asciiToUpperCase sample_now (list BackendItem) sample_handle
    "" (Some 0%Z) sample_world
  = await (list BackendItem)
      (getIncendios asciiToUpperCase sample_now (list BackendItem)
         sample_handle None)
      (fun incendiosResponse =>
         resolve (list BackendItem) (data incendiosResponse)) sample_world.
Proof.
  apply (searchIncendios_blank asciiToUpperCase sample_now (list BackendItem)
           sample_handle (Some 0%Z) sample_world).
  right. reflexivity.
Defined.

(** *** The statistics fallback *)




Section StatsFacts.

Variable toUpperCase : string -> string.
Variable now : string.
Variable Server : Type.
Variable handle : Request -> Server -> Completion ResponseData * Server.
Variable Json : Type.
Variable handle_resumen : Server -> Completion Json * Server.

Hypothesis toUpperCase_no_lower :
  forall s c, In c (list_ascii_of_string (toUpperCase s)) -> is_lower c = false.



End StatsFacts.


(** *** Failed mutations and the bulk fallback *)

Section MutationFacts.

Variable toUpperCase : string -> string.
Variable toLowerCase : string -> string.
Variable now : string.
Variable Server : Type.
Variable handle : Request -> Server -> Completion ResponseData * Server.
Variable Json : Type.
Variable handle_bulk :
  list Z -> Property string -> Server -> Completion Json * Server.

Lemma rejected_mutation (mutation : Request) (k : ResponseData -> Client Server IIncendio)
    (w : World Server) (e : Error) (s1 : Server) :
  handle mutation (server Server w) = (Throws e, s1) ->
  await Server (send Server handle mutation) k w
    = (Throws e, {| server := s1; trace := trace Server w ++ [mutation] |}).
Proof. intros H. unfold await, send. rewrite H. reflexivity. Qed.

(** X22. When the server rejects the mutation request, each of
    [createIncendio], [updateIncendio], [updateIncendioStatus] and
    [updateIncendioPriority] rejects with that same error and the mutation
    request is the only one sent: no GET follows. *)
Theorem rejected_mutation_sends_no_get (w : World Server) (e : Error) (s1 : Server) :
  (forall form,
      handle (POST_incendios (create_payload toLowerCase form)) (server Server w)
        = (Throws e, s1) ->
      createIncendio toUpperCase toLowerCase now Server handle form w
        = (Throws e,
           {| server := s1;
              trace := trace Server w
                       ++ [POST_incendios (create_payload toLowerCase form)] |})) /\
  (forall id form,
      handle (PUT_incendio id (update_payload toLowerCase form)) (server Server w)
        = (Throws e, s1) ->
      updateIncendio toUpperCase toLowerCase now Server handle id form w
        = (Throws e,
           {| server := s1;
              trace := trace Server w
                       ++ [PUT_incendio id (update_payload toLowerCase form)] |})) /\
  (forall id estado,
      handle (PATCH_estado id (transformFrontendStatus toLowerCase estado))
        (server Server w) = (Throws e, s1) ->
      updateIncendioStatus toUpperCase toLowerCase now Server handle id estado w
        = (Throws e,
           {| server := s1;
              trace := trace Server w
                       ++ [PATCH_estado id
                             (transformFrontendStatus toLowerCase estado)] |})) /\
  (forall id prioridad,
      handle (PATCH_prioridad id (transformFrontendPriority toLowerCase prioridad))
        (server Server w) = (Throws e, s1) ->
      updateIncendioPriority toUpperCase toLowerCase now Server handle id prioridad w
        = (Throws e,
           {| server := s1;
              trace := trace Server w
                       ++ [PATCH_prioridad id
                             (transformFrontendPriority toLowerCase prioridad)] |})).
Proof.
  repeat split; intros; apply rejected_mutation; assumption.
Qed.

Local Abbreviation update :=
  (updateIncendioStatus toUpperCase toLowerCase now Server handle).

Lemma updateIncendioStatus_trace (id : Z) (estado : option string)
    (w : World Server) :
  let patch := PATCH_estado id (transformFrontendStatus toLowerCase estado) in
  trace Server (snd (update id estado w)) = trace Server w ++ [patch] \/
  trace Server (snd (update id estado w))
    = trace Server w ++ [patch; GET_incendio (Some id)].
Proof.
  cbn zeta. unfold updateIncendioStatus, getIncendio, await, send, resolve, reject.
  destruct (handle _ (server Server w)) as [[answer|e] s1]; cbn; [|left; reflexivity].
  destruct (handle (GET_incendio (Some id)) s1) as [[got|e] s2]; cbn.
  - destruct (as_object got); cbn; right; rewrite <- app_assoc; reflexivity.
  - right. rewrite <- app_assoc. reflexivity.
Qed.

Lemma update_each_spec (ids : list Z) (estado : option string) :
  forall (acc : list IIncendio) (w : World Server),
  exists updated w' sent,
    update_each toUpperCase toLowerCase now Server handle ids estado acc w
      = (Returns (acc ++ updated), w') /\
    length updated <= length ids /\
    trace Server w' = trace Server w ++ sent /\
    List.filter is_patch sent
      = map (fun id => PATCH_estado id (transformFrontendStatus toLowerCase estado))
          ids.
Proof.
  induction ids as [|id rest IH]; intros acc w.
  - exists [], w, []. cbn. rewrite !app_nil_r. repeat split. lia.
  - cbn [update_each].
    pose proof (updateIncendioStatus_trace id estado w) as Htrace. cbn zeta in Htrace.
    destruct (update id estado w) as [[updated|e] w1]; cbn [snd] in Htrace.
    + destruct (IH (acc ++ [updated]) w1) as (more & w' & sent & -> & Hlen & Ht & Hp).
      exists (updated :: more), w'.
      destruct Htrace as [E|E]; rewrite E in Ht.
      * eexists. rewrite <- app_assoc in Ht. rewrite <- app_assoc.
        split; [reflexivity|]. split; [cbn; lia|]. split; [exact Ht|].
        cbn. rewrite Hp. reflexivity.
      * eexists. rewrite <- app_assoc in Ht. rewrite <- app_assoc.
        split; [reflexivity|]. split; [cbn; lia|]. split; [exact Ht|].
        cbn. rewrite Hp. reflexivity.
    + destruct (IH acc w1) as (more & w' & sent & -> & Hlen & Ht & Hp).
      exists more, w'.
      destruct Htrace as [E|E]; rewrite E in Ht.
      * eexists. rewrite <- app_assoc in Ht.
        split; [reflexivity|]. split; [cbn; lia|]. split; [exact Ht|].
        cbn. rewrite Hp. reflexivity.
      * eexists. rewrite <- app_assoc in Ht.
        split; [reflexivity|]. split; [cbn; lia|]. split; [exact Ht|].
        cbn. rewrite Hp. reflexivity.
Qed.

(** X23. When the bulk endpoint rejects, [bulkUpdateIncendiosStatus] always
    resolves, whatever the single updates do: [updated_count] is the length
    of [updated_incendios] and at most the number of ids, and the status
    PATCH requests sent are exactly one per id, in the order of the ids, each
    with the transformed status (an id whose update fails is skipped, not
    retried, and does not stop the loop). *)
Theorem bulk_fallback_resolves (ids : list Z) (estado : option string)
    (w : World Server) (e : Error) (s1 : Server) :
  handle_bulk ids (transformFrontendStatus toLowerCase estado) (server Server w)
    = (Throws e, s1) ->
  exists updated w' sent,
    bulkUpdateIncendiosStatus toUpperCase toLowerCase now Server handle Json
      handle_bulk ids estado w
      = (Returns (Computed {| updated_count := length updated;
                              updated_incendios := updated |}), w') /\
    length updated <= length ids /\
    trace Server w' = trace Server w ++ sent /\
    List.filter is_patch sent
      = map (fun id => PATCH_estado id (transformFrontendStatus toLowerCase estado))
          ids.
Proof.
  intros Hbulk.
  unfold bulkUpdateIncendiosStatus, try_catch, await, send_other, resolve.
  rewrite Hbulk. cbn.
  destruct (update_each_spec ids estado [] {| server := s1; trace := trace Server w |})
    as (updated & w' & sent & E & Hlen & Ht & Hp).
  rewrite E. cbn. exists updated, w', sent. repeat split; assumption.
Qed.

End MutationFacts.

Lemma bulk_fallback_resolves_witness :
  exists updated w' sent,
    bulkUpdateIncendiosStatus asciiToUpperCase asciiToLowerCase sample_now
      (list BackendItem) sample_handle unit (fun _ _ => no_endpoint)
      [1; 3; 2]%Z (Some "extinguido"%string) sample_world
      = (Returns (Computed {| updated_count := length updated;
                              updated_incendios := updated |}), w') /\
    length updated <= length [1; 3; 2]%Z /\
    trace _ w' = trace _ sample_world ++ sent /\
    List.filter is_patch sent
      = map (fun id =>
               PATCH_estado id
                 (transformFrontendStatus asciiToLowerCase
                    (Some "extinguido"%string)))
          [1; 3; 2]%Z.
Proof.
  apply (bulk_fallback_resolves asciiToUpperCase asciiToLowerCase sample_now
           (list BackendItem) sample_handle unit (fun _ _ => no_endpoint)
           [1; 3; 2]%Z (Some "extinguido"%string) sample_world HttpError
           (server _ sample_world)).
  reflexivity.
Defined.

(** *** Error messages *)

(** X24. [handleIncendioError] returns no message at all exactly for an
    [AxiosError] whose response data has an empty array as [detail]; an array
    [detail] is returned as it is, and an error that is no [AxiosError] gives
    the one default message. *)
Theorem handleIncendioError_empty (caught : Caught) :
  (handleIncendioError caught = [] <->
   exists data message,
     caught = AxiosError (Some data) message /\ detail data = Some (DetailList [])) /\
  (forall data message items,
     caught = AxiosError (Some data) message ->
     detail data = Some (DetailList items) ->
     handleIncendioError caught = items) /\
  (caught = OtherError -> handleIncendioError caught = [unknown_error_message]).
Proof.
  split; [|split].
  - split.
    + destruct caught as [[[[[text|items]|] err msg]|] message|]; cbn;
        try discriminate.
      * destruct (truthy_string text); [discriminate|].
        destruct (truthy_opt_string err); [discriminate|].
        destruct (truthy_opt_string msg); [discriminate|].
        destruct (truthy_string message); discriminate.
      * intros ->. eexists. eexists. split; reflexivity.
      * destruct (truthy_opt_string err); [discriminate|].
        destruct (truthy_opt_string msg); [discriminate|].
        destruct (truthy_string message); discriminate.
      * destruct (truthy_string message); discriminate.
    + intros (data & message & -> & Hd). cbn. rewrite Hd. reflexivity.
  - intros data message items -> Hd. cbn. rewrite Hd. reflexivity.
  - intros ->. reflexivity.
Qed.

End IncendiosCallsFacts.
